(** * Period-based goal tracking and snapshot engine of mokuro-reader

    A shallow embedding of [src/lib/settings/goals.ts] (period resolver,
    goal store, completion ledger, snapshot finalizer, progress calculator,
    sync merge) and of the save handlers of [ManageGoalsView.svelte],
    together with the properties the specification states about them.

    Conventions of the embedding:
    - a JavaScript [number] is [NaN], a signed infinity or a finite value
      kept as an exact reduced rational.  Rounding to binary64 is not
      modelled (only overflow of a numeric literal to [Infinity] is); the
      values the engine computes with -- calendar components, page counts
      and millisecond time values -- are integers far below 2^53, where
      binary64 arithmetic is exact.  A quotient (a percentage, a ratio) is
      kept exact where the code has its binary64 rounding: the properties
      state of such a value only what rounding leaves as it is (0, 100,
      [NaN], an order).  The two zeros are identified;
    - a [Date] is its time value (milliseconds since the epoch, UTC) or
      the invalid date;
    - the host (time zone offsets, the engine's parser of date strings)
      is a parameter of every definition that reads it, and the clock
      ([new Date()]) is an explicit argument;
    - a JavaScript object used as a dictionary is the [gmap string _] of
      its own properties; iteration with [Object.entries(..).forEach] is
      a fold over the entries of the map.  Where the code reads or
      assigns [obj[key]] under a volume id, the read goes through
      [Object.prototype] and the assignment through its ["__proto__"]
      setter ([get_property], [set_property]). *)

From Stdlib Require Import ZArith QArith Qabs Qround Qreduction Lia String Ascii List Bool.
From stdpp Require Import base option gmap strings list fin_maps pretty.

Open Scope string_scope.
Open Scope Z_scope.

(** ** JavaScript numbers *)

Inductive number : Type :=
| NaN : number
| Infinity (negative : bool) : number
| Fin (q : Q) : number.

(** A finite value is stored reduced, so that equal numbers are equal terms. *)
Definition fin (q : Q) : number := Fin (Qred q).

(** An integer-valued number. *)
Definition Int (z : Z) : number := Fin (inject_Z z).

Definition q_negative (q : Q) : bool := Qnum q <? 0.
Definition q_zero (q : Q) : bool := Qnum q =? 0.
Definition Qlt_bool (p q : Q) : bool := negb (Qle_bool q p).

Definition num_add (x y : number) : number :=
  match x, y with
  | NaN, _ | _, NaN => NaN
  | Infinity a, Infinity b => if Bool.eqb a b then Infinity a else NaN
  | Infinity a, Fin _ => Infinity a
  | Fin _, Infinity b => Infinity b
  | Fin p, Fin q => fin (p + q)
  end.

Definition num_sub (x y : number) : number :=
  match x, y with
  | NaN, _ | _, NaN => NaN
  | Infinity a, Infinity b => if Bool.eqb a b then NaN else Infinity a
  | Infinity a, Fin _ => Infinity a
  | Fin _, Infinity b => Infinity (negb b)
  | Fin p, Fin q => fin (p - q)
  end.

Definition num_mul (x y : number) : number :=
  match x, y with
  | NaN, _ | _, NaN => NaN
  | Infinity a, Infinity b => Infinity (xorb a b)
  | Infinity a, Fin q | Fin q, Infinity a =>
      if q_zero q then NaN else Infinity (xorb a (q_negative q))
  | Fin p, Fin q => fin (p * q)
  end.

Definition num_div (x y : number) : number :=
  match x, y with
  | NaN, _ | _, NaN => NaN
  | Infinity _, Infinity _ => NaN
  | Infinity a, Fin q => Infinity (xorb a (q_negative q))
  | Fin _, Infinity _ => Int 0
  | Fin p, Fin q =>
      if q_zero q then (if q_zero p then NaN else Infinity (q_negative p))
      else fin (p / q)
  end.

(** [x < y], [x <= y], [x > y], [x >= y]: every comparison with [NaN] is false. *)
Definition num_lt (x y : number) : bool :=
  match x, y with
  | NaN, _ | _, NaN => false
  | Infinity a, Infinity b => a && negb b
  | Infinity a, Fin _ => a
  | Fin _, Infinity b => negb b
  | Fin p, Fin q => Qlt_bool p q
  end.

Definition num_le (x y : number) : bool :=
  match x, y with
  | NaN, _ | _, NaN => false
  | Infinity a, Infinity b => a || negb b
  | Infinity a, Fin _ => a
  | Fin _, Infinity b => negb b
  | Fin p, Fin q => Qle_bool p q
  end.

Definition num_gt (x y : number) : bool := num_lt y x.
Definition num_ge (x y : number) : bool := num_le y x.

Definition isNaN (x : number) : bool :=
  match x with NaN => true | _ => false end.

Definition Number_isFinite (x : number) : bool :=
  match x with Fin _ => true | _ => false end.

(** ToBoolean on a number: [NaN] and zero are falsy. *)
Definition truthy (x : number) : bool :=
  match x with
  | NaN => false
  | Infinity _ => true
  | Fin q => negb (q_zero q)
  end.

Definition Math_round (x : number) : number :=
  match x with
  | Fin q => Int (Qfloor (q + (1 # 2)))
  | _ => x
  end.

Definition Math_floor (x : number) : number :=
  match x with Fin q => Int (Qfloor q) | _ => x end.

Definition Math_ceil (x : number) : number :=
  match x with Fin q => Int (Qceiling q) | _ => x end.

Definition Math_max (x y : number) : number :=
  match x, y with
  | NaN, _ | _, NaN => NaN
  | _, _ => if num_lt x y then y else x
  end.

Definition Math_min (x y : number) : number :=
  match x, y with
  | NaN, _ | _, NaN => NaN
  | _, _ => if num_lt y x then y else x
  end.

(** Truncation toward zero of a finite value (ToIntegerOrInfinity). *)
Definition truncate (q : Q) : Z := Z.quot (Qnum q) (Z.pos (Qden q)).

(** [x % y]: the remainder has the sign of the dividend. *)
Definition num_rem (x y : number) : number :=
  match x, y with
  | Fin p, Fin q => if q_zero q then NaN else fin (p - q * inject_Z (truncate (p / q)))
  | Fin _, Infinity _ => x
  | _, _ => NaN
  end.

(** [x === y] on numbers: [NaN] equals nothing. *)
Definition num_eqb (x y : number) : bool :=
  match x, y with
  | Fin p, Fin q => Qeq_bool p q
  | Infinity a, Infinity b => Bool.eqb a b
  | _, _ => false
  end.

(** ** Strings *)

(** [s.split(sep)] for a one-character separator: never the empty list. *)
Fixpoint split (sep : ascii) (s : string) : list string :=
  match s with
  | EmptyString => [EmptyString]
  | String c rest =>
      if Ascii.eqb c sep then EmptyString :: split sep rest
      else match split sep rest with
           | [] => [String c EmptyString]
           | h :: t => String c h :: t
           end
  end.

Definition dash : ascii := "-"%char.

Definition char_code (c : ascii) : Z := Z.of_N (N_of_ascii c).

Definition is_white_space (c : ascii) : bool :=
  let n := char_code c in
  (n =? 9) || (n =? 10) || (n =? 11) || (n =? 12) || (n =? 13) || (n =? 32).

Fixpoint trim_start (s : string) : string :=
  match s with
  | String c r => if is_white_space c then trim_start r else s
  | EmptyString => EmptyString
  end.

Fixpoint trim_end (s : string) : string :=
  match s with
  | EmptyString => EmptyString
  | String c r =>
      match trim_end r with
      | EmptyString => if is_white_space c then EmptyString else String c EmptyString
      | r' => String c r'
      end
  end.

Definition trim (s : string) : string := trim_end (trim_start s).

(** [s.padStart(2, '0')]. *)
Definition padStart2 (s : string) : string :=
  match s with
  | EmptyString => "00"
  | String c EmptyString => String "0"%char s
  | _ => s
  end.

(** ** StringToNumber: the value of [Number(s)] *)

Definition digit_value (radix : Z) (c : ascii) : option Z :=
  let n := char_code c in
  let v := if (48 <=? n) && (n <=? 57) then Some (n - 48)
           else if (97 <=? n) && (n <=? 122) then Some (n - 87)
           else if (65 <=? n) && (n <=? 90) then Some (n - 55)
           else None in
  match v with
  | Some d => if d <? radix then Some d else None
  | None => None
  end.

(** Reads the longest run of digits: accumulated value, number of digits
    read, the rest of the string. *)
Fixpoint read_digits (radix : Z) (s : string) (acc : Z) (count : nat)
  : Z * nat * string :=
  match s with
  | String c r =>
      match digit_value radix c with
      | Some d => read_digits radix r (acc * radix + d) (S count)
      | None => (acc, count, s)
      end
  | EmptyString => (acc, count, s)
  end.

(** The least magnitude that a literal rounds to [Infinity]: 2^1024 - 2^970. *)
Definition overflow_bound : Q := inject_Z (2 ^ 1024 - 2 ^ 970).

Definition number_of_Q (q : Q) : number :=
  if Qle_bool overflow_bound (Qabs q) then Infinity (q_negative q) else fin q.

(** mantissa * 10^e *)
Definition scale10 (mantissa e : Z) : Q :=
  if 0 <=? e then inject_Z (mantissa * 10 ^ e)
  else Qmake mantissa (Z.to_pos (10 ^ (- e))).

Definition read_exponent (s : string) : option Z :=
  match s with
  | EmptyString => Some 0
  | String c r =>
      if (Ascii.eqb c "e" || Ascii.eqb c "E")%char then
        let '(negative, r') :=
          match r with
          | String "-"%char r' => (true, r')
          | String "+"%char r' => (false, r')
          | _ => (false, r)
          end in
        match read_digits 10 r' 0 0 with
        | (e, S _, EmptyString) => Some (if negative then - e else e)
        | _ => None
        end
      else None
  end.

Definition StrUnsignedDecimalLiteral (s : string) : option number :=
  if String.eqb s "Infinity" then Some (Infinity false)
  else
    let '(ip, ni, r1) := read_digits 10 s 0 0 in
    let '(m, nf, r2) :=
      match r1 with
      | String "."%char r => read_digits 10 r ip 0
      | _ => (ip, 0%nat, r1)
      end in
    match (ni + nf)%nat with
    | O => None
    | S _ =>
        match read_exponent r2 with
        | Some e => Some (number_of_Q (scale10 m (e - Z.of_nat nf)))
        | None => None
        end
    end.

Definition NonDecimalIntegerLiteral (s : string) : option number :=
  match s with
  | String "0"%char (String p r) =>
      let radix :=
        if (Ascii.eqb p "x" || Ascii.eqb p "X")%char then Some 16
        else if (Ascii.eqb p "o" || Ascii.eqb p "O")%char then Some 8
        else if (Ascii.eqb p "b" || Ascii.eqb p "B")%char then Some 2
        else None in
      match radix with
      | Some rd =>
          match read_digits rd r 0 0 with
          | (v, S _, EmptyString) => Some (number_of_Q (inject_Z v))
          | _ => None
          end
      | None => None
      end
  | _ => None
  end.

Definition num_neg (x : number) : number :=
  match x with
  | NaN => NaN
  | Infinity a => Infinity (negb a)
  | Fin q => fin (- q)
  end.

Definition StringToNumber (s : string) : number :=
  let t := trim s in
  match t with
  | EmptyString => Int 0
  | String c r =>
      match NonDecimalIntegerLiteral t with
      | Some v => v
      | None =>
          let signed :=
            if Ascii.eqb c "-"%char then option_map num_neg (StrUnsignedDecimalLiteral r)
            else if Ascii.eqb c "+"%char then StrUnsignedDecimalLiteral r
            else StrUnsignedDecimalLiteral t in
          match signed with
          | Some v => v
          | None => NaN
          end
      end
  end.

(** [Number(v)] where [v] is a string or [undefined] (a missing element of
    a destructured array). *)
Definition Number (v : option string) : number :=
  match v with
  | Some s => StringToNumber s
  | None => NaN
  end.

(** [String(x)] / a template literal on a number.  The engine only prints
    calendar components, which are integers or [NaN]; on a finite value
    that is not an integer the integer part is printed. *)
Definition Number_toString (x : number) : string :=
  match x with
  | NaN => "NaN"
  | Infinity false => "Infinity"
  | Infinity true => "-Infinity"
  | Fin q => pretty (truncate q)
  end.

(** ** Dates: the ECMAScript time-value model *)

Definition msPerDay : Z := 86400000.

(** Time values range over +-100,000,000 days around the epoch. *)
Definition maxTimeValue : Z := 8640000000000000.

Inductive Date : Type :=
| InvalidDate : Date
| DateValue (t : Z) : Date.

Definition Day (t : Z) : Z := t / msPerDay.

Definition DaysInYear (y : Z) : Z :=
  if negb (y mod 4 =? 0) then 365
  else if negb (y mod 100 =? 0) then 366
  else if negb (y mod 400 =? 0) then 365
  else 366.

Definition DayFromYear (y : Z) : Z :=
  365 * (y - 1970) + (y - 1969) / 4 - (y - 1901) / 100 + (y - 1601) / 400.

(** The year of a day number: the largest [y] with [DayFromYear y <= d].
    The estimate from the mean year length is off by at most one. *)
Definition YearFromDay (d : Z) : Z :=
  let y0 := 1970 + (d * 400) / 146097 in
  if d <? DayFromYear y0 then y0 - 1
  else if DayFromYear (y0 + 1) <=? d then y0 + 1
  else y0.

Definition InLeapYear (y : Z) : Z := if DaysInYear y =? 366 then 1 else 0.

(** Day within the year on which month [m] (0-11) starts. *)
Definition monthStart (m leap : Z) : Z :=
  if m <=? 0 then 0
  else if m =? 1 then 31
  else if m =? 2 then 59 + leap
  else if m =? 3 then 90 + leap
  else if m =? 4 then 120 + leap
  else if m =? 5 then 151 + leap
  else if m =? 6 then 181 + leap
  else if m =? 7 then 212 + leap
  else if m =? 8 then 243 + leap
  else if m =? 9 then 273 + leap
  else if m =? 10 then 304 + leap
  else 334 + leap.

Definition MonthFromDayInYear (dwy leap : Z) : Z :=
  if dwy <? 31 then 0
  else if dwy <? 59 + leap then 1
  else if dwy <? 90 + leap then 2
  else if dwy <? 120 + leap then 3
  else if dwy <? 151 + leap then 4
  else if dwy <? 181 + leap then 5
  else if dwy <? 212 + leap then 6
  else if dwy <? 243 + leap then 7
  else if dwy <? 273 + leap then 8
  else if dwy <? 304 + leap then 9
  else if dwy <? 334 + leap then 10
  else 11.

Definition YearFromTime (t : Z) : Z := YearFromDay (Day t).

Definition DayWithinYear (t : Z) : Z := Day t - DayFromYear (YearFromTime t).

Definition MonthFromTime (t : Z) : Z :=
  MonthFromDayInYear (DayWithinYear t) (InLeapYear (YearFromTime t)).

Definition DateFromTime (t : Z) : Z :=
  let leap := InLeapYear (YearFromTime t) in
  DayWithinYear t - monthStart (MonthFromTime t) leap + 1.

(** MakeDay: months outside 0-11 carry into the year, the day of the month
    is an offset from the first of the month. *)
Definition MakeDay (year month date : Z) : Z :=
  let ym := year + month / 12 in
  let mn := month mod 12 in
  DayFromYear ym + monthStart mn (InLeapYear ym) + date - 1.

Definition TimeClip (t : Z) : Date :=
  if Z.abs t <=? maxTimeValue then DateValue t else InvalidDate.

(** The host: what the JavaScript engine and its environment decide. *)
Class Host : Type := {
  (** offset of local time from UTC, in ms, at a UTC instant *)
  LocalTZA_utc : Z -> Z;
  (** offset the engine picks to interpret a local time value *)
  LocalTZA_local : Z -> Z;
  (** [new Date(s)] for a string [s] *)
  Date_parse : string -> Date;
  (** [d.toISOString()] of a valid date *)
  Date_toISOString : Z -> string
}.

Section Dates.
Context {host : Host}.

Definition LocalTime (t : Z) : Z := t + LocalTZA_utc t.
Definition UTC (t : Z) : Z := t - LocalTZA_local t.

(** [new Date(year, monthIndex, day)]: local midnight of that calendar day.
    A year of 0-99 means 1900-1999. *)
Definition Date_new (year monthIndex day : number) : Date :=
  match year, monthIndex, day with
  | Fin y, Fin m, Fin d =>
      let yi := truncate y in
      let yr := if (0 <=? yi) && (yi <=? 99) then 1900 + yi else yi in
      TimeClip (UTC (MakeDay yr (truncate m) (truncate d) * msPerDay))
  | _, _, _ => InvalidDate
  end.

Definition getTime (d : Date) : number :=
  match d with InvalidDate => NaN | DateValue t => Int t end.

Definition getFullYear (d : Date) : number :=
  match d with InvalidDate => NaN | DateValue t => Int (YearFromTime (LocalTime t)) end.

Definition getMonth (d : Date) : number :=
  match d with InvalidDate => NaN | DateValue t => Int (MonthFromTime (LocalTime t)) end.

Definition getDate (d : Date) : number :=
  match d with InvalidDate => NaN | DateValue t => Int (DateFromTime (LocalTime t)) end.

(** Relational operators on dates compare time values. *)
Definition date_lt (a b : Date) : bool := num_lt (getTime a) (getTime b).
Definition date_le (a b : Date) : bool := num_le (getTime a) (getTime b).
Definition date_gt (a b : Date) : bool := num_gt (getTime a) (getTime b).
Definition date_ge (a b : Date) : bool := num_ge (getTime a) (getTime b).

(** A missing array element or property reads as [undefined], which every
    arithmetic use turns into [NaN]. *)
Definition or_undefined (v : option number) : number := default NaN v.

End Dates.

(** ** dateUtils *)

Module dateUtils.
Section dateUtils.
Context {host : Host}.

(** Days remaining from [startDate] until [endDate], inclusive on both ends. *)
Definition calculateDaysRemaining (endDate : string + Date) (startDate : Date) : number :=
  let end_ :=
    match endDate with
    | inr d => d
    | inl s =>
        (* Parse YYYY-MM-DD as local date, not UTC *)
        let parts := StringToNumber <$> split dash s in
        let year := or_undefined (parts !! 0%nat) in
        let month := or_undefined (parts !! 1%nat) in
        let day := or_undefined (parts !! 2%nat) in
        Date_new year (num_sub month (Int 1)) day
    end in
  if isNaN (getTime end_) then Int 0
  else
    let endMidnight :=
      Date_new (getFullYear end_) (getMonth end_) (num_add (getDate end_) (Int 1)) in
    let startMidnight :=
      Date_new (getFullYear startDate) (getMonth startDate) (getDate startDate) in
    let diffInMs := num_sub (getTime endMidnight) (getTime startMidnight) in
    let diffInDays := num_div diffInMs (Int (1000 * 60 * 60 * 24)) in
    Math_max (Int 0) (Math_round diffInDays).

Definition formatDate (date : Date) : string :=
  let year := getFullYear date in
  let month := padStart2 (Number_toString (num_add (getMonth date) (Int 1))) in
  let day := padStart2 (Number_toString (getDate date)) in
  Number_toString year +:+ "-" +:+ month +:+ "-" +:+ day.

Definition startOfDay (date : Date) : Date :=
  Date_new (getFullYear date) (getMonth date) (getDate date).

Definition seasonNames : list string := ["Winter"; "Spring"; "Summer"; "Autumn"].

Definition seasonIndex (date : Date) : number :=
  Math_floor (num_div (getMonth date) (Int 3)).

Definition seasonRange (year seasonIndex : number) : Date * Date :=
  let start := Date_new year (num_mul seasonIndex (Int 3)) (Int 1) in
  let end_ := Date_new year (num_add (num_mul seasonIndex (Int 3)) (Int 3)) (Int 1) in
  (start, end_).

Definition monthRange (year monthIndex : number) : Date * Date :=
  let start := Date_new year monthIndex (Int 1) in
  let end_ := Date_new year (num_add monthIndex (Int 1)) (Int 1) in
  (start, end_).

(** Number of days into the year (1-indexed, so Jan 1 = 1). *)
Definition daysIntoYear (date : Date) : number :=
  let startOfYear := Date_new (getFullYear date) (Int 0) (Int 1) in
  let dateMidnight := Date_new (getFullYear date) (getMonth date) (getDate date) in
  num_add
    (Math_floor (num_div (num_sub (getTime dateMidnight) (getTime startOfYear))
                         (Int (1000 * 60 * 60 * 24))))
    (Int 1).

(** Total number of days in the year of [date]. *)
Definition daysInYear (date : Date) : number :=
  let year := getFullYear date in
  if (num_eqb (num_rem year (Int 4)) (Int 0)
      && negb (num_eqb (num_rem year (Int 100)) (Int 0)))
     || num_eqb (num_rem year (Int 400)) (Int 0)
  then Int 366 else Int 365.

Definition endOfYear (year : number) : string := Number_toString year +:+ "-12-31".

(** [seasonNames[i]] for a number [i]: [undefined] unless [i] is an index. *)
Definition seasonNames_at (i : number) : option string :=
  match i with
  | Fin q =>
      if Qeq_bool q (inject_Z (truncate q)) && (0 <=? truncate q)
      then seasonNames !! Z.to_nat (truncate q) else None
  | _ => None
  end.

End dateUtils.
End dateUtils.

(** A host whose local time is UTC all year. *)
Definition utc_host_with (parse : string -> Date) (iso : Z -> string) : Host :=
  {| LocalTZA_utc := fun _ => 0; LocalTZA_local := fun _ => 0;
     Date_parse := parse; Date_toISOString := iso |}.


(** ** Types of the goal engine *)

(** [Exclude<GoalType, 'custom'>] *)
Inductive PeriodGoalType : Type := Year | Season | Month | Today.

Inductive GoalType : Type :=
| Periodic (t : PeriodGoalType) : GoalType
| Custom : GoalType.

Definition PeriodGoalType_name (t : PeriodGoalType) : string :=
  match t with
  | Year => "year" | Season => "season" | Month => "month" | Today => "today"
  end.

Definition GoalType_name (t : GoalType) : string :=
  match t with
  | Periodic p => PeriodGoalType_name p
  | Custom => "custom"
  end.

Record GoalTarget : Type := {
  target_goalType : PeriodGoalType;
  target_periodKey : string;
  target_targetVolumes : number;
  target_createdAt : string
}.

Record CustomGoal : Type := {
  custom_id : string;
  custom_name : string;
  custom_targetVolumes : number;
  custom_startDate : string;
  custom_endDate : string;
  custom_enabled : bool;
  custom_createdAt : string
}.

Inductive GoalSelection : Type :=
| PeriodSelection (goalType : PeriodGoalType) (periodKey : string) : GoalSelection
| CustomSelection (customId : string) : GoalSelection.

(** A period label.  Labels built by template literals keep the values
    they are built from; labels built by [toLocaleDateString] keep the
    date and the format, the text being the locale's. *)
Inductive Label : Type :=
| LabelText (s : string) : Label
| LabelYear (year : number) : Label
| LabelSeason (name : string) (year : number) : Label
| LabelLocaleMonthYear (d : Date) : Label
| LabelLocaleDay (d : Date) : Label.

Record GoalPeriod : Type := {
  period_goalType : GoalType;
  period_periodKey : string;
  period_label : Label;
  period_start : Date;
  period_end : Date
}.

Record GoalSnapshot : Type := {
  snapshot_goalType : GoalType;
  snapshot_periodKey : string;
  snapshot_startDate : string;
  snapshot_endDate : string;
  snapshot_closedAt : string;
  snapshot_completed : gmap string string
}.

Record GoalsData : Type := {
  targets : list GoalTarget;
  customGoals : list CustomGoal;
  activeSelection : GoalSelection
}.

(** One item of the reading-progress log. *)
Record VolumeData : Type := {
  progress : number;
  completed : bool;
  lastProgressUpdate : option string
}.

(** One item of the catalog. *)
Record CatalogVolume : Type := {
  page_count : option number
}.

#[global] Instance PeriodGoalType_eq_dec : EqDecision PeriodGoalType.
Proof. solve_decision. Defined.
#[global] Instance GoalType_eq_dec : EqDecision GoalType.
Proof. solve_decision. Defined.
#[global] Instance GoalSelection_eq_dec : EqDecision GoalSelection.
Proof. solve_decision. Defined.

(** A string is truthy when it is not empty. *)
Definition nonempty (s : string) : bool :=
  match s with EmptyString => false | _ => true end.

(** ** Period keys *)

Definition buildSeasonKey (year seasonIndex : number) : string :=
  let name :=
    match seasonIndex with
    | Fin q =>
        if Qeq_bool q (inject_Z (truncate q)) && (0 <=? truncate q) then
          default "Unknown" (dateUtils.seasonNames !! Z.to_nat (truncate q))
        else "Unknown"
    | _ => "Unknown"
    end in
  Number_toString year +:+ "-" +:+ name.

Definition buildMonthKey (year monthIndex : number) : string :=
  Number_toString year +:+ "-"
    +:+ padStart2 (Number_toString (num_add monthIndex (Int 1))).

Definition buildYearKey (year : number) : string := Number_toString year.

(** [seasonNames.indexOf(x)], -1 when absent ([x] may be [undefined]). *)
Fixpoint indexOf_from (l : list string) (x : string) (i : Z) : Z :=
  match l with
  | [] => -1
  | y :: l' => if String.eqb y x then i else indexOf_from l' x (i + 1)
  end.

Definition indexOf (l : list string) (x : option string) : Z :=
  match x with
  | Some s => indexOf_from l s 0
  | None => -1
  end.

Definition parseSeasonKey (periodKey : string) : option (number * Z) :=
  let parts := split dash periodKey in
  let yearPart := parts !! 0%nat in
  let seasonPart := parts !! 1%nat in
  let year := Number yearPart in
  let seasonIndex := indexOf dateUtils.seasonNames seasonPart in
  if negb (Number_isFinite year) || (seasonIndex <? 0) then None
  else Some (year, seasonIndex).

Definition parseMonthKey (periodKey : string) : option (number * number) :=
  let parts := split dash periodKey in
  let yearPart := parts !! 0%nat in
  let monthPart := parts !! 1%nat in
  let year := Number yearPart in
  let monthIndex := num_sub (Number monthPart) (Int 1) in
  if negb (Number_isFinite year) || num_lt monthIndex (Int 0) || num_gt monthIndex (Int 11)
  then None
  else Some (year, monthIndex).

Definition parseYearKey (periodKey : string) : option number :=
  let year := Number (Some periodKey) in
  if Number_isFinite year then Some year else None.

(** ** Objects used as dictionaries *)

(** A plain object reads a property through [Object.prototype]: under the
    names below [obj[key]] is a function (under ["__proto__"] the
    prototype object itself) also when [obj] has no property of its own
    there. *)
Definition Object_prototype_names : list string :=
  [ "constructor"; "__proto__"; "hasOwnProperty"; "isPrototypeOf";
    "propertyIsEnumerable"; "toLocaleString"; "toString"; "valueOf";
    "__defineGetter__"; "__defineSetter__"; "__lookupGetter__"; "__lookupSetter__" ].

Definition inherited (key : string) : bool :=
  existsb (String.eqb key) Object_prototype_names.

(** What [obj[key]] evaluates to when it is not [undefined]: the object's
    own property, or the member of [Object.prototype] of that name. *)
Inductive member (V : Type) : Type :=
| Own (v : V) : member V
| Inherited (name : string) : member V.
Arguments Own {V} v.
Arguments Inherited {V} name.

(** [obj[key]]; [None] is [undefined]. *)
Definition get_property {V : Type} (obj : gmap string V) (key : string)
  : option (member V) :=
  match obj !! key with
  | Some v => Some (Own v)
  | None => if inherited key then Some (Inherited key) else None
  end.

(** [obj[key] = v].  Under ["__proto__"], an object without a property of
    its own there hands the value to the setter it inherits and gets no
    property: the setter ignores a string, and makes an object the new
    prototype. *)
Definition set_property {V : Type} (obj : gmap string V) (key : string) (v : V)
  : gmap string V :=
  match obj !! key with
  | Some _ => <[key := v]> obj
  | None => if String.eqb key "__proto__" then obj else <[key := v]> obj
  end.

(** ToBoolean of [obj[key]] where the own properties are strings: a
    function or an object is truthy. *)
Definition truthy_member (m : option (member string)) : bool :=
  match m with
  | Some (Own s) => nonempty s
  | Some (Inherited _) => true
  | None => false
  end.

(** ** Period resolver *)

Section Engine.
Context {host : Host}.

Definition buildTodayKey (date : Date) : string := dateUtils.formatDate date.

Definition isDateWithinRange (dateIso : string) (start end_ : Date) : bool :=
  let date := Date_parse dateIso in
  if isNaN (getTime date) then false
  else date_ge date start && date_lt date end_.

(** The selection is not custom here: a custom selection is answered
    [null] by the first test.  The final [return] of the source (a period
    for today) is not reachable with a goal type of the declared type. *)
Definition getPeriodForSelection (selection : GoalSelection) : option GoalPeriod :=
  match selection with
  | CustomSelection _ => None
  | PeriodSelection Year periodKey =>
      match parseYearKey periodKey with
      | None => None
      | Some year =>
          let start := Date_new year (Int 0) (Int 1) in
          let end_ := Date_new (num_add year (Int 1)) (Int 0) (Int 1) in
          Some {| period_goalType := Periodic Year;
                  period_periodKey := periodKey;
                  period_label := LabelYear year;
                  period_start := start;
                  period_end := end_ |}
      end
  | PeriodSelection Season periodKey =>
      match parseSeasonKey periodKey with
      | None => None
      | Some (year, seasonIndex) =>
          let '(start, end_) := dateUtils.seasonRange year (Int seasonIndex) in
          let label :=
            LabelSeason (default "undefined" (dateUtils.seasonNames !! Z.to_nat seasonIndex))
                        year in
          Some {| period_goalType := Periodic Season;
                  period_periodKey := periodKey;
                  period_label := label;
                  period_start := start;
                  period_end := end_ |}
      end
  | PeriodSelection Month periodKey =>
      match parseMonthKey periodKey with
      | None => None
      | Some (year, monthIndex) =>
          let '(start, end_) := dateUtils.monthRange year monthIndex in
          Some {| period_goalType := Periodic Month;
                  period_periodKey := periodKey;
                  period_label := LabelLocaleMonthYear start;
                  period_start := start;
                  period_end := end_ |}
      end
  | PeriodSelection Today periodKey =>
      let parts := StringToNumber <$> split dash periodKey in
      let yearPart := parts !! 0%nat in
      let monthPart := parts !! 1%nat in
      let dayPart := parts !! 2%nat in
      match yearPart, monthPart, dayPart with
      | Some yearPart, Some monthPart, Some dayPart =>
          if negb (truthy yearPart) || negb (truthy monthPart) || negb (truthy dayPart)
          then None
          else
            let start := Date_new yearPart (num_sub monthPart (Int 1)) dayPart in
            let end_ :=
              Date_new yearPart (num_sub monthPart (Int 1)) (num_add dayPart (Int 1)) in
            Some {| period_goalType := Periodic Today;
                    period_periodKey := periodKey;
                    period_label := LabelLocaleDay start;
                    period_start := start;
                    period_end := end_ |}
      | _, _, _ => None
      end
  end.

Definition getCurrentPeriodKey (now : Date) (goalType : PeriodGoalType) : string :=
  match goalType with
  | Year => buildYearKey (getFullYear now)
  | Season => buildSeasonKey (getFullYear now) (dateUtils.seasonIndex now)
  | Month => buildMonthKey (getFullYear now) (getMonth now)
  | Today => buildTodayKey now
  end.

(** [custom.find((entry) => entry.id === id)] *)
Definition find_custom (id : string) (custom : list CustomGoal) : option CustomGoal :=
  List.find (fun entry => String.eqb (custom_id entry) id) custom.

Definition getCustomPeriod (selection : GoalSelection) (custom : list CustomGoal)
  : option GoalPeriod :=
  match selection with
  | PeriodSelection _ _ => None
  | CustomSelection customId =>
      match find_custom customId custom with
      | None => None
      | Some goal =>
          let startParts := StringToNumber <$> split dash (custom_startDate goal) in
          let endParts := StringToNumber <$> split dash (custom_endDate goal) in
          match startParts !! 0%nat, startParts !! 1%nat, startParts !! 2%nat,
                endParts !! 0%nat, endParts !! 1%nat, endParts !! 2%nat with
          | Some startYear, Some startMonth, Some startDay,
            Some endYear, Some endMonth, Some endDay =>
              if negb (truthy startYear) || negb (truthy startMonth)
                 || negb (truthy startDay) || negb (truthy endYear)
                 || negb (truthy endMonth) || negb (truthy endDay)
              then None
              else
                let start := Date_new startYear (num_sub startMonth (Int 1)) startDay in
                let end_ :=
                  Date_new endYear (num_sub endMonth (Int 1)) (num_add endDay (Int 1)) in
                Some {| period_goalType := Custom;
                        period_periodKey := custom_id goal;
                        period_label := LabelText (custom_name goal);
                        period_start := start;
                        period_end := end_ |}
          | _, _, _, _, _, _ => None
          end
      end
  end.

(** ** Goal store *)

Definition same_target (goalType : PeriodGoalType) (periodKey : string)
    (goal : GoalTarget) : bool :=
  bool_decide (target_goalType goal = goalType) && String.eqb (target_periodKey goal) periodKey.

(** [l.findIndex(p)]; [None] stands for -1. *)
Fixpoint findIndex {A : Type} (p : A -> bool) (l : list A) : option nat :=
  match l with
  | [] => None
  | x :: l' => if p x then Some 0%nat else S <$> findIndex p l'
  end.

Definition with_targetVolumes (targetVolumes : number) (goal : GoalTarget) : GoalTarget :=
  {| target_goalType := target_goalType goal;
     target_periodKey := target_periodKey goal;
     target_targetVolumes := targetVolumes;
     target_createdAt := target_createdAt goal |}.

Definition setGoalTarget (now : Z) (goalType : PeriodGoalType) (periodKey : string)
    (targetVolumes : number) (data : GoalsData) : GoalsData :=
  let existingIndex := findIndex (same_target goalType periodKey) (targets data) in
  let updatedTargets :=
    match existingIndex with
    | Some i => alter (with_targetVolumes targetVolumes) i (targets data)
    | None =>
        (targets data ++
          [ {| target_goalType := goalType;
               target_periodKey := periodKey;
               target_targetVolumes := targetVolumes;
               target_createdAt := Date_toISOString now |} ])%list
    end in
  {| targets := updatedTargets;
     customGoals := customGoals data;
     activeSelection := activeSelection data |}.

Definition removeGoalTarget (goalType : PeriodGoalType) (periodKey : string)
    (data : GoalsData) : GoalsData :=
  {| targets := List.filter (fun goal => negb (same_target goalType periodKey goal)) (targets data);
     customGoals := customGoals data;
     activeSelection := activeSelection data |}.

Definition setActiveGoalSelection (selection : GoalSelection) (data : GoalsData) : GoalsData :=
  {| targets := targets data;
     customGoals := customGoals data;
     activeSelection := selection |}.

(** The fields of a custom goal the caller supplies
    ([Omit<CustomGoal, 'id' | 'createdAt'>]). *)
Record CustomGoalFields : Type := {
  fields_name : string;
  fields_targetVolumes : number;
  fields_startDate : string;
  fields_endDate : string;
  fields_enabled : bool
}.

(** [id] is the identifier the host generates ([crypto.randomUUID()] or
    a [custom-<time>] string). *)
Definition createCustomGoal (now : Z) (id : string) (goal : CustomGoalFields)
    (data : GoalsData) : GoalsData :=
  let newGoal :=
    {| custom_id := id;
       custom_name := fields_name goal;
       custom_targetVolumes := fields_targetVolumes goal;
       custom_startDate := fields_startDate goal;
       custom_endDate := fields_endDate goal;
       custom_enabled := fields_enabled goal;
       custom_createdAt := Date_toISOString now |} in
  {| targets := targets data;
     customGoals := (customGoals data ++ [newGoal])%list;
     activeSelection := CustomSelection id |}.

Definition updateCustomGoal (updatedGoal : CustomGoal) (data : GoalsData) : GoalsData :=
  {| targets := targets data;
     customGoals :=
       List.map (fun goal => if String.eqb (custom_id goal) (custom_id updatedGoal)
                             then updatedGoal else goal)
                (customGoals data);
     activeSelection := activeSelection data |}.

Definition removeCustomGoal (now : Z) (customId : string) (data : GoalsData) : GoalsData :=
  let nextSelection :=
    match activeSelection data with
    | CustomSelection id =>
        if String.eqb id customId
        then PeriodSelection Year (getCurrentPeriodKey (DateValue now) Year)
        else activeSelection data
    | PeriodSelection _ _ => activeSelection data
    end in
  {| targets := targets data;
     customGoals := List.filter (fun goal => negb (String.eqb (custom_id goal) customId))
                                (customGoals data);
     activeSelection := nextSelection |}.

(** ** Completion ledger (completed-at map) *)

(** The part of [localStorage] the ledger touches: the ['volumes'] item
    (a record of fields per volume id, when the item is present and holds
    an object) and the ['completedAtUpdatedAt'] marker. *)
Record LocalStorage : Type := {
  ls_volumes : option (gmap string (gmap string string));
  ls_completedAtUpdatedAt : option string
}.

(** [Object.entries(obj).forEach(body)] over an accumulator. *)
Definition forEach_entries {V S : Type} (obj : gmap string V) (body : S -> string -> V -> S)
    (init : S) : S :=
  foldl (fun acc entry => body acc (fst entry) (snd entry)) init (map_to_list obj).

(** [obj[key]] is a non-empty string: a property of the object's own that
    is not the empty string.  (A member inherited from [Object.prototype]
    is truthy too, but no string; the progress calculator, which uses
    this test, hands the value on to the date test, which such a member
    fails.) *)
Definition truthy_at (obj : gmap string string) (key : string) : bool :=
  match obj !! key with
  | Some s => nonempty s
  | None => false
  end.

(** [new Date(obj[key])] for a truthy [obj[key]]: a function or an object
    is first turned into a string, its source text or "[object Object]",
    which is not a date. *)
Definition Date_of_member (m : option (member string)) : Date :=
  match m with
  | Some (Own s) => Date_parse s
  | _ => InvalidDate
  end.

(** The ledger never has a property of its own under ["__proto__"]: its
    entries are written by assignment.  (With one, the assignment below
    would replace the prototype of the payload in the middle of the
    loop.) *)
Definition persistCompletedAtMapToVolumes (browser : bool) (now : Z)
    (map : gmap string string) (ls : LocalStorage) : LocalStorage :=
  if negb browser then ls
  else
    match ls_volumes ls with
    | None => ls
    | Some parsed =>
        let volumesPayload :=
          forEach_entries map
            (fun payload volumeId completedAt =>
               match get_property payload volumeId with
               | None => payload
               | Some stored =>
                   (* the spread of a function or of [Object.prototype]
                      copies nothing: they have no enumerable property *)
                   let record :=
                     match stored with Own record => record | Inherited _ => ∅ end in
                   set_property payload volumeId (<["completedAt" := completedAt]> record)
               end)
            parsed in
        {| ls_volumes := Some volumesPayload;
           ls_completedAtUpdatedAt := Some (Date_toISOString now) |}
    end.

Definition isVolumeCompleted (volumeData : VolumeData) (totalPages : number) : bool :=
  completed volumeData
  || (num_gt totalPages (Int 0) && num_ge (progress volumeData) totalPages).

(** [$catalog[volumeId]?.page_count ?? 0] *)
Definition totalPages_of (catalog : gmap string CatalogVolume) (volumeId : string) : number :=
  match catalog !! volumeId with
  | Some c => default (Int 0) (page_count c)
  | None => Int 0
  end.

(** [s || fallback] on an optional string. *)
Definition or_else (s : option string) (fallback : string) : string :=
  match s with
  | Some v => if nonempty v then v else fallback
  | None => fallback
  end.

(** The ledger after the update function of the backfill subscriber. *)
Definition backfill_update (now : Z) (volumes : gmap string VolumeData)
    (catalog : gmap string CatalogVolume) (map : gmap string string) : gmap string string :=
  forEach_entries volumes
    (fun updated volumeId volumeData =>
       if truthy_member (get_property map volumeId) then updated
       else
         let totalPages := totalPages_of catalog volumeId in
         if negb (isVolumeCompleted volumeData totalPages) then updated
         else
           set_property updated volumeId
             (or_else (lastProgressUpdate volumeData) (Date_toISOString now)))
    map.

(** The subscriber on the progress log and the catalog, as a step on the
    ledger and the storage.  The persist runs in a microtask after the
    update; [nextMap] is the updated map, which is never [null] once the
    update ran. *)
Definition completedAt_backfill (browser : bool) (now : Z)
    (volumes : option (gmap string VolumeData)) (catalog : gmap string CatalogVolume)
    (st : gmap string string * LocalStorage) : gmap string string * LocalStorage :=
  match volumes with
  | None => st
  | Some vols =>
      if negb browser then st
      else
        let nextMap := backfill_update now vols catalog (fst st) in
        (nextMap, persistCompletedAtMapToVolumes browser now nextMap (snd st))
  end.

Definition mergeCompletedAtMap (current map : gmap string string) : gmap string string :=
  forEach_entries map
    (fun merged volumeId completedAt =>
       if negb (nonempty completedAt) then merged
       else
         let existing := get_property merged volumeId in
         if negb (truthy_member existing) then set_property merged volumeId completedAt
         else
           let existingTime := getTime (Date_of_member existing) in
           let incomingTime := getTime (Date_parse completedAt) in
           if negb (isNaN incomingTime) && (isNaN existingTime || num_lt incomingTime existingTime)
           then set_property merged volumeId completedAt
           else merged)
    current.


(** ** Goal snapshots (closed periods) *)

Definition buildGoalSnapshotKey (goalType : GoalType) (periodKey : string) : string :=
  GoalType_name goalType +:+ ":" +:+ periodKey.

(** [ledger] is the current value of the completed-at store. *)
Definition createSnapshotForPeriod (now : Z) (ledger : gmap string string)
    (goalType : GoalType) (periodKey : string) (start end_ : Date) : GoalSnapshot :=
  let completed :=
    forEach_entries ledger
      (fun completed volumeId completedAt =>
         if nonempty completedAt && isDateWithinRange completedAt start end_
         then <[volumeId := completedAt]> completed
         else completed)
      ∅ in
  {| snapshot_goalType := goalType;
     snapshot_periodKey := periodKey;
     snapshot_startDate := dateUtils.formatDate start;
     snapshot_endDate := dateUtils.formatDate end_;
     snapshot_closedAt := Date_toISOString now;
     snapshot_completed := completed |}.

Definition finalizeGoalSnapshot (now : Z) (ledger : gmap string string)
    (goalType : GoalType) (periodKey : string) (start end_ : Date)
    (snapshots : gmap string GoalSnapshot) : gmap string GoalSnapshot :=
  let snapshotKey := buildGoalSnapshotKey goalType periodKey in
  match snapshots !! snapshotKey with
  | Some _ => snapshots
  | None =>
      <[snapshotKey := createSnapshotForPeriod now ledger goalType periodKey start end_]>
        snapshots
  end.

(** The sweep reads the snapshot store once ([snapshots], tested before
    each call) while [finalizeGoalSnapshot] tests and updates the store's
    current value ([store]). *)
Definition finalizeClosedGoalSnapshots (now : Z) (ledger : gmap string string)
    (data : GoalsData) (store : gmap string GoalSnapshot) : gmap string GoalSnapshot :=
  let custom := customGoals data in
  let snapshots := store in
  let after_targets :=
    foldl
      (fun store target =>
         match getPeriodForSelection
                 (PeriodSelection (target_goalType target) (target_periodKey target)) with
         | None => store
         | Some period =>
             if date_gt (period_end period) (DateValue now) then store
             else
               let snapshotKey :=
                 buildGoalSnapshotKey (period_goalType period) (period_periodKey period) in
               match snapshots !! snapshotKey with
               | Some _ => store
               | None =>
                   finalizeGoalSnapshot now ledger (period_goalType period)
                     (period_periodKey period) (period_start period) (period_end period) store
               end
         end)
      store (targets data) in
  foldl
    (fun store goal =>
       if negb (custom_enabled goal) then store
       else
         match getCustomPeriod (CustomSelection (custom_id goal)) custom with
         | None => store
         | Some period =>
             if date_gt (period_end period) (DateValue now) then store
             else
               let snapshotKey := buildGoalSnapshotKey Custom (custom_id goal) in
               match snapshots !! snapshotKey with
               | Some _ => store
               | None =>
                   finalizeGoalSnapshot now ledger Custom (custom_id goal)
                     (period_start period) (period_end period) store
               end
         end)
    after_targets custom.

(** ** Active goal progress *)

Inductive GoalStatus : Type := Ahead | OnTrack | Behind | FarBehind.

Record GoalProgress : Type := {
  title : string;
  targetVolumes : number;
  completedVolumes : number;
  inProgressVolumes : number;
  totalProgress : number;
  progressPercent : number;
  expectedProgressPercent : number;
  status : GoalStatus;
  pagesPerDayForGoal : number;
  daysRemaining : number;
  periodLabel : Label;
  isClosed : bool
}.

(** [x ?? 0] / [x || 0] on an optional number *)
Definition or_zero (x : number) : number := if truthy x then x else Int 0.

Definition getTargetForSelection (selection : GoalSelection) (targets : list GoalTarget)
    (custom : list CustomGoal) : number :=
  match selection with
  | CustomSelection customId =>
      match find_custom customId custom with
      | Some goal => custom_targetVolumes goal
      | None => Int 0
      end
  | PeriodSelection goalType periodKey =>
      match List.find (same_target goalType periodKey) targets with
      | Some goal => target_targetVolumes goal
      | None => Int 0
      end
  end.

Definition getExpectedProgressPercent (periodStart periodEnd now : Date) : number :=
  let totalMs := num_sub (getTime periodEnd) (getTime periodStart) in
  if num_le totalMs (Int 0) then Int 0
  else
    let elapsedMs :=
      Math_min (Math_max (num_sub (getTime now) (getTime periodStart)) (Int 0)) totalMs in
    num_mul (num_div elapsedMs totalMs) (Int 100).

Definition getDaysRemainingInPeriod (periodEnd now : Date) : number :=
  let endMidnight := Date_new (getFullYear periodEnd) (getMonth periodEnd) (getDate periodEnd) in
  let startMidnight := Date_new (getFullYear now) (getMonth now) (getDate now) in
  let diffInMs := num_sub (getTime endMidnight) (getTime startMidnight) in
  Math_max (Int 0) (Math_round (num_div diffInMs (Int (1000 * 60 * 60 * 24)))).

(** The four counters of the live computation:
    completedVolumes, inProgressVolumes, totalPartialProgress, totalRemainingPages. *)
Definition live_counts (ledger : gmap string string) (period : GoalPeriod)
    (volumes : gmap string VolumeData) (catalog : gmap string CatalogVolume)
  : number * number * number * number :=
  forEach_entries volumes
    (fun acc volumeId volumeData =>
       let '(completedVolumes, inProgressVolumes, totalPartialProgress, totalRemainingPages) :=
         acc in
       let totalPages := totalPages_of catalog volumeId in
       let currentPage := progress volumeData in
       if truthy_at ledger volumeId
          && isDateWithinRange (default "" (ledger !! volumeId))
               (period_start period) (period_end period)
       then (num_add completedVolumes (Int 1), inProgressVolumes,
             totalPartialProgress, totalRemainingPages)
       else if num_gt currentPage (Int 1) && num_gt totalPages (Int 0) then
         match lastProgressUpdate volumeData with
         | Some lastUpdate =>
             if nonempty lastUpdate
                && isDateWithinRange lastUpdate (period_start period) (period_end period)
             then (completedVolumes, num_add inProgressVolumes (Int 1),
                   num_add totalPartialProgress (num_div currentPage totalPages),
                   num_add totalRemainingPages (num_sub totalPages currentPage))
             else acc
         | None => acc
         end
       else acc)
    (Int 0, Int 0, Int 0, Int 0).

Definition activeGoalProgress (now : Z) (ledger : gmap string string)
    (selection : GoalSelection) (targets : list GoalTarget) (customGoals : list CustomGoal)
    (volumes : option (gmap string VolumeData)) (catalog : gmap string CatalogVolume)
    (snapshots : gmap string GoalSnapshot) : GoalProgress :=
  let period :=
    match selection with
    | CustomSelection _ => getCustomPeriod selection customGoals
    | PeriodSelection _ _ => getPeriodForSelection selection
    end in
  let targetVolumes := or_zero (getTargetForSelection selection targets customGoals) in
  match period with
  | None =>
      {| title := "Reading Goal"; targetVolumes := targetVolumes;
         completedVolumes := Int 0; inProgressVolumes := Int 0; totalProgress := Int 0;
         progressPercent := Int 0; expectedProgressPercent := Int 0; status := Behind;
         pagesPerDayForGoal := Int 0; daysRemaining := Int 0;
         periodLabel := LabelText "Unknown period"; isClosed := false |}
  | Some period =>
      let isClosed := date_le (period_end period) (DateValue now) in
      let snapshotKey :=
        buildGoalSnapshotKey (period_goalType period) (period_periodKey period) in
      let snapshot := if isClosed then snapshots !! snapshotKey else None in
      let '(completedVolumes, inProgressVolumes, totalPartialProgress, totalRemainingPages) :=
        match snapshot with
        | Some snapshot =>
            (Int (Z.of_nat (size (snapshot_completed snapshot))), Int 0, Int 0, Int 0)
        | None =>
            match volumes with
            | Some volumes => live_counts ledger period volumes catalog
            | None => (Int 0, Int 0, Int 0, Int 0)
            end
        end in
      let totalProgress := num_add completedVolumes totalPartialProgress in
      let progressPercent :=
        if num_gt targetVolumes (Int 0)
        then num_mul (num_div totalProgress targetVolumes) (Int 100) else Int 0 in
      let expectedProgressPercent :=
        getExpectedProgressPercent (period_start period) (period_end period) (DateValue now) in
      let daysRemaining := getDaysRemainingInPeriod (period_end period) (DateValue now) in
      let remainingVolumeEquivalent :=
        Math_max (Int 0) (num_sub targetVolumes totalProgress) in
      let avgPagesPerVolume :=
        if num_gt totalRemainingPages (Int 0) && num_gt inProgressVolumes (Int 0)
        then num_div totalRemainingPages inProgressVolumes else Int 200 in
      let estimatedRemainingPages := num_mul remainingVolumeEquivalent avgPagesPerVolume in
      let pagesPerDayForGoal :=
        if num_gt daysRemaining (Int 0)
        then Math_ceil (num_div estimatedRemainingPages daysRemaining) else Int 0 in
      let progressRatio :=
        if num_gt expectedProgressPercent (Int 0)
        then num_div progressPercent expectedProgressPercent
        else if num_gt progressPercent (Int 0) then Int 2 else Int 1 in
      let status :=
        if num_ge progressRatio (Fin (11 # 10)) then Ahead
        else if num_ge progressRatio (Fin (9 # 10)) then OnTrack
        else if num_ge progressRatio (Fin (1 # 2)) then Behind
        else FarBehind in
      {| title := "Reading Goal"; targetVolumes := targetVolumes;
         completedVolumes := completedVolumes; inProgressVolumes := inProgressVolumes;
         totalProgress := totalProgress; progressPercent := progressPercent;
         expectedProgressPercent := expectedProgressPercent; status := status;
         pagesPerDayForGoal := pagesPerDayForGoal; daysRemaining := daysRemaining;
         periodLabel := period_label period; isClosed := isClosed |}
  end.

(** The period of the active selection. *)
Definition activeGoalPeriod (selection : GoalSelection) (customGoals : list CustomGoal)
  : option GoalPeriod :=
  match selection with
  | CustomSelection _ => getCustomPeriod selection customGoals
  | PeriodSelection _ _ => getPeriodForSelection selection
  end.

(** The snapshot of the active period, if any. *)
Definition activeGoalSnapshot (selection : GoalSelection) (customGoals : list CustomGoal)
    (snapshots : gmap string GoalSnapshot) : option GoalSnapshot :=
  match activeGoalPeriod selection customGoals with
  | None => None
  | Some period =>
      snapshots !! buildGoalSnapshotKey (period_goalType period) (period_periodKey period)
  end.

End Engine.

(** ** Save handlers of the views *)

Section Views.
Context {host : Host}.

(** State of [ManageGoalsView.svelte]. *)
Record ManageGoalsView : Type := {
  selectedGoalType : PeriodGoalType;
  selectedPeriodKey : string;
  targetValue : number;
  customEdits : gmap string CustomGoal
}.

Definition saveTarget (now : Z) (view : ManageGoalsView) (data : GoalsData) : GoalsData :=
  if num_le (targetValue view) (Int 0) then data
  else
    setActiveGoalSelection
      (PeriodSelection (selectedGoalType view) (selectedPeriodKey view))
      (setGoalTarget now (selectedGoalType view) (selectedPeriodKey view) (targetValue view) data).

Definition saveCustom (goalId : string) (st : ManageGoalsView * GoalsData)
  : ManageGoalsView * GoalsData :=
  let '(view, data) := st in
  match customEdits view !! goalId with
  | None => st
  | Some updated =>
      if negb (nonempty (custom_name updated)) || negb (nonempty (custom_startDate updated))
         || negb (nonempty (custom_endDate updated))
         || num_le (custom_targetVolumes updated) (Int 0)
      then st
      else
        ({| selectedGoalType := selectedGoalType view;
            selectedPeriodKey := selectedPeriodKey view;
            targetValue := targetValue view;
            customEdits := delete goalId (customEdits view) |},
         updateCustomGoal updated data)
  end.

(** State of the goal card, [AnnualGoalProgress.svelte]. *)
Record GoalCard : Type := {
  isEditing : bool;
  editValue : number;
  isCreatingCustom : bool;
  customName : string;
  customStart : string;
  customEnd : string;
  customTarget : number
}.

Definition saveGoal (now : Z) (st : GoalCard * GoalsData) : GoalCard * GoalsData :=
  let '(card, data) := st in
  let data' :=
    if num_gt (editValue card) (Int 0) then
      match activeSelection data with
      | CustomSelection customId =>
          match find_custom customId (customGoals data) with
          | Some currentCustom =>
              updateCustomGoal
                {| custom_id := custom_id currentCustom;
                   custom_name := custom_name currentCustom;
                   custom_targetVolumes := editValue card;
                   custom_startDate := custom_startDate currentCustom;
                   custom_endDate := custom_endDate currentCustom;
                   custom_enabled := custom_enabled currentCustom;
                   custom_createdAt := custom_createdAt currentCustom |}
                data
          | None => data
          end
      | PeriodSelection goalType periodKey =>
          setGoalTarget now goalType periodKey (editValue card) data
      end
    else data in
  ({| isEditing := false; editValue := editValue card;
      isCreatingCustom := isCreatingCustom card; customName := customName card;
      customStart := customStart card; customEnd := customEnd card;
      customTarget := customTarget card |},
   data').

Definition saveCustomGoal (now : Z) (id : string) (st : GoalCard * GoalsData)
  : GoalCard * GoalsData :=
  let '(card, data) := st in
  if negb (nonempty (customName card)) || negb (nonempty (customStart card))
     || negb (nonempty (customEnd card)) || num_le (customTarget card) (Int 0)
  then st
  else
    ({| isEditing := isEditing card; editValue := editValue card;
        isCreatingCustom := false; customName := ""; customStart := ""; customEnd := "";
        customTarget := Int 10 |},
     createCustomGoal now id
       {| fields_name := customName card; fields_targetVolumes := customTarget card;
          fields_startDate := customStart card; fields_endDate := customEnd card;
          fields_enabled := true |}
       data).

End Views.

(** ** A concrete host: the ECMAScript date-time string format *)

(** Reads exactly [n] decimal digits. *)
Fixpoint read_fixed (n : nat) (s : string) (acc : Z) : option (Z * string) :=
  match n with
  | O => Some (acc, s)
  | S n' =>
      match s with
      | String c r =>
          match digit_value 10 c with
          | Some d => read_fixed n' r (acc * 10 + d)
          | None => None
          end
      | EmptyString => None
      end
  end.

Definition expect (c : ascii) (s : string) : option string :=
  match s with
  | String c' r => if Ascii.eqb c c' then Some r else None
  | EmptyString => None
  end.

Definition DaysInMonth (y m : Z) : Z :=
  let leap := InLeapYear y in
  (if m =? 11 then DaysInYear y else monthStart (m + 1) leap) - monthStart m leap.

(** [-MM] and [-DD] after the year: month (1-12) and day, defaulting to 1. *)
Definition iso_month_day (y : Z) (s : string) : option (Z * Z * string) :=
  match expect dash s with
  | None => Some (1, 1, s)
  | Some r =>
      '(m, r1) ← read_fixed 2 r 0;
      if (m <? 1) || (12 <? m) then None
      else
        match expect dash r1 with
        | None => Some (m, 1, r1)
        | Some r2 =>
            '(d, r3) ← read_fixed 2 r2 0;
            if (d <? 1) || (DaysInMonth y (m - 1) <? d) then None else Some (m, d, r3)
        end
  end.

(** [THH:mm], [THH:mm:ss] or [THH:mm:ss.sss]: milliseconds within the day. *)
Definition iso_time (s : string) : option (Z * string) :=
  r ← expect "T"%char s;
  '(h, r1) ← read_fixed 2 r 0;
  r2 ← expect ":"%char r1;
  '(mi, r3) ← read_fixed 2 r2 0;
  '(sec, ms, r4) ←
    match expect ":"%char r3 with
    | None => Some (0, 0, r3)
    | Some r5 =>
        '(sec, r6) ← read_fixed 2 r5 0;
        match expect "."%char r6 with
        | None => Some (sec, 0, r6)
        | Some r7 => '(ms, r8) ← read_fixed 3 r7 0; Some (sec, ms, r8)
        end
    end;
  if (24 <? h) || (59 <? mi) || (59 <? sec) || ((h =? 24) && negb ((mi =? 0) && (sec =? 0) && (ms =? 0)))
  then None
  else Some (h * 3600000 + mi * 60000 + sec * 1000 + ms, r4).

(** [Z] or [+HH:mm] / [-HH:mm]: offset in ms; [None] when the string ends. *)
Definition iso_offset (s : string) : option (option Z) :=
  match s with
  | EmptyString => Some None
  | String c r =>
      if Ascii.eqb c "Z"%char then (if String.eqb r "" then Some (Some 0) else None)
      else if (Ascii.eqb c "+" || Ascii.eqb c "-")%char then
        '(h, r1) ← read_fixed 2 r 0;
        r2 ← expect ":"%char r1;
        '(mi, r3) ← read_fixed 2 r2 0;
        if negb (String.eqb r3 "") || (23 <? h) || (59 <? mi) then None
        else
          let off := h * 3600000 + mi * 60000 in
          Some (Some (if Ascii.eqb c "-"%char then - off else off))
      else None
  end.

(** [new Date(s)] for strings in the date-time string format
    ([YYYY], [YYYY-MM], [YYYY-MM-DD], optionally with a time and an
    offset).  A date-only form is UTC; a date-time form without an offset
    is local time.  Any other string is unparseable here (the standard
    leaves it to the implementation). *)
Definition iso_Date_parse (tza_local : Z -> Z) (s : string) : Date :=
  let parsed :=
    '(y, r) ← read_fixed 4 s 0;
    '(m, d, r1) ← iso_month_day y r;
    let day := MakeDay y (m - 1) d in
    match r1 with
    | EmptyString => Some (day * msPerDay)
    | _ =>
        '(ms, r2) ← iso_time r1;
        off ← iso_offset r2;
        let t := day * msPerDay + ms in
        match off with
        | Some o => Some (t - o)
        | None => Some (t - tza_local t)
        end
    end in
  match parsed with
  | Some t => TimeClip t
  | None => InvalidDate
  end.

(** [s.padStart(n, '0')] for a decimal numeral *)
Fixpoint zeros (n : nat) : string :=
  match n with O => "" | S n' => String "0"%char (zeros n') end.

Definition pad_number (width : nat) (z : Z) : string :=
  let s := pretty (Z.abs z) in
  zeros (width - String.length s) +:+ s.

Definition toISOString (t : Z) : string :=
  let y := YearFromTime t in
  let ms := t mod msPerDay in
  let year :=
    if (0 <=? y) && (y <=? 9999) then pad_number 4 y
    else (if y <? 0 then "-" else "+") +:+ pad_number 6 y in
  year +:+ "-" +:+ pad_number 2 (MonthFromTime t + 1) +:+ "-" +:+ pad_number 2 (DateFromTime t)
  +:+ "T" +:+ pad_number 2 (ms / 3600000) +:+ ":" +:+ pad_number 2 (ms / 60000 mod 60)
  +:+ ":" +:+ pad_number 2 (ms / 1000 mod 60) +:+ "." +:+ pad_number 3 (ms mod 1000) +:+ "Z".

(** Local time is UTC all year. *)
Definition utc_host : Host :=
  {| LocalTZA_utc := fun _ => 0;
     LocalTZA_local := fun _ => 0;
     Date_parse := iso_Date_parse (fun _ => 0);
     Date_toISOString := toISOString |}.

(** Central European time around 2024: UTC+1, and UTC+2 from
    2024-03-31T01:00Z until 2024-10-27T01:00Z.  A local time in the
    skipped or repeated hour is read with the offset before the change. *)
Definition cet_dst_start : Z := 1711846800000.
Definition cet_dst_end : Z := 1729990800000.

Definition cet_tza_utc (t : Z) : Z :=
  if (cet_dst_start <=? t) && (t <? cet_dst_end) then 7200000 else 3600000.

Definition cet_tza_local (t : Z) : Z :=
  if (cet_dst_start + 7200000 <=? t) && (t <? cet_dst_end + 7200000) then 7200000 else 3600000.

Definition cet_host : Host :=
  {| LocalTZA_utc := cet_tza_utc;
     LocalTZA_local := cet_tza_local;
     Date_parse := iso_Date_parse cet_tza_local;
     Date_toISOString := toISOString |}.

(** ** Vocabulary of the properties *)

Section Vocabulary.
Context {host : Host}.

(** The local calendar day (in days since the epoch) an instant falls on. *)
Definition localDay (t : Z) : Z := Day (LocalTime t).

(** The date at which local calendar day [n] starts. *)
Definition localMidnight (n : Z) : Date := TimeClip (UTC (n * msPerDay)).

(** The local year of the instant is not one that [new Date(y, m, d)]
    reads as 19xx. *)
Definition plain_year (t : Z) : Prop :=
  ~ (0 <= YearFromTime (LocalTime t) <= 99).

(** The day before the local calendar day of [d]. *)
Definition dayBefore (d : Date) : Date :=
  Date_new (getFullYear d) (getMonth d) (num_sub (getDate d) (Int 1)).

(** What one incoming entry does to the value stored under its key. *)
Definition merge_entry (completedAt : string) (old : option string) : option string :=
  if negb (nonempty completedAt) then None
  else
    match old with
    | Some existing =>
        if negb (nonempty existing) then Some completedAt
        else
          let existingTime := getTime (Date_parse existing) in
          let incomingTime := getTime (Date_parse completedAt) in
          if negb (isNaN incomingTime) && (isNaN existingTime || num_lt incomingTime existingTime)
          then Some completedAt
          else None
    | None => Some completedAt
    end.

(** What one incoming entry does to the ledger under its key: with a
    local entry as [merge_entry] says; without one the timestamp is
    adopted, except under the names of [Object.prototype], where what is
    read is the inherited member: nothing is adopted under ["__proto__"],
    and under the other names only a timestamp that is a date. *)
Definition merge_outcome (key completedAt : string) (old : option string)
  : option string :=
  match old with
  | Some _ => merge_entry completedAt old
  | None =>
      if negb (nonempty completedAt) then None
      else if inherited key then
        if String.eqb key "__proto__" || isNaN (getTime (Date_parse completedAt))
        then None else Some completedAt
      else Some completedAt
  end.

(** Any number of sweeps, each at its own time, over its own ledger and
    goals data. *)
Definition repeated_sweeps (runs : list (Z * gmap string string * GoalsData))
    (store : gmap string GoalSnapshot) : gmap string GoalSnapshot :=
  foldl (fun store run => finalizeClosedGoalSnapshots run.1.1 run.1.2 run.2 store) store runs.

End Vocabulary.

(** Day numbers whose local midnight is a valid time value in any zone. *)
Definition in_calendar_range (n : Z) : Prop := Z.abs n < 99999999.

(** What the properties about calendar days assume of a time zone: a
    local midnight read back falls on the day it starts; offsets vary by
    less than half a day, and are at most a day. *)
Record regular_zone (host : Host) : Prop := {
  zone_midnight : forall n : Z, localDay (UTC (n * msPerDay)) = n;
  zone_drift : forall a b : Z, 2 * Z.abs (LocalTZA_local a - LocalTZA_local b) < msPerDay;
  zone_bound : forall t : Z, Z.abs (LocalTZA_local t) <= msPerDay
}.

(** A deadline string one of whose first three dash-separated parts is
    missing or does not denote a finite number. *)
Definition unparseable_deadline (s : string) : Prop :=
  exists i : nat, (i < 3)%nat /\
    Number_isFinite (or_undefined ((StringToNumber <$> split dash s) !! i)) = false.

(** The key of a target: its goal type and period key. *)
Definition target_key (goal : GoalTarget) : PeriodGoalType * string :=
  (target_goalType goal, target_periodKey goal).

(** ** Data of the examples *)

(** A ledger with two completions in 2023. *)
Definition ledger_2023 : gmap string string :=
  {[ "v1" := "2023-05-01T10:00:00.000Z"; "v2" := "2023-06-01T10:00:00.000Z" ]}.

Definition volumes_2023 : gmap string VolumeData :=
  {[ "v2" := {| progress := Int 180; completed := true;
                lastProgressUpdate := Some "2023-06-01T10:00:00.000Z" |} ]}.

(** The snapshot of the year 2023, frozen when only [v1] was complete. *)
Definition snapshots_2023 : gmap string GoalSnapshot :=
  {[ "year:2023" :=
       {| snapshot_goalType := Periodic Year; snapshot_periodKey := "2023";
          snapshot_startDate := "2023-01-01"; snapshot_endDate := "2024-01-01";
          snapshot_closedAt := "2024-01-01T00:00:01.000Z";
          snapshot_completed := {[ "v1" := "2023-05-01T10:00:00.000Z" ]} |} ]}.

(** A progress log with one completed volume, and the browser storage
    that holds its record. *)
Definition volumes_done : gmap string VolumeData :=
  {[ "v1" := {| progress := Int 180; completed := true;
                lastProgressUpdate := Some "2024-01-05T10:00:00.000Z" |} ]}.

Definition storage_done : LocalStorage :=
  {| ls_volumes := Some {[ "v1" := {[ "progress" := "180" ]} ]};
     ls_completedAtUpdatedAt := None |}.

(** Goals data with one target, for the year 2023 or for the year 2024. *)
Definition target_for_year (key : string) : GoalTarget :=
  {| target_goalType := Year; target_periodKey := key;
     target_targetVolumes := Int 12; target_createdAt := "2023-01-01T00:00:00.000Z" |}.

Definition goals_for_year (key : string) : GoalsData :=
  {| targets := [target_for_year key]; customGoals := [];
     activeSelection := PeriodSelection Year key |}.

(** The year 2023 in UTC. *)
Definition period_2023 : GoalPeriod :=
  {| period_goalType := Periodic Year; period_periodKey := "2023";
     period_label := LabelYear (Int 2023);
     period_start := DateValue 1672531200000;
     period_end := DateValue 1704067200000 |}.

(** A custom goal for the summer of 2024. *)
Definition summer_goal : CustomGoal :=
  {| custom_id := "c1"; custom_name := "Summer reading";
     custom_targetVolumes := Int 5; custom_startDate := "2024-06-01";
     custom_endDate := "2024-08-31"; custom_enabled := true;
     custom_createdAt := "2024-01-01T00:00:00.000Z" |}.

Definition summer_fields : CustomGoalFields :=
  {| fields_name := "Summer reading"; fields_targetVolumes := Int 5;
     fields_startDate := "2024-06-01"; fields_endDate := "2024-08-31";
     fields_enabled := true |}.

(** The period of [summer_goal] where local time is UTC: from the start
    of 1 June 2024 to the start of 1 September 2024. *)
Definition summer_period : GoalPeriod :=
  {| period_goalType := Custom; period_periodKey := "c1";
     period_label := LabelText "Summer reading";
     period_start := DateValue 1717200000000;
     period_end := DateValue 1725148800000 |}.

(** ** Decimal numerals *)

Definition is_decimal_digit (c : ascii) : bool :=
  (48 <=? char_code c) && (char_code c <=? 57).

(** The string consists of decimal digits only. *)
Fixpoint decimal_numeral (s : string) : bool :=
  match s with
  | EmptyString => true
  | String c r => is_decimal_digit c && decimal_numeral r
  end.

(** The value of a string of decimal digits read after [acc]. *)
Fixpoint decimal_value (s : string) (acc : Z) : Z :=
  match s with
  | EmptyString => acc
  | String c r => decimal_value r (acc * 10 + (char_code c - 48))
  end.

(** ** Recent periods *)

Section RecentPeriods.
Context {host : Host}.

(** The loops run for [i = 0, 1, ...] while [i < count]; the callers pass
    the integer literals 1 and 8. *)
Definition getRecentPeriods (now : Date) (goalType : PeriodGoalType) (count : Z)
  : list GoalPeriod :=
  match goalType with
  | Year =>
      (fun i : Z =>
         let year := num_sub (getFullYear now) (Int i) in
         {| period_goalType := Periodic Year;
            period_periodKey := buildYearKey year;
            period_label := LabelYear year;
            period_start := Date_new year (Int 0) (Int 1);
            period_end := Date_new (num_add year (Int 1)) (Int 0) (Int 1) |})
      <$> seqZ 0 count
  | Season =>
      (fun i : Z =>
         let seasonOffset := num_sub (dateUtils.seasonIndex now) (Int i) in
         let yearOffset := Math_floor (num_div seasonOffset (Int 4)) in
         let seasonIndex :=
           num_rem (num_add (num_rem seasonOffset (Int 4)) (Int 4)) (Int 4) in
         let year := num_add (getFullYear now) yearOffset in
         let '(start, end_) := dateUtils.seasonRange year seasonIndex in
         {| period_goalType := Periodic Season;
            period_periodKey := buildSeasonKey year seasonIndex;
            period_label :=
              LabelSeason (default "undefined" (dateUtils.seasonNames_at seasonIndex)) year;
            period_start := start;
            period_end := end_ |})
      <$> seqZ 0 count
  | Month =>
      (fun i : Z =>
         let date := Date_new (getFullYear now) (num_sub (getMonth now) (Int i)) (Int 1) in
         let '(start, end_) := dateUtils.monthRange (getFullYear date) (getMonth date) in
         {| period_goalType := Periodic Month;
            period_periodKey := buildMonthKey (getFullYear date) (getMonth date);
            period_label := LabelLocaleMonthYear start;
            period_start := start;
            period_end := end_ |})
      <$> seqZ 0 count
  | Today =>
      (fun i : Z =>
         let date :=
           Date_new (getFullYear now) (getMonth now) (num_sub (getDate now) (Int i)) in
         let start := dateUtils.startOfDay date in
         let end_ :=
           Date_new (getFullYear date) (getMonth date) (num_add (getDate date) (Int 1)) in
         {| period_goalType := Periodic Today;
            period_periodKey := buildTodayKey date;
            period_label := LabelLocaleDay date;
            period_start := start;
            period_end := end_ |})
      <$> seqZ 0 count
  end.

End RecentPeriods.

(** ** Annual goals and volume deadlines *)

Record AnnualGoal : Type := {
  annual_year : number;
  annual_targetVolumes : number
}.

Record GoalSettings : Type := {
  annualGoals : list AnnualGoal;
  volumeDeadlines : gmap string string
}.

Definition same_year (year : number) (g : AnnualGoal) : bool :=
  num_eqb (annual_year g) year.

(** [goal?.targetVolumes ?? 52] *)
Definition getAnnualGoal (year : number) (settings : GoalSettings) : number :=
  match List.find (same_year year) (annualGoals settings) with
  | Some goal => annual_targetVolumes goal
  | None => Int 52
  end.

Definition with_annual_targetVolumes (targetVolumes : number) (g : AnnualGoal)
  : AnnualGoal :=
  {| annual_year := annual_year g; annual_targetVolumes := targetVolumes |}.

Definition setAnnualGoal (targetVolumes year : number) (settings : GoalSettings)
  : GoalSettings :=
  let existingIndex := findIndex (same_year year) (annualGoals settings) in
  let updatedGoals :=
    match existingIndex with
    | Some i => alter (with_annual_targetVolumes targetVolumes) i (annualGoals settings)
    | None =>
        (annualGoals settings
           ++ [ {| annual_year := year; annual_targetVolumes := targetVolumes |} ])%list
    end in
  {| annualGoals := updatedGoals; volumeDeadlines := volumeDeadlines settings |}.

(** [settings.volumeDeadlines[volumeId] || null]; [None] is [null].  Under
    a name of [Object.prototype] without a deadline the value returned is
    the inherited member, not a string. *)
Definition getVolumeDeadline (volumeId : string) (settings : GoalSettings)
  : option (member string) :=
  let deadline := get_property (volumeDeadlines settings) volumeId in
  if truthy_member deadline then deadline else None.

Definition setVolumeDeadline (volumeId deadline : string) (settings : GoalSettings)
  : GoalSettings :=
  {| annualGoals := annualGoals settings;
     volumeDeadlines := <[volumeId := deadline]> (volumeDeadlines settings) |}.

Definition removeVolumeDeadline (volumeId : string) (settings : GoalSettings)
  : GoalSettings :=
  {| annualGoals := annualGoals settings;
     volumeDeadlines := delete volumeId (volumeDeadlines settings) |}.

Section PagesPerDay.
Context {host : Host}.

(** Pages per day needed to meet a deadline; [now] is the [new Date()] that
    [calculateDaysRemaining] takes as its default start. *)
Definition calculatePagesPerDay (now : Date) (remainingPages : number)
    (deadline : option string) : option number :=
  match deadline with
  | None => None
  | Some deadline =>
      if negb (nonempty deadline) || num_le remainingPages (Int 0) then None
      else
        let daysRemaining := dateUtils.calculateDaysRemaining (inl deadline) now in
        if num_le daysRemaining (Int 0) then Some remainingPages (* All pages today! *)
        else Some (Math_ceil (num_div remainingPages daysRemaining))
  end.

End PagesPerDay.

(** ** Loading the completion ledger *)

(** The ledger as read from the ['volumes'] item at start-up: the
    non-empty [completedAt] fields of the stored records. *)
Definition loadCompletedAtMapFromVolumes (browser : bool) (ls : LocalStorage)
  : gmap string string :=
  if negb browser then ∅
  else
    match ls_volumes ls with
    | None => ∅
    | Some parsed =>
        forEach_entries parsed
          (fun (map : gmap string string) volumeId (value : gmap string string) =>
             match value !! "completedAt" with
             | Some candidate =>
                 if nonempty candidate then set_property map volumeId candidate else map
             | None => map
             end)
          ∅
    end.

(** * Properties *)

(** ** The models of the built-ins on sample inputs *)

Example StringToNumber_samples :
  StringToNumber "2024" = Int 2024 /\ StringToNumber "08" = Int 8 /\
  StringToNumber "" = Int 0 /\ StringToNumber " 12 " = Int 12 /\
  StringToNumber "abc" = NaN /\ StringToNumber "2024-01" = NaN /\
  StringToNumber "1e3" = Int 1000 /\ StringToNumber "0x10" = Int 16 /\
  StringToNumber "12.5" = Fin (25 # 2) /\ StringToNumber "-7" = Int (-7) /\
  StringToNumber "Infinity" = Infinity false /\ StringToNumber "." = NaN /\
  StringToNumber "1e999" = Infinity false /\ StringToNumber "5." = Int 5.
Proof. vm_compute. repeat split; reflexivity. Qed.

Example split_samples :
  split dash "2024-01-08" = ["2024"; "01"; "08"] /\
  split dash "" = [""] /\ split dash "2024" = ["2024"] /\
  split dash "2024-" = ["2024"; ""] /\ split dash "-5" = [""; "5"].
Proof. vm_compute. repeat split; reflexivity. Qed.

Example calendar_samples :
  MakeDay 2024 0 8 * msPerDay = 1704672000000 /\
  MakeDay 2000 1 29 * msPerDay = 951782400000 /\
  MakeDay 1969 11 31 * msPerDay = -86400000 /\
  MakeDay 1601 0 1 * msPerDay = -11644473600000 /\
  MakeDay 2023 12 1 = MakeDay 2024 0 1 /\
  MakeDay 2024 (-1) 1 = MakeDay 2023 11 1 /\
  (YearFromTime 951782400000, MonthFromTime 951782400000, DateFromTime 951782400000)
    = (2000, 1, 29) /\
  (YearFromTime (-1), MonthFromTime (-1), DateFromTime (-1)) = (1969, 11, 31) /\
  (YearFromTime 1709251200000, MonthFromTime 1709251200000, DateFromTime 1709251200000)
    = (2024, 2, 1).
Proof. vm_compute. repeat split; reflexivity. Qed.

(** ** Arithmetic on integer-valued numbers *)

Lemma fin_inject_Z z : fin (inject_Z z) = Int z.
Proof. unfold fin, Int. by rewrite inject_Z_Qred. Qed.

Lemma num_add_Int a b : num_add (Int a) (Int b) = Int (a + b).
Proof.
  unfold Int at 1 2. simpl. unfold fin, Int. f_equal.
  rewrite <- (inject_Z_Qred (a + b)). apply Qred_complete.
  rewrite inject_Z_plus. reflexivity.
Qed.

Lemma num_sub_Int a b : num_sub (Int a) (Int b) = Int (a - b).
Proof.
  unfold Int at 1 2. simpl. unfold fin, Int. f_equal.
  rewrite <- (inject_Z_Qred (a - b)). apply Qred_complete.
  unfold Z.sub. rewrite inject_Z_plus, inject_Z_opp. reflexivity.
Qed.

Lemma truncate_inject_Z z : truncate (inject_Z z) = z.
Proof. unfold truncate. simpl. apply Z.quot_1_r. Qed.

Lemma Qle_bool_inject_Z a b : Qle_bool (inject_Z a) (inject_Z b) = (a <=? b).
Proof. unfold Qle_bool. simpl. by rewrite !Z.mul_1_r. Qed.

Lemma num_lt_Int a b : num_lt (Int a) (Int b) = (a <? b).
Proof.
  unfold Int. simpl. unfold Qlt_bool. rewrite Qle_bool_inject_Z.
  by rewrite Z.ltb_antisym.
Qed.

Lemma num_le_Int a b : num_le (Int a) (Int b) = (a <=? b).
Proof. unfold Int. simpl. apply Qle_bool_inject_Z. Qed.

Lemma Math_max_Int a b : Math_max (Int a) (Int b) = Int (Z.max a b).
Proof.
  unfold Math_max. change (Int a) with (Fin (inject_Z a)) at 1.
  change (Int b) with (Fin (inject_Z b)) at 1. cbv iota beta.
  fold (Int a) (Int b). rewrite num_lt_Int.
  destruct (Z.ltb_spec a b); f_equal; lia.
Qed.

(** Rounding an integer quotient to the nearest integer, ties upward. *)
Lemma Math_round_div_Int x d :
  0 < d -> Math_round (num_div (Int x) (Int d)) = Int ((2 * x + d) / (2 * d)).
Proof.
  intros Hd. unfold Int at 1 2. simpl.
  unfold q_zero. simpl. destruct (Z.eqb_spec d 0) as [|Hne]; [lia|].
  unfold fin, Math_round. f_equal.
  rewrite Zdiv_Qdiv. apply Qfloor_comp.
  rewrite Qred_correct.
  rewrite inject_Z_plus, !inject_Z_mult.
  assert (Hq : ~ inject_Z d == 0).
  { intros E. apply Hne. unfold Qeq in E. simpl in E. lia. }
  field. exact Hq.
Qed.

(** ** The calendar *)

Lemma DayFromYear_succ y : DayFromYear (y + 1) = DayFromYear y + DaysInYear y.
Proof.
  unfold DayFromYear, DaysInYear.
  repeat match goal with |- context [?a =? ?b] => destruct (Z.eqb_spec a b) end; simpl;
  Z.div_mod_to_equations; lia.
Qed.

Lemma YearFromDay_spec d :
  DayFromYear (YearFromDay d) <= d < DayFromYear (YearFromDay d + 1).
Proof.
  unfold YearFromDay.
  set (y0 := 1970 + d * 400 / 146097).
  assert (H0 : 146097 * (y0 - 1970) <= 400 * d < 146097 * (y0 - 1969)).
  { subst y0. Z.div_mod_to_equations. lia. }
  assert (Hlo : DayFromYear (y0 - 1) <= d).
  { unfold DayFromYear. Z.div_mod_to_equations. lia. }
  assert (Hhi : d < DayFromYear (y0 + 2)).
  { unfold DayFromYear. Z.div_mod_to_equations. lia. }
  destruct (Z.ltb_spec d (DayFromYear y0)).
  - replace (y0 - 1 + 1) with y0 by lia. lia.
  - destruct (Z.leb_spec (DayFromYear (y0 + 1)) d).
    + replace (y0 + 1 + 1) with (y0 + 2) by lia. lia.
    + lia.
Qed.

Lemma MonthFromDayInYear_range dwy leap : 0 <= MonthFromDayInYear dwy leap <= 11.
Proof.
  unfold MonthFromDayInYear.
  repeat match goal with |- context [?a <? ?b] => destruct (Z.ltb_spec a b) end; lia.
Qed.

(** Assembling the calendar components of an instant gives its day back. *)
Lemma MakeDay_components t k :
  MakeDay (YearFromTime t) (MonthFromTime t) (DateFromTime t + k) = Day t + k.
Proof.
  unfold MakeDay, DateFromTime, DayWithinYear.
  pose proof (MonthFromDayInYear_range (DayWithinYear t) (InLeapYear (YearFromTime t))) as Hm.
  fold (MonthFromTime t) in Hm.
  rewrite (Z.div_small (MonthFromTime t) 12) by lia.
  rewrite (Z.mod_small (MonthFromTime t) 12) by lia.
  rewrite Z.add_0_r. lia.
Qed.

Section DateFacts.
Context {host : Host}.

Lemma Date_new_components t k :
  plain_year t ->
  Date_new (getFullYear (DateValue t)) (getMonth (DateValue t))
           (num_add (getDate (DateValue t)) (Int k))
  = localMidnight (localDay t + k).
Proof.
  intros Hy. unfold getFullYear, getMonth, getDate. rewrite num_add_Int.
  unfold Date_new, Int. rewrite !truncate_inject_Z.
  unfold plain_year in Hy.
  destruct (Z.leb_spec 0 (YearFromTime (LocalTime t)));
    destruct (Z.leb_spec (YearFromTime (LocalTime t)) 99); simpl; try lia;
    rewrite MakeDay_components; reflexivity.
Qed.

Lemma Date_new_components_0 t :
  plain_year t ->
  Date_new (getFullYear (DateValue t)) (getMonth (DateValue t)) (getDate (DateValue t))
  = localMidnight (localDay t).
Proof.
  intros Hy. rewrite <- (Z.add_0_r (localDay t)), <- (Date_new_components t 0 Hy).
  unfold getDate. by rewrite num_add_Int, Z.add_0_r.
Qed.

End DateFacts.

(** ** Time zones used in the examples *)

Lemma utc_host_regular : regular_zone utc_host.
Proof.
  split.
  - intros n. unfold localDay, LocalTime, UTC, Day. simpl.
    rewrite Z.sub_0_r, Z.add_0_r. apply Z.div_mul. discriminate.
  - intros a b. simpl. reflexivity.
  - intros t. simpl. discriminate.
Qed.

Lemma cet_host_regular : regular_zone cet_host.
Proof.
  split.
  - intros n. unfold localDay, LocalTime, UTC, Day. simpl.
    unfold cet_tza_utc, cet_tza_local, cet_dst_start, cet_dst_end, msPerDay.
    repeat match goal with
           | |- context [?a <=? ?b] => destruct (Z.leb_spec a b)
           | |- context [?a <? ?b] => destruct (Z.ltb_spec a b)
           end; simpl in *; Z.div_mod_to_equations; lia.
  - intros a b. simpl. unfold cet_tza_local, msPerDay.
    repeat match goal with
           | |- context [?a <=? ?b] => destruct (Z.leb_spec a b)
           | |- context [?a <? ?b] => destruct (Z.ltb_spec a b)
           end; simpl in *; lia.
  - intros t. simpl. unfold cet_tza_local, msPerDay.
    repeat match goal with
           | |- context [?a <=? ?b] => destruct (Z.leb_spec a b)
           | |- context [?a <? ?b] => destruct (Z.ltb_spec a b)
           end; simpl in *; lia.
Qed.

(** ** Days remaining (dateUtils.calculateDaysRemaining) *)

Section DaysRemaining.
Context {host : Host}.

Lemma localMidnight_valid n :
  regular_zone host -> in_calendar_range n ->
  localMidnight n = DateValue (UTC (n * msPerDay)).
Proof.
  intros Hz Hn. unfold localMidnight, TimeClip.
  pose proof (zone_bound host Hz (n * msPerDay)) as Hb.
  unfold in_calendar_range in Hn. unfold UTC, maxTimeValue, msPerDay in *.
  destruct (Z.leb_spec (Z.abs (n * 86400000 - LocalTZA_local (n * 86400000)))
                       8640000000000000); [reflexivity | lia].
Qed.

(** Between two local midnights lie as many days as their day numbers
    differ, whatever the offsets at the two. *)
Lemma days_between_midnights a b :
  regular_zone host -> in_calendar_range a -> in_calendar_range b ->
  Math_max (Int 0)
    (Math_round (num_div (num_sub (getTime (localMidnight a)) (getTime (localMidnight b)))
                         (Int msPerDay)))
  = Int (Z.max 0 (a - b)).
Proof.
  intros Hz Ha Hb.
  rewrite !localMidnight_valid by assumption. cbn [getTime].
  rewrite num_sub_Int, Math_round_div_Int by reflexivity.
  rewrite Math_max_Int. f_equal. f_equal.
  pose proof (zone_drift host Hz (a * msPerDay) (b * msPerDay)) as Hd.
  unfold UTC, msPerDay in *.
  symmetry. apply Z.div_unique with
    (r := 2 * (a * 86400000 - LocalTZA_local (a * 86400000)
               - (b * 86400000 - LocalTZA_local (b * 86400000)))
          + 86400000 - 2 * 86400000 * (a - b)); lia.
Qed.

Lemma calculateDaysRemaining_midnights te ts :
  plain_year te -> plain_year ts ->
  dateUtils.calculateDaysRemaining (inr (DateValue te)) (DateValue ts)
  = Math_max (Int 0)
      (Math_round
         (num_div (num_sub (getTime (localMidnight (localDay te + 1)))
                           (getTime (localMidnight (localDay ts))))
                  (Int msPerDay))).
Proof.
  intros He Hs. unfold dateUtils.calculateDaysRemaining.
  cbn [getTime isNaN Int].
  rewrite (Date_new_components te 1 He), (Date_new_components_0 ts Hs).
  reflexivity.
Qed.

Lemma Date_new_Int y m d :
  ~ (0 <= y <= 99) ->
  Date_new (Int y) (Int m) (Int d) = localMidnight (MakeDay y m d).
Proof.
  intros Hy. unfold Date_new, Int. rewrite !truncate_inject_Z.
  destruct (Z.leb_spec 0 y); destruct (Z.leb_spec y 99); simpl; try lia; reflexivity.
Qed.

Lemma Date_new_not_finite y m d :
  Number_isFinite y = false \/ Number_isFinite m = false \/ Number_isFinite d = false ->
  Date_new y m d = InvalidDate.
Proof.
  intros H. unfold Date_new.
  destruct y, m, d; simpl in H; try reflexivity; intuition discriminate.
Qed.

Lemma num_sub_not_finite x y :
  Number_isFinite x = false -> Number_isFinite (num_sub x y) = false.
Proof.
  destruct x, y; simpl; try discriminate; try reflexivity.
  intros _. by destruct (Bool.eqb negative negative0).
Qed.

End DaysRemaining.

Section DaysRemainingClaims.
Context {host : Host}.

Lemma plain_year_localMidnight n :
  regular_zone host -> ~ (0 <= YearFromDay n <= 99) -> plain_year (UTC (n * msPerDay)).
Proof.
  intros Hz Hy. unfold plain_year, YearFromTime.
  fold (localDay (UTC (n * msPerDay))). by rewrite (zone_midnight host Hz).
Qed.

Lemma calculateDaysRemaining_count te ts :
  regular_zone host -> plain_year te -> plain_year ts ->
  in_calendar_range (localDay te + 1) -> in_calendar_range (localDay ts) ->
  dateUtils.calculateDaysRemaining (inr (DateValue te)) (DateValue ts)
  = Int (Z.max 0 (localDay te - localDay ts + 1)).
Proof.
  intros Hz He Hs Hre Hrs.
  rewrite calculateDaysRemaining_midnights by assumption.
  rewrite days_between_midnights by assumption.
  f_equal. lia.
Qed.

(** A deadline string whose first three parts are the integers [y], [m], [d]. *)
Lemma calculateDaysRemaining_string s y m d rest ts :
  regular_zone host ->
  StringToNumber <$> split dash s = Int y :: Int m :: Int d :: rest ->
  ~ (0 <= y <= 99) -> ~ (0 <= YearFromDay (MakeDay y (m - 1) d) <= 99) ->
  in_calendar_range (MakeDay y (m - 1) d) -> in_calendar_range (MakeDay y (m - 1) d + 1) ->
  plain_year ts -> in_calendar_range (localDay ts) ->
  dateUtils.calculateDaysRemaining (inl s) (DateValue ts)
  = Int (Z.max 0 (MakeDay y (m - 1) d - localDay ts + 1)).
Proof.
  intros Hz Hparts Hy Hy' Hr Hr1 Hs Hrs.
  set (n := MakeDay y (m - 1) d) in *.
  assert (Hend : dateUtils.calculateDaysRemaining (inl s) (DateValue ts)
                 = dateUtils.calculateDaysRemaining
                     (inr (DateValue (UTC (n * msPerDay)))) (DateValue ts)).
  { unfold dateUtils.calculateDaysRemaining. rewrite Hparts.
    cbn [lookup list_lookup or_undefined default from_option id].
    rewrite num_sub_Int, (Date_new_Int y (m - 1) d Hy).
    fold n. rewrite (localMidnight_valid n Hz Hr). reflexivity. }
  rewrite Hend.
  rewrite calculateDaysRemaining_count; try assumption.
  - by rewrite (zone_midnight host Hz).
  - by apply plain_year_localMidnight.
  - by rewrite (zone_midnight host Hz).
Qed.

Lemma calculateDaysRemaining_unparseable s start :
  unparseable_deadline s -> dateUtils.calculateDaysRemaining (inl s) start = Int 0.
Proof.
  intros (i & Hi & Hnf). unfold dateUtils.calculateDaysRemaining.
  rewrite Date_new_not_finite; [reflexivity|].
  destruct i as [|[|[|i]]]; [left | right; left | right; right | lia]; try exact Hnf.
  by apply num_sub_not_finite.
Qed.

(** C5. [calculateDaysRemaining(endDate, startDate)] counts calendar days
    at local-midnight granularity, inclusive of both endpoints.  In a
    regular time zone, for dates whose local year is not read as 19xx:
    (1) it is max(0, round((midnight after the end date - midnight of the
    start date) / 1 day)); (2) that is the number of local calendar days
    from the start day to the end day inclusive, or 0; (3) the same holds
    for a deadline string with integer parts; (4) from any instant of
    2024-01-05 the deadline "2024-01-08" is 4 days away; (5) an
    unparseable deadline string or an invalid end date gives 0; (6) a
    deadline already past gives 0. *)
Theorem calculateDaysRemaining_inclusive_days :
  regular_zone host ->
  (forall te ts, plain_year te -> plain_year ts ->
     dateUtils.calculateDaysRemaining (inr (DateValue te)) (DateValue ts)
     = Math_max (Int 0)
         (Math_round
            (num_div (num_sub (getTime (localMidnight (localDay te + 1)))
                              (getTime (localMidnight (localDay ts))))
                     (Int msPerDay))))
  /\ (forall te ts, plain_year te -> plain_year ts ->
        in_calendar_range (localDay te + 1) -> in_calendar_range (localDay ts) ->
        dateUtils.calculateDaysRemaining (inr (DateValue te)) (DateValue ts)
        = Int (Z.max 0 (localDay te - localDay ts + 1)))
  /\ (forall s y m d rest ts,
        StringToNumber <$> split dash s = Int y :: Int m :: Int d :: rest ->
        ~ (0 <= y <= 99) -> ~ (0 <= YearFromDay (MakeDay y (m - 1) d) <= 99) ->
        in_calendar_range (MakeDay y (m - 1) d) ->
        in_calendar_range (MakeDay y (m - 1) d + 1) ->
        plain_year ts -> in_calendar_range (localDay ts) ->
        dateUtils.calculateDaysRemaining (inl s) (DateValue ts)
        = Int (Z.max 0 (MakeDay y (m - 1) d - localDay ts + 1)))
  /\ (forall ts, localDay ts = MakeDay 2024 0 5 ->
        dateUtils.calculateDaysRemaining (inl "2024-01-08") (DateValue ts) = Int 4)
  /\ (forall s start, unparseable_deadline s ->
        dateUtils.calculateDaysRemaining (inl s) start = Int 0)
  /\ (forall start, dateUtils.calculateDaysRemaining (inr InvalidDate) start = Int 0)
  /\ (forall te ts, plain_year te -> plain_year ts ->
        in_calendar_range (localDay te + 1) -> in_calendar_range (localDay ts) ->
        localDay te < localDay ts ->
        dateUtils.calculateDaysRemaining (inr (DateValue te)) (DateValue ts) = Int 0).
Proof.
  intros Hz. split; [|split; [|split; [|split; [|split; [|split]]]]].
  - intros. by apply calculateDaysRemaining_midnights.
  - intros. by apply calculateDaysRemaining_count.
  - intros. by eapply calculateDaysRemaining_string.
  - intros ts Hts.
    assert (Hy : plain_year ts).
    { unfold plain_year, YearFromTime. fold (localDay ts). rewrite Hts.
      intros [_ H]. revert H. by vm_compute. }
    rewrite (calculateDaysRemaining_string "2024-01-08" 2024 1 8 [] ts Hz).
    + rewrite Hts. by vm_compute.
    + by vm_compute.
    + intros [_ H]. revert H. by vm_compute.
    + intros [_ H]. revert H. by vm_compute.
    + by vm_compute.
    + by vm_compute.
    + exact Hy.
    + rewrite Hts. by vm_compute.
  - intros. by apply calculateDaysRemaining_unparseable.
  - reflexivity.
  - intros te ts He Hs Hre Hrs Hlt.
    rewrite calculateDaysRemaining_count by assumption. f_equal. lia.
Qed.

End DaysRemainingClaims.

(** The claim at work across a change of offset: from 2024-03-29 to the
    deadline 2024-04-02 in Central European time the clocks go forward
    once, the two midnights are 5 days less one hour apart, and the count
    is 5. *)
Lemma calculateDaysRemaining_inclusive_days_witness :
  @dateUtils.calculateDaysRemaining cet_host (inl "2024-04-02") (DateValue 1711700000000)
  = Int 5
  /\ @dateUtils.calculateDaysRemaining cet_host (inl "2024-01-08") (DateValue 1704468600000)
     = Int 4.
Proof.
  destruct (@calculateDaysRemaining_inclusive_days cet_host cet_host_regular)
    as (_ & _ & Hstr & Hex & _).
  split.
  - rewrite (Hstr "2024-04-02" 2024 4 2 [] 1711700000000).
    + by vm_compute.
    + by vm_compute.
    + intros [_ H]. revert H. by vm_compute.
    + intros [_ H]. revert H. by vm_compute.
    + by vm_compute.
    + by vm_compute.
    + intros [_ H]. revert H. by vm_compute.
    + by vm_compute.
  - apply Hex. by vm_compute.
Defined.

(** ** Days remaining in a period (getDaysRemainingInPeriod) *)

Section DaysRemainingInPeriod.
Context {host : Host}.

Lemma getDaysRemainingInPeriod_midnights tp tn :
  plain_year tp -> plain_year tn ->
  getDaysRemainingInPeriod (DateValue tp) (DateValue tn)
  = Math_max (Int 0)
      (Math_round
         (num_div (num_sub (getTime (localMidnight (localDay tp)))
                           (getTime (localMidnight (localDay tn))))
                  (Int msPerDay))).
Proof.
  intros Hp Hn. unfold getDaysRemainingInPeriod.
  rewrite (Date_new_components_0 tp Hp), (Date_new_components_0 tn Hn).
  reflexivity.
Qed.

Lemma dayBefore_midnight tp :
  plain_year tp -> dayBefore (DateValue tp) = localMidnight (localDay tp - 1).
Proof.
  intros Hp. unfold dayBefore.
  replace (num_sub (getDate (DateValue tp)) (Int 1))
    with (num_add (getDate (DateValue tp)) (Int (-1))).
  - by rewrite (Date_new_components tp (-1) Hp).
  - unfold getDate. by rewrite num_add_Int, num_sub_Int.
Qed.

(** The period's count is the deadline count of the day before the
    period's (exclusive) end. *)
Lemma getDaysRemainingInPeriod_dayBefore tp tn :
  regular_zone host -> plain_year tp -> plain_year tn ->
  in_calendar_range (localDay tp - 1) ->
  ~ (0 <= YearFromDay (localDay tp - 1) <= 99) ->
  getDaysRemainingInPeriod (DateValue tp) (DateValue tn)
  = dateUtils.calculateDaysRemaining (inr (dayBefore (DateValue tp))) (DateValue tn).
Proof.
  intros Hz Hp Hn Hr Hy.
  rewrite getDaysRemainingInPeriod_midnights by assumption.
  rewrite dayBefore_midnight by assumption.
  rewrite (localMidnight_valid (localDay tp - 1)) by assumption.
  rewrite calculateDaysRemaining_midnights.
    2: by apply plain_year_localMidnight. 2: assumption.
  rewrite (zone_midnight host Hz).
  by replace (localDay tp - 1 + 1) with (localDay tp) by lia.
Qed.

Lemma getDaysRemainingInPeriod_count tp tn :
  regular_zone host -> plain_year tp -> plain_year tn ->
  in_calendar_range (localDay tp) -> in_calendar_range (localDay tn) ->
  getDaysRemainingInPeriod (DateValue tp) (DateValue tn)
  = Int (Z.max 0 (localDay tp - localDay tn)).
Proof.
  intros Hz Hp Hn Hrp Hrn.
  rewrite getDaysRemainingInPeriod_midnights by assumption.
  by apply days_between_midnights.
Qed.

End DaysRemainingInPeriod.

(** ** Iterating over the entries of an object *)

Lemma foldl_pointwise {A B : Type} (f g : A -> B -> A) (l : list B) (a : A) :
  (forall x y, f x y = g x y) -> foldl f a l = foldl g a l.
Proof.
  intros Hfg. revert a. induction l as [|b l IH]; intros a; [done|].
  simpl. by rewrite Hfg, IH.
Qed.

(** A loop body that, for each entry, overwrites at most the entry's own
    key, deciding from the value stored under that key: each key of the
    result is decided by its own entry alone. *)
Lemma foldl_entries_lookup {V W : Type} (upd : string -> V -> option W -> option W)
    (l : list (string * V)) (init : gmap string W) (k : string) :
  NoDup l.*1 ->
  foldl (fun acc entry =>
           match upd (fst entry) (snd entry) (acc !! fst entry) with
           | Some x => <[fst entry := x]> acc
           | None => acc
           end) init l !! k
  = match (list_to_map l : gmap string V) !! k with
    | Some v => match upd k v (init !! k) with Some x => Some x | None => init !! k end
    | None => init !! k
    end.
Proof.
  revert init. induction l as [|[k' v'] l IH]; intros init Hnd.
  - simpl. by rewrite lookup_empty.
  - rewrite fmap_cons, NoDup_cons in Hnd. destruct Hnd as [Hnotin Hnd].
    cbn [foldl fst snd]. rewrite (IH _ Hnd). cbn [list_to_map foldr uncurry].
    cbn [fst snd] in *.
    destruct (decide (k' = k)) as [->|Hne].
    + rewrite lookup_insert_eq.
      rewrite (not_elem_of_list_to_map_1 l k Hnotin).
      destruct (upd k v' (init !! k)); [by rewrite lookup_insert_eq | done].
    + rewrite lookup_insert_ne by done.
      assert (Hsame : forall m : gmap string W,
                 match upd k' v' (init !! k') with
                 | Some x => <[k' := x]> init
                 | None => init
                 end !! k = init !! k).
      { intros _. destruct (upd k' v' (init !! k')); [by rewrite lookup_insert_ne | done]. }
      by rewrite (Hsame init).
Qed.

Lemma forEach_entries_lookup {V W : Type} (upd : string -> V -> option W -> option W)
    (body : gmap string W -> string -> V -> gmap string W)
    (obj : gmap string V) (init : gmap string W) (k : string) :
  (forall acc key v,
      body acc key v = match upd key v (acc !! key) with
                       | Some x => <[key := x]> acc
                       | None => acc
                       end) ->
  forEach_entries obj body init !! k
  = match obj !! k with
    | Some v => match upd k v (init !! k) with Some x => Some x | None => init !! k end
    | None => init !! k
    end.
Proof.
  intros Hbody. unfold forEach_entries.
  rewrite <- (list_to_map_to_list obj) at 2.
  rewrite <- (foldl_entries_lookup upd (map_to_list obj) init k (NoDup_fst_map_to_list obj)).
  f_equal. apply foldl_pointwise. intros acc [key v]. apply Hbody.
Qed.

(** ** Sync merge of the completion ledger *)

Section SyncMerge.
Context {host : Host}.

Lemma nonempty_true s : nonempty s = true <-> s <> "".
Proof. destruct s; simpl; split; congruence. Qed.


Lemma inherited_proto key : inherited key = false -> String.eqb key "__proto__" = false.
Proof.
  unfold inherited, Object_prototype_names. cbn [existsb]. intros H.
  destruct (String.eqb key "__proto__"); [|done].
  by rewrite orb_true_r in H.
Qed.

Lemma mergeCompletedAtMap_lookup current map k :
  mergeCompletedAtMap current map !! k
  = match map !! k with
    | Some completedAt =>
        match merge_outcome k completedAt (current !! k) with
        | Some x => Some x
        | None => current !! k
        end
    | None => current !! k
    end.
Proof.
  unfold mergeCompletedAtMap.
  apply (forEach_entries_lookup merge_outcome).
  intros acc key v.
  unfold merge_outcome, merge_entry, get_property, set_property, truthy_member,
    Date_of_member.
  destruct (nonempty v); cbn [negb].
  2: { by destruct (acc !! key). }
  destruct (acc !! key) as [existing|].
  - destruct (nonempty existing); cbn [negb]; [|done].
    cbv zeta.
    by destruct (negb (isNaN (getTime (Date_parse v)))
                 && (isNaN (getTime (Date_parse existing))
                     || num_lt (getTime (Date_parse v)) (getTime (Date_parse existing)))).
  - destruct (inherited key) eqn:Hin; cbn [negb].
    + cbv zeta. cbn [getTime isNaN orb].
      rewrite andb_true_r.
      destruct (String.eqb key "__proto__"); cbn [orb];
        by destruct (isNaN (getTime (Date_parse v))).
    + by rewrite (inherited_proto key Hin).
Qed.


End SyncMerge.


Section SyncMergeFrame.
Context {host : Host}.


End SyncMergeFrame.

(** ** Snapshot finalizer *)

Lemma foldl_invariant {A B : Type} (P : A -> Prop) (f : A -> B -> A) (l : list B) (a : A) :
  (forall x y, P x -> P (f x y)) -> P a -> P (foldl f a l).
Proof.
  intros Hf. revert a. induction l as [|b l IH]; intros a Ha; [done|].
  simpl. apply IH, Hf, Ha.
Qed.

Section Snapshots.
Context {host : Host}.

Lemma finalizeGoalSnapshot_preserves now ledger goalType periodKey start end_
    (snapshots : gmap string GoalSnapshot) k s :
  snapshots !! k = Some s ->
  finalizeGoalSnapshot now ledger goalType periodKey start end_ snapshots !! k = Some s.
Proof.
  intros Hk. unfold finalizeGoalSnapshot.
  destruct (snapshots !! buildGoalSnapshotKey goalType periodKey) eqn:Hkey; [done|].
  rewrite lookup_insert_ne; [done|]. intros Heq. rewrite Heq in Hkey. congruence.
Qed.

Lemma finalizeClosedGoalSnapshots_preserves now ledger data
    (store : gmap string GoalSnapshot) k s :
  store !! k = Some s ->
  finalizeClosedGoalSnapshots now ledger data store !! k = Some s.
Proof.
  intros Hk. unfold finalizeClosedGoalSnapshots.
  apply (foldl_invariant (fun st : gmap string GoalSnapshot => st !! k = Some s)).
  - intros st goal Hst. destruct (custom_enabled goal); cbn [negb]; [|done].
    destruct (getCustomPeriod _ _) as [period|]; [|done].
    destruct (date_gt _ _); [exact Hst|].
    destruct (store !! buildGoalSnapshotKey _ _); [exact Hst|].
    by apply finalizeGoalSnapshot_preserves.
  - apply (foldl_invariant (fun st : gmap string GoalSnapshot => st !! k = Some s)); [|done].
    intros st target Hst.
    destruct (getPeriodForSelection _) as [period|]; [|done].
    destruct (date_gt _ _); [exact Hst|].
    destruct (store !! buildGoalSnapshotKey _ _); [exact Hst|].
    by apply finalizeGoalSnapshot_preserves.
Qed.

(** C1. [finalizeGoalSnapshot] inserts a snapshot under the key
    "{goalType}:{periodKey}" only if none is stored there: (1) with no
    snapshot under the key it stores the one [createSnapshotForPeriod]
    builds, and with one it returns the map unchanged; (2) a second call
    with the same goal type, key and bounds -- at any later time and over
    any later ledger -- returns the map unchanged; (3) after the calls
    there is a snapshot under the key, and the map has grown by exactly
    one entry if there was none and not at all otherwise; (4) a snapshot
    stored under any key is never overwritten by [finalizeGoalSnapshot],
    nor (5) by any number of [finalizeClosedGoalSnapshots] sweeps. *)
Theorem finalizeGoalSnapshot_insert_if_absent now ledger goalType periodKey start end_
    (snapshots : gmap string GoalSnapshot) :
  let snapshotKey := buildGoalSnapshotKey goalType periodKey in
  let once := finalizeGoalSnapshot now ledger goalType periodKey start end_ snapshots in
  (snapshots !! snapshotKey = None ->
     once = <[snapshotKey :=
                createSnapshotForPeriod now ledger goalType periodKey start end_]> snapshots)
  /\ (is_Some (snapshots !! snapshotKey) -> once = snapshots)
  /\ (forall now' ledger',
        finalizeGoalSnapshot now' ledger' goalType periodKey start end_ once = once)
  /\ is_Some (once !! snapshotKey)
  /\ size once = match snapshots !! snapshotKey with
                 | Some _ => size snapshots
                 | None => S (size snapshots)
                 end
  /\ (forall k s, snapshots !! k = Some s -> once !! k = Some s)
  /\ (forall k s runs, snapshots !! k = Some s -> repeated_sweeps runs snapshots !! k = Some s).
Proof.
  cbv zeta.
  set (key := buildGoalSnapshotKey goalType periodKey).
  set (once := finalizeGoalSnapshot now ledger goalType periodKey start end_ snapshots).
  assert (Habsent : snapshots !! key = None ->
            once = <[key := createSnapshotForPeriod now ledger goalType periodKey start end_]>
                     snapshots).
  { intros Hkey. subst once key. unfold finalizeGoalSnapshot. by rewrite Hkey. }
  assert (Hpresent : is_Some (snapshots !! key) -> once = snapshots).
  { intros [s0 Hkey]. subst once key. unfold finalizeGoalSnapshot. by rewrite Hkey. }
  assert (Hstored : is_Some (once !! key)).
  { destruct (snapshots !! key) as [s0|] eqn:Hkey.
    - rewrite Hpresent by eauto. rewrite Hkey. eauto.
    - rewrite Habsent by done. rewrite lookup_insert_eq. eauto. }
  split; [exact Habsent|]. split; [exact Hpresent|]. split.
  { intros now' ledger'. destruct Hstored as [s1 Hs1].
    unfold finalizeGoalSnapshot at 1. fold key. by rewrite Hs1. }
  split; [exact Hstored|]. split.
  { destruct (snapshots !! key) as [s0|] eqn:Hkey.
    - by rewrite Hpresent by eauto.
    - rewrite Habsent by done. by apply map_size_insert_None. }
  split.
  { intros k s Hk. by apply finalizeGoalSnapshot_preserves. }
  intros k s runs Hk. unfold repeated_sweeps.
  apply (foldl_invariant (fun st : gmap string GoalSnapshot => st !! k = Some s)); [|done].
  intros st run Hst. by apply finalizeClosedGoalSnapshots_preserves.
Qed.

End Snapshots.

Lemma finalizeGoalSnapshot_insert_if_absent_witness :
  size (@finalizeGoalSnapshot utc_host 1717200000000 ∅ (Periodic Year) "2023"
          (DateValue 1672531200000) (DateValue 1704067200000)
          (@finalizeGoalSnapshot utc_host 1704067200001 ∅ (Periodic Year) "2023"
             (DateValue 1672531200000) (DateValue 1704067200000) ∅))
  = 1%nat.
Proof.
  destruct (@finalizeGoalSnapshot_insert_if_absent utc_host 1704067200001 ∅ (Periodic Year)
              "2023" (DateValue 1672531200000) (DateValue 1704067200000) ∅)
    as (_ & _ & Htwice & _ & Hsize & _).
  rewrite Htwice, Hsize, lookup_empty. reflexivity.
Defined.

(** ** Progress of the active goal *)

Section Progress.
Context {host : Host}.

(** C4. When the selection's period has ended ([end <= now]) and a
    snapshot is stored under the period's key, the report's
    [completedVolumes] is the number of entries of the snapshot's frozen
    [completed] set, no in-progress volume and no partial credit is
    counted, and the report does not depend on the live completion
    ledger: over any other ledger (for instance one that has since gained
    an in-window completion) every field of the report is the same. *)
Theorem activeGoalProgress_closed_snapshot now ledger ledger' selection targets customGoals
    volumes catalog (snapshots : gmap string GoalSnapshot) period snapshot :
  activeGoalPeriod selection customGoals = Some period ->
  date_le (period_end period) (DateValue now) = true ->
  snapshots !! buildGoalSnapshotKey (period_goalType period) (period_periodKey period)
    = Some snapshot ->
  let report :=
    activeGoalProgress now ledger selection targets customGoals volumes catalog snapshots in
  completedVolumes report = Int (Z.of_nat (size (snapshot_completed snapshot)))
  /\ inProgressVolumes report = Int 0
  /\ totalProgress report = completedVolumes report
  /\ isClosed report = true
  /\ activeGoalProgress now ledger' selection targets customGoals volumes catalog snapshots
     = report.
Proof.
  intros Hperiod Hclosed Hsnap. cbv zeta.
  unfold activeGoalProgress.
  replace (match selection with
           | PeriodSelection _ _ => getPeriodForSelection selection
           | CustomSelection _ => getCustomPeriod selection customGoals
           end) with (Some period)
    by (rewrite <- Hperiod; by destruct selection).
  cbv beta iota zeta. rewrite Hclosed, Hsnap. cbv beta iota zeta.
  cbn [completedVolumes inProgressVolumes totalProgress isClosed].
  rewrite num_add_Int, Z.add_0_r. done.
Qed.

End Progress.

Lemma activeGoalProgress_closed_snapshot_witness :
  completedVolumes
    (@activeGoalProgress utc_host 1717200000000 ledger_2023 (PeriodSelection Year "2023")
       [] [] (Some volumes_2023) ∅ snapshots_2023)
  = Int 1.
Proof.
  edestruct (@activeGoalProgress_closed_snapshot utc_host 1717200000000 ledger_2023 ∅
               (PeriodSelection Year "2023") [] [] (Some volumes_2023) ∅ snapshots_2023)
    as (Hcount & _).
  - vm_compute. reflexivity.
  - vm_compute. reflexivity.
  - vm_compute. reflexivity.
  - rewrite Hcount. vm_compute. reflexivity.
Defined.

Section ProgressDays.
Context {host : Host}.

Lemma activeGoalProgress_daysRemaining now ledger selection targets customGoals volumes
    catalog (snapshots : gmap string GoalSnapshot) period :
  activeGoalPeriod selection customGoals = Some period ->
  daysRemaining
    (activeGoalProgress now ledger selection targets customGoals volumes catalog snapshots)
  = getDaysRemainingInPeriod (period_end period) (DateValue now).
Proof.
  intros Hperiod. unfold activeGoalProgress.
  replace (match selection with
           | PeriodSelection _ _ => getPeriodForSelection selection
           | CustomSelection _ => getCustomPeriod selection customGoals
           end) with (Some period)
    by (rewrite <- Hperiod; by destruct selection).
  cbv beta iota zeta.
  destruct (if date_le (period_end period) (DateValue now)
            then snapshots !! buildGoalSnapshotKey (period_goalType period)
                                (period_periodKey period)
            else None) as [snapshot|].
  - reflexivity.
  - destruct volumes as [vols|]; [|reflexivity].
    by destruct (live_counts ledger period vols catalog) as [[[c i] p] r].
Qed.

(** C6, as the code has it.  The report's [daysRemaining] is
    max(0, round((midnight of the period's end - midnight of now) / 1 day)):
    the period's exclusive [end] is truncated to local midnight with no
    day added, [now] is truncated to local midnight, the difference in
    days is rounded and floored at 0.  In a regular time zone it is the
    number of local calendar days from today to the last day of the
    period inclusive, and equals the deadline calculation
    [calculateDaysRemaining] applied to the day before the period's end. *)
Theorem daysRemaining_to_exclusive_period_end now ledger selection targets customGoals
    volumes catalog (snapshots : gmap string GoalSnapshot) period tp :
  regular_zone host ->
  activeGoalPeriod selection customGoals = Some period ->
  period_end period = DateValue tp ->
  plain_year tp -> plain_year now ->
  let report :=
    activeGoalProgress now ledger selection targets customGoals volumes catalog snapshots in
  daysRemaining report
  = Math_max (Int 0)
      (Math_round
         (num_div (num_sub (getTime (localMidnight (localDay tp)))
                           (getTime (localMidnight (localDay now))))
                  (Int msPerDay)))
  /\ (in_calendar_range (localDay tp) -> in_calendar_range (localDay now) ->
      daysRemaining report = Int (Z.max 0 (localDay tp - localDay now)))
  /\ (in_calendar_range (localDay tp - 1) -> ~ (0 <= YearFromDay (localDay tp - 1) <= 99) ->
      daysRemaining report
      = dateUtils.calculateDaysRemaining (inr (dayBefore (period_end period)))
          (DateValue now)).
Proof.
  intros Hz Hperiod Hend Hp Hn. cbv zeta.
  rewrite (activeGoalProgress_daysRemaining _ _ _ _ _ _ _ _ _ Hperiod), Hend.
  split; [by apply getDaysRemainingInPeriod_midnights|]. split.
  - intros. by apply getDaysRemainingInPeriod_count.
  - intros. by apply getDaysRemainingInPeriod_dayBefore.
Qed.

End ProgressDays.

(** On 2024-12-31 the year 2024, whose [end] is 2025-01-01, has 1 day
    remaining in the report, while the deadline calculation applied to
    the period's [end] (end date + 1 day) gives 2. *)
Lemma daysRemaining_is_not_deadline_count_of_period_end :
  @getPeriodForSelection utc_host (PeriodSelection Year "2024")
  = Some {| period_goalType := Periodic Year; period_periodKey := "2024";
            period_label := LabelYear (Int 2024);
            period_start := DateValue 1704067200000;
            period_end := DateValue 1735689600000 |}
  /\ daysRemaining
       (@activeGoalProgress utc_host 1735646400000 ∅ (PeriodSelection Year "2024")
          [] [] None ∅ ∅)
     = Int 1
  /\ @dateUtils.calculateDaysRemaining utc_host (inr (DateValue 1735689600000))
       (DateValue 1735646400000)
     = Int 2.
Proof. vm_compute. repeat split; reflexivity. Qed.

Lemma daysRemaining_to_exclusive_period_end_witness :
  daysRemaining
    (@activeGoalProgress cet_host 1711700000000 ∅ (PeriodSelection Month "2024-03")
       [] [] None ∅ ∅)
  = Int 3.
Proof.
  edestruct (@daysRemaining_to_exclusive_period_end cet_host 1711700000000 ∅
               (PeriodSelection Month "2024-03") [] [] None ∅ ∅)
    as (_ & Hcount & _).
  - exact cet_host_regular.
  - vm_compute. reflexivity.
  - vm_compute. reflexivity.
  - intros [_ H]. revert H. by vm_compute.
  - intros [_ H]. revert H. by vm_compute.
  - rewrite Hcount; by vm_compute.
Defined.

(** ** Period resolver *)

Section Resolver.
Context {host : Host}.

(** C7, at the failing inputs.  A month key whose month part is missing
    ("2024") or is not a number ("2024-xx") is not answered [null]: the
    month index is [NaN], which passes both range tests, and the resolver
    returns a period whose bounds are invalid dates. *)
Theorem getPeriodForSelection_month_NaN_not_rejected :
  getPeriodForSelection (PeriodSelection Month "2024")
  = Some {| period_goalType := Periodic Month; period_periodKey := "2024";
            period_label := LabelLocaleMonthYear InvalidDate;
            period_start := InvalidDate; period_end := InvalidDate |}
  /\ getPeriodForSelection (PeriodSelection Month "2024-xx")
     = Some {| period_goalType := Periodic Month; period_periodKey := "2024-xx";
               period_label := LabelLocaleMonthYear InvalidDate;
               period_start := InvalidDate; period_end := InvalidDate |}
  /\ parseMonthKey "2024" = Some (Int 2024, NaN)
  /\ parseMonthKey "2024-xx" = Some (Int 2024, NaN).
Proof. vm_compute. repeat split; reflexivity. Qed.

End Resolver.

(** ** Goal store *)

Section GoalStore.
Context {host : Host}.

Lemma Number_toString_Int z : Number_toString (Int z) = pretty z.
Proof. unfold Number_toString, Int. by rewrite truncate_inject_Z. Qed.

(** C8. [removeCustomGoal(id)] deletes the custom goals with that id and
    keeps the others in order; the targets are untouched; if the active
    selection pointed at that id it becomes the year selection with the
    current year's key (the decimal numeral of the local year), and
    otherwise it is unchanged.  Nothing is required of the targets: the
    operation is total, also when no target exists for the current year. *)
Theorem removeCustomGoal_resets_active_selection now customId data :
  let data' := removeCustomGoal now customId data in
  customGoals data'
  = List.filter (fun goal => negb (String.eqb (custom_id goal) customId)) (customGoals data)
  /\ (forall goal, goal ∈ customGoals data'
                   <-> goal ∈ customGoals data /\ custom_id goal <> customId)
  /\ targets data' = targets data
  /\ (activeSelection data = CustomSelection customId ->
      activeSelection data'
      = PeriodSelection Year (pretty (YearFromTime (LocalTime now))))
  /\ (activeSelection data <> CustomSelection customId ->
      activeSelection data' = activeSelection data).
Proof.
  cbv zeta. unfold removeCustomGoal. cbn [customGoals targets activeSelection].
  split; [done|]. split.
  { intros goal. rewrite !list_elem_of_In, filter_In, negb_true_iff.
    by rewrite String.eqb_neq. }
  split; [done|]. split.
  - intros ->. rewrite String.eqb_refl.
    unfold getCurrentPeriodKey, buildYearKey, getFullYear.
    by rewrite Number_toString_Int.
  - intros Hne. destruct (activeSelection data) as [gt key|id]; [done|].
    destruct (String.eqb_spec id customId) as [->|]; [done|done].
Qed.

End GoalStore.

(** ** Save handlers *)

Section SaveHandlers.
Context {host : Host}.

Lemma num_le_not_gt x y : num_le x y = true -> num_gt x y = false.
Proof.
  unfold num_gt.
  destruct x as [|a|p], y as [|b|q]; simpl; try done;
    try (destruct a; try destruct b; done); try (destruct b; done).
  unfold Qlt_bool. intros H. by rewrite H.
Qed.

(** C9. Invalid input makes the save handlers no-ops on the store: a
    non-positive target value in [saveTarget]; an edited custom goal with
    an empty name, start date or end date, or a non-positive target, in
    [saveCustom] (which then also keeps the pending edit); likewise on
    the goal card a non-positive value in [saveGoal] and an empty required
    field or a non-positive target in [saveCustomGoal].  The handlers are
    total, so no exception surfaces. *)
Theorem invalid_input_saves_nothing :
  (forall now view data,
      num_le (targetValue view) (Int 0) = true -> saveTarget now view data = data)
  /\ (forall goalId view data updated,
        customEdits view !! goalId = Some updated ->
        custom_name updated = "" \/ custom_startDate updated = ""
        \/ custom_endDate updated = ""
        \/ num_le (custom_targetVolumes updated) (Int 0) = true ->
        saveCustom goalId (view, data) = (view, data))
  /\ (forall now card data,
        num_le (editValue card) (Int 0) = true -> snd (saveGoal now (card, data)) = data)
  /\ (forall now id card data,
        customName card = "" \/ customStart card = "" \/ customEnd card = ""
        \/ num_le (customTarget card) (Int 0) = true ->
        saveCustomGoal now id (card, data) = (card, data)).
Proof.
  split; [|split; [|split]].
  - intros now view data H. unfold saveTarget. by rewrite H.
  - intros goalId view data updated Hedit H. unfold saveCustom. rewrite Hedit.
    destruct H as [H|[H|[H|H]]]; rewrite H; cbn [nonempty negb orb];
      rewrite ?orb_true_r; done.
  - intros now card data H. unfold saveGoal. cbn [snd].
    by rewrite (num_le_not_gt _ _ H).
  - intros now id card data H. unfold saveCustomGoal.
    destruct H as [H|[H|[H|H]]]; rewrite H; cbn [nonempty negb orb];
      rewrite ?orb_true_r; done.
Qed.

End SaveHandlers.

(** ** Completion ledger backfill *)

(** C2, at the failing input.  With one completed volume in the progress
    log and its record in the browser storage, the first backfill pass
    (at 10:00) adds the ledger entry and persists it.  The second pass
    (at 10:01) over the same log and catalog leaves the ledger as it is,
    but runs the persist again: the ['completedAtUpdatedAt'] marker moves
    from 10:00 to 10:01. *)
Theorem backfill_second_pass_moves_marker :
  let st1 := @completedAt_backfill utc_host true 1704448800000 (Some volumes_done) ∅
               (∅, storage_done) in
  let st2 := @completedAt_backfill utc_host true 1704448860000 (Some volumes_done) ∅ st1 in
  fst st1 !! "v1" = Some "2024-01-05T10:00:00.000Z"
  /\ fst st2 = fst st1
  /\ ls_volumes (snd st2) = ls_volumes (snd st1)
  /\ ls_completedAtUpdatedAt (snd st1) = Some "2024-01-05T10:00:00.000Z"
  /\ ls_completedAtUpdatedAt (snd st2) = Some "2024-01-05T10:01:00.000Z".
Proof.
  cbv zeta. split; [|split; [|split; [|split]]]; vm_compute; reflexivity.
Qed.

Section SaveHandlersWitness.

Lemma invalid_input_saves_nothing_witness :
  @saveTarget utc_host 1704448800000
    {| selectedGoalType := Year; selectedPeriodKey := "2024"; targetValue := Int 0;
       customEdits := ∅ |}
    {| targets := []; customGoals := []; activeSelection := PeriodSelection Year "2024" |}
  = {| targets := []; customGoals := []; activeSelection := PeriodSelection Year "2024" |}.
Proof.
  destruct (@invalid_input_saves_nothing utc_host) as (Htarget & _).
  apply Htarget. reflexivity.
Defined.

End SaveHandlersWitness.

Lemma removeCustomGoal_resets_active_selection_witness :
  activeSelection
    (@removeCustomGoal utc_host 1704448800000 "c1"
       {| targets := [];
          customGoals :=
            [ {| custom_id := "c1"; custom_name := "Summer reading";
                 custom_targetVolumes := Int 5; custom_startDate := "2024-06-01";
                 custom_endDate := "2024-08-31"; custom_enabled := true;
                 custom_createdAt := "2024-01-01T00:00:00.000Z" |} ];
          activeSelection := CustomSelection "c1" |})
  = PeriodSelection Year "2024".
Proof.
  edestruct (@removeCustomGoal_resets_active_selection utc_host 1704448800000 "c1")
    as (_ & _ & _ & Hreset & _).
  rewrite Hreset; [|reflexivity]. vm_compute. reflexivity.
Defined.


(** * Further properties of the engine *)

(** ** The completion ledger *)

Section LedgerFacts.
Context {host : Host}.

Lemma backfill_update_lookup now volumes catalog (map : gmap string string) k :
  backfill_update now volumes catalog map !! k
  = match volumes !! k with
    | Some volumeData =>
        if truthy_member (get_property map k) then map !! k
        else if isVolumeCompleted volumeData (totalPages_of catalog k)
             then Some (or_else (lastProgressUpdate volumeData) (Date_toISOString now))
             else map !! k
    | None => map !! k
    end.
Proof.
  unfold backfill_update.
  rewrite (forEach_entries_lookup
             (fun key v (old : option string) =>
                if truthy_member (get_property map key) then None
                else if negb (isVolumeCompleted v (totalPages_of catalog key)) then None
                     else match old with
                          | Some _ =>
                              Some (or_else (lastProgressUpdate v) (Date_toISOString now))
                          | None =>
                              if String.eqb key "__proto__" then None
                              else Some (or_else (lastProgressUpdate v)
                                           (Date_toISOString now))
                          end)).
  - destruct (volumes !! k) as [v|]; [|done].
    destruct (truthy_member (get_property map k)) eqn:Ht; [done|].
    destruct (isVolumeCompleted v (totalPages_of catalog k)); cbn [negb]; [|done].
    unfold get_property in Ht. destruct (map !! k) as [s|]; [done|].
    destruct (inherited k) eqn:Hin; [done|].
    by rewrite (inherited_proto k Hin).
  - intros acc key v. destruct (truthy_member (get_property map key)); [done|].
    destruct (isVolumeCompleted v (totalPages_of catalog key)); cbn [negb]; [|done].
    unfold set_property. destruct (acc !! key); [done|].
    by destruct (String.eqb key "__proto__").
Qed.

Lemma or_else_nonempty s fallback : fallback <> "" -> nonempty (or_else s fallback) = true.
Proof.
  intros Hf. unfold or_else. destruct s as [v|].
  - destruct (nonempty v) eqn:Hv; [done|]. by apply nonempty_true.
  - by apply nonempty_true.
Qed.

(** X1. The backfill is write-once and exact.  An entry with a non-empty
    timestamp is never changed; a volume that is not in the progress log
    keeps whatever the ledger holds for it; a volume of the log without
    such an entry gets one exactly when it is completed (flagged, or read
    to its last page), stamped with its last progress update or, failing
    that, with the current time -- unless its id is the name of a member
    of [Object.prototype] and the ledger has nothing under it: the test
    [map[volumeId]] then reads the inherited member, and such a volume
    never gets an entry. *)
Theorem backfill_write_once now volumes catalog (map : gmap string string) k :
  let updated := backfill_update now volumes catalog map in
  (truthy_at map k = true -> updated !! k = map !! k)
  /\ (volumes !! k = None -> updated !! k = map !! k)
  /\ (forall volumeData,
        volumes !! k = Some volumeData -> truthy_at map k = false ->
        inherited k = false \/ is_Some (map !! k) ->
        isVolumeCompleted volumeData (totalPages_of catalog k) = true ->
        updated !! k
        = Some (or_else (lastProgressUpdate volumeData) (Date_toISOString now)))
  /\ (forall volumeData,
        volumes !! k = Some volumeData ->
        isVolumeCompleted volumeData (totalPages_of catalog k) = false ->
        updated !! k = map !! k)
  /\ (inherited k = true -> map !! k = None -> updated !! k = None).
Proof.
  cbv zeta. rewrite backfill_update_lookup. unfold get_property, truthy_at.
  split; [|split; [|split; [|split]]].
  - intros Ht. destruct (map !! k) as [s|]; [|done]. cbn [truthy_member].
    rewrite Ht. by destruct (volumes !! k).
  - by intros ->.
  - intros v -> Ht Hk Hc. rewrite Hc.
    destruct (map !! k) as [s|].
    + cbn [truthy_member]. by rewrite Ht.
    + destruct Hk as [->|[? ?]]; done.
  - intros v -> Hc. rewrite Hc. by destruct (truthy_member _).
  - intros Hin ->. rewrite Hin. cbn [truthy_member]. by destruct (volumes !! k).
Qed.

(** X2. The backfill is idempotent on the ledger: a second pass over the
    same progress log and catalog, at any later time, returns the ledger
    of the first pass (for a host whose ISO strings are never empty). *)
Theorem backfill_idempotent now now' volumes catalog (map : gmap string string) :
  (forall t, Date_toISOString t <> "") ->
  backfill_update now' volumes catalog (backfill_update now volumes catalog map)
  = backfill_update now volumes catalog map.
Proof.
  intros Hiso. apply map_eq. intros k.
  rewrite (backfill_update_lookup now' volumes catalog (backfill_update now volumes catalog map)).
  destruct (volumes !! k) as [v|] eqn:Hv; [|done].
  unfold get_property at 1.
  rewrite (backfill_update_lookup now volumes catalog map k), Hv.
  destruct (truthy_member (get_property map k)) eqn:Ht.
  - unfold get_property in Ht. destruct (map !! k) as [s|]; by rewrite Ht.
  - destruct (isVolumeCompleted v (totalPages_of catalog k)) eqn:Hc.
    + cbn [truthy_member]. by rewrite (or_else_nonempty _ _ (Hiso now)).
    + unfold get_property in Ht. destruct (map !! k) as [s|]; by rewrite Ht.
Qed.

End LedgerFacts.

Lemma append_nonempty_r (a b : string) : b <> "" -> a +:+ b <> "".
Proof. intros Hb. destruct a; simpl; [done|discriminate]. Qed.

Lemma toISOString_nonempty t : toISOString t <> "".
Proof.
  unfold toISOString. do 13 (apply append_nonempty_r). discriminate.
Qed.

Lemma backfill_write_once_witness :
  @backfill_update utc_host 1704448800000 volumes_done ∅ ∅ !! "v1"
  = Some "2024-01-05T10:00:00.000Z".
Proof.
  destruct (@backfill_write_once utc_host 1704448800000 volumes_done ∅ ∅ "v1")
    as (_ & _ & Hadd & _).
  rewrite (Hadd _ eq_refl eq_refl (or_introl eq_refl) eq_refl). reflexivity.
Defined.

Lemma backfill_idempotent_witness :
  @backfill_update utc_host 1704448860000 volumes_done ∅
    (@backfill_update utc_host 1704448800000 volumes_done ∅ ∅)
  = @backfill_update utc_host 1704448800000 volumes_done ∅ ∅.
Proof. apply (@backfill_idempotent utc_host). exact toISOString_nonempty. Defined.

Section PersistFacts.
Context {host : Host}.

Lemma persist_payload_lookup (map : gmap string string)
    (payload : gmap string (gmap string string)) id :
  forEach_entries map
    (fun (acc : gmap string (gmap string string)) volumeId completedAt =>
       match get_property acc volumeId with
       | None => acc
       | Some stored =>
           let record := match stored with Own record => record | Inherited _ => ∅ end in
           set_property acc volumeId (<["completedAt" := completedAt]> record)
       end) payload !! id
  = match map !! id with
    | Some completedAt =>
        match payload !! id with
        | Some record => Some (<["completedAt" := completedAt]> record)
        | None =>
            if inherited id && negb (String.eqb id "__proto__")
            then Some {[ "completedAt" := completedAt ]} else None
        end
    | None => payload !! id
    end.
Proof.
  rewrite (forEach_entries_lookup
             (fun (key : string) completedAt (old : option (gmap string string)) =>
                match old with
                | Some record => Some (<["completedAt" := completedAt]> record)
                | None =>
                    if inherited key && negb (String.eqb key "__proto__")
                    then Some {[ "completedAt" := completedAt ]} else None
                end)).
  - destruct (map !! id) as [c|]; [|done].
    destruct (payload !! id) as [r|]; [done|].
    by destruct (inherited id && negb (String.eqb id "__proto__")).
  - intros acc key v. unfold get_property, set_property.
    destruct (acc !! key) as [r|]; [done|].
    destruct (inherited key) eqn:Hin; cbn [andb]; [|done].
    cbv zeta. destruct (String.eqb key "__proto__"); cbn [negb]; [done|].
    by rewrite insert_empty.
Qed.

(** X3. Writing the ledger back into the stored progress log never
    removes a volume record: each stored record keeps its other fields and
    gets [completedAt] set when the ledger has an entry for its id.  A
    ledger entry without a stored record is dropped, and no record is
    created -- unless its id is the name of a member of [Object.prototype]
    other than ["__proto__"]: there [volumesPayload[volumeId]] reads the
    inherited function, and a record holding only [completedAt] is
    created.  Outside the browser, or when the ['volumes'] item is absent,
    nothing is written at all. *)
Theorem persistCompletedAtMapToVolumes_frame now (map : gmap string string) ls :
  persistCompletedAtMapToVolumes false now map ls = ls
  /\ (ls_volumes ls = None -> persistCompletedAtMapToVolumes true now map ls = ls)
  /\ (forall payload,
        ls_volumes ls = Some payload -> map !! "__proto__" = None ->
        exists payload',
          ls_volumes (persistCompletedAtMapToVolumes true now map ls) = Some payload'
          /\ dom payload ⊆ dom payload'
          /\ ((forall id, is_Some (map !! id) -> inherited id = false) ->
              dom payload' = dom payload)
          /\ forall id,
               payload' !! id
               = match map !! id with
                 | Some completedAt =>
                     match payload !! id with
                     | Some record => Some (<["completedAt" := completedAt]> record)
                     | None =>
                         if inherited id
                         then Some {[ "completedAt" := completedAt ]} else None
                     end
                 | None => payload !! id
                 end).
Proof.
  split; [done|]. split.
  - intros Hv. unfold persistCompletedAtMapToVolumes. by rewrite Hv.
  - intros payload Hv Hproto. unfold persistCompletedAtMapToVolumes. rewrite Hv. cbn [negb].
    eexists. split; [reflexivity|].
    split; [|split].
    + intros id Hid. apply elem_of_dom in Hid as [r Hr]. apply elem_of_dom.
      rewrite persist_payload_lookup, Hr. destruct (map !! id); by eexists.
    + intros Hplain. apply set_eq. intros id. rewrite !elem_of_dom, persist_payload_lookup.
      destruct (map !! id) as [c|] eqn:Hm; [|done].
      destruct (payload !! id) as [r|]; [split; intros _; by eexists|].
      rewrite (Hplain id) by (by eexists). done.
    + intros id. rewrite persist_payload_lookup.
      destruct (map !! id) as [c|] eqn:Hm; [|done].
      destruct (payload !! id) as [r|]; [done|].
      destruct (String.eqb_spec id "__proto__") as [->|Hne]; [congruence|].
      by rewrite andb_true_r.
Qed.

End PersistFacts.

Lemma persistCompletedAtMapToVolumes_frame_witness :
  exists payload',
    ls_volumes (@persistCompletedAtMapToVolumes utc_host true 1704448800000
                  {[ "constructor" := "2024-01-05T10:00:00.000Z" ]} storage_done)
    = Some payload'
    /\ payload' !! "constructor" = Some {[ "completedAt" := "2024-01-05T10:00:00.000Z" ]}
    /\ payload' !! "v1" = Some {[ "progress" := "180" ]}.
Proof.
  destruct (@persistCompletedAtMapToVolumes_frame utc_host 1704448800000
              {[ "constructor" := "2024-01-05T10:00:00.000Z" ]} storage_done)
    as (_ & _ & Hstored).
  destruct (Hstored {[ "v1" := {[ "progress" := "180" ]} ]} eq_refl)
    as (payload' & Hp & _ & _ & Hl).
  - by vm_compute.
  - exists payload'. split; [exact Hp|]. rewrite !Hl. split; vm_compute; reflexivity.
Defined.

Section MergeFacts.
Context {host : Host}.

(** X4. Merging is idempotent and has the empty payload as identity:
    merging the same remote payload a second time changes nothing, and
    merging an empty payload returns the local ledger. *)
Theorem mergeCompletedAtMap_idempotent (current map : gmap string string) :
  mergeCompletedAtMap (mergeCompletedAtMap current map) map = mergeCompletedAtMap current map
  /\ mergeCompletedAtMap current ∅ = current.
Proof.
  assert (Hirr : forall ts,
             num_lt (getTime (Date_parse ts)) (getTime (Date_parse ts)) = false).
  { intros ts. destruct (getTime (Date_parse ts)) as [|b|q]; simpl; [done|by destruct b|].
    unfold Qlt_bool. by rewrite (proj2 (Qle_bool_iff q q) (Qle_refl q)). }
  assert (Hself : forall ts, nonempty ts = true -> merge_entry ts (Some ts) = None).
  { intros ts Hts. unfold merge_entry. rewrite Hts. cbn [negb]. cbv zeta.
    rewrite Hirr. by destruct (isNaN (getTime (Date_parse ts))). }
  assert (Hsome : forall ts old x,
             merge_entry ts old = Some x -> x = ts /\ nonempty ts = true).
  { intros ts old x. unfold merge_entry.
    destruct (nonempty ts); cbn [negb]; [|done].
    destruct old as [e|]; [|by intros [= <-]].
    destruct (nonempty e); cbn [negb]; [|by intros [= <-]].
    cbv zeta.
    destruct (negb (isNaN (getTime (Date_parse ts)))
              && (isNaN (getTime (Date_parse e))
                  || num_lt (getTime (Date_parse ts)) (getTime (Date_parse e))));
      [by intros [= <-]|done]. }
  split.
  - apply map_eq. intros k. rewrite !mergeCompletedAtMap_lookup.
    destruct (map !! k) as [ts|]; [|done].
    destruct (current !! k) as [e|].
    + change (merge_outcome k ts (Some e)) with (merge_entry ts (Some e)).
      destruct (merge_entry ts (Some e)) as [x|] eqn:Hout.
      * destruct (Hsome _ _ _ Hout) as [-> Hts].
        change (merge_outcome k ts (Some ts)) with (merge_entry ts (Some ts)).
        by rewrite (Hself ts Hts).
      * change (merge_outcome k ts (Some e)) with (merge_entry ts (Some e)).
        by rewrite Hout.
    + destruct (merge_outcome k ts None) as [x|] eqn:Hout; [|by rewrite Hout].
      assert (Hx : x = ts /\ nonempty ts = true).
      { unfold merge_outcome in Hout. destruct (nonempty ts); cbn [negb] in Hout; [|done].
        destruct (inherited k); [|by injection Hout as <-].
        destruct (String.eqb k "__proto__" || isNaN (getTime (Date_parse ts))); [done|].
        by injection Hout as <-. }
      destruct Hx as [-> Hts].
      change (merge_outcome k ts (Some ts)) with (merge_entry ts (Some ts)).
      by rewrite (Hself ts Hts).
  - apply map_eq. intros k. by rewrite mergeCompletedAtMap_lookup, lookup_empty.
Qed.

(** X5. A period snapshot freezes exactly the ledger entries whose
    timestamp is non-empty and falls in [start, end): nothing else enters
    the [completed] set, and the timestamps are copied unchanged. *)
Theorem createSnapshotForPeriod_completed now (ledger : gmap string string) goalType
    periodKey start end_ :
  snapshot_completed (createSnapshotForPeriod now ledger goalType periodKey start end_)
  = filter (fun kv => nonempty kv.2 && isDateWithinRange kv.2 start end_ = true) ledger.
Proof.
  unfold createSnapshotForPeriod. cbn [snapshot_completed].
  apply map_eq. intros k.
  rewrite (forEach_entries_lookup
             (fun (_ : string) completedAt (_ : option string) =>
                if nonempty completedAt && isDateWithinRange completedAt start end_
                then Some completedAt else None)).
  - rewrite lookup_empty.
    destruct (ledger !! k) as [c|] eqn:Hk.
    + destruct (nonempty c && isDateWithinRange c start end_) eqn:Hc.
      * symmetry. by apply map_lookup_filter_Some.
      * symmetry. apply map_lookup_filter_None. right. intros c' Hc'.
        rewrite Hk in Hc'. injection Hc' as <-. cbn [snd]. by rewrite Hc.
    + symmetry. apply map_lookup_filter_None. by left.
  - intros acc key v. by destruct (nonempty v && isDateWithinRange v start end_).
Qed.

End MergeFacts.

(** ** The snapshot sweep *)

Lemma foldl_covers {A B : Type} (I : A -> Prop) (Q : B -> A -> Prop) (f : A -> B -> A)
    (l : list B) (a : A) (x : B) :
  (forall st y, I st -> I (f st y)) ->
  (forall st y, Q x st -> Q x (f st y)) ->
  (forall st, I st -> Q x (f st x)) ->
  I a -> x ∈ l -> Q x (foldl f a l).
Proof.
  intros HI HQ Hx Ha Hin.
  apply list_elem_of_split in Hin as (l1 & l2 & ->).
  rewrite foldl_app. cbn [foldl].
  apply (foldl_invariant (Q x)); [apply HQ|].
  apply Hx. by apply (foldl_invariant I).
Qed.

Lemma foldl_fixed {A B : Type} (f : A -> B -> A) (l : list B) (a : A) :
  (forall x, x ∈ l -> f a x = a) -> foldl f a l = a.
Proof.
  induction l as [|y l IH]; intros H; [done|].
  cbn [foldl]. rewrite (H y) by apply list_elem_of_here.
  apply IH. intros x Hx. apply H. by apply list_elem_of_further.
Qed.

Section SweepFacts.
Context {host : Host}.

Lemma finalizeGoalSnapshot_stored now ledger goalType periodKey start end_
    (snapshots : gmap string GoalSnapshot) :
  is_Some (finalizeGoalSnapshot now ledger goalType periodKey start end_ snapshots
           !! buildGoalSnapshotKey goalType periodKey).
Proof.
  unfold finalizeGoalSnapshot.
  destruct (snapshots !! buildGoalSnapshotKey goalType periodKey) eqn:Hk.
  - rewrite Hk. eauto.
  - rewrite lookup_insert_eq. eauto.
Qed.

(** X6. After a sweep every target whose period does not end after now,
    and every enabled custom goal whose period does not end after now,
    has a snapshot under its key. *)
Theorem finalizeClosedGoalSnapshots_covers now ledger data (store : gmap string GoalSnapshot) :
  let swept := finalizeClosedGoalSnapshots now ledger data store in
  (forall target period,
      target ∈ targets data ->
      getPeriodForSelection
        (PeriodSelection (target_goalType target) (target_periodKey target)) = Some period ->
      date_gt (period_end period) (DateValue now) = false ->
      is_Some (swept !! buildGoalSnapshotKey (period_goalType period)
                                             (period_periodKey period)))
  /\ (forall goal period,
        goal ∈ customGoals data -> custom_enabled goal = true ->
        getCustomPeriod (CustomSelection (custom_id goal)) (customGoals data) = Some period ->
        date_gt (period_end period) (DateValue now) = false ->
        is_Some (swept !! buildGoalSnapshotKey Custom (custom_id goal))).
Proof.
  cbv zeta. unfold finalizeClosedGoalSnapshots.
  set (ft := fun (st : gmap string GoalSnapshot) (target : GoalTarget) => _).
  set (fc := fun (st : gmap string GoalSnapshot) (goal : CustomGoal) => _).
  set (I := fun st : gmap string GoalSnapshot =>
              forall k s, store !! k = Some s -> st !! k = Some s).
  assert (Hft : forall st y k, is_Some (st !! k) -> is_Some (ft st y !! k)).
  { intros st y k [s Hs]. exists s. subst ft. cbv beta.
    destruct (getPeriodForSelection _) as [p|]; [|done].
    destruct (date_gt _ _); [done|].
    destruct (store !! buildGoalSnapshotKey _ _); [done|].
    by apply finalizeGoalSnapshot_preserves. }
  assert (Hfc : forall st y k, is_Some (st !! k) -> is_Some (fc st y !! k)).
  { intros st y k [s Hs]. exists s. subst fc. cbv beta.
    destruct (custom_enabled y); cbn [negb]; [|done].
    destruct (getCustomPeriod _ _) as [p|]; [|done].
    destruct (date_gt _ _); [done|].
    destruct (store !! buildGoalSnapshotKey _ _); [done|].
    by apply finalizeGoalSnapshot_preserves. }
  assert (HIt : forall st y, I st -> I (ft st y)).
  { intros st y HI k s Hk. specialize (HI k s Hk). subst ft. cbv beta.
    destruct (getPeriodForSelection _) as [p|]; [|done].
    destruct (date_gt _ _); [done|].
    destruct (store !! buildGoalSnapshotKey _ _); [done|].
    by apply finalizeGoalSnapshot_preserves. }
  assert (HIc : forall st y, I st -> I (fc st y)).
  { intros st y HI k s Hk. specialize (HI k s Hk). subst fc. cbv beta.
    destruct (custom_enabled y); cbn [negb]; [|done].
    destruct (getCustomPeriod _ _) as [p|]; [|done].
    destruct (date_gt _ _); [done|].
    destruct (store !! buildGoalSnapshotKey _ _); [done|].
    by apply finalizeGoalSnapshot_preserves. }
  split.
  - intros target period Hin Hp Hclosed.
    apply (foldl_invariant
             (fun st : gmap string GoalSnapshot =>
                is_Some (st !! buildGoalSnapshotKey (period_goalType period)
                                                    (period_periodKey period))));
      [intros; by apply Hfc|].
    apply (foldl_covers I
             (fun (_ : GoalTarget) (st : gmap string GoalSnapshot) =>
                is_Some (st !! buildGoalSnapshotKey (period_goalType period)
                                                    (period_periodKey period)))
             ft (targets data) store target);
      [exact HIt | intros; by apply Hft | | by intros k s Hk | exact Hin].
    intros st HI. subst ft. cbv beta. rewrite Hp, Hclosed.
    destruct (store !! buildGoalSnapshotKey _ _) as [s|] eqn:Hs.
    + rewrite (HI _ _ Hs). eauto.
    + apply finalizeGoalSnapshot_stored.
  - intros goal period Hin Hen Hp Hclosed.
    apply (foldl_covers I
             (fun (_ : CustomGoal) (st : gmap string GoalSnapshot) =>
                is_Some (st !! buildGoalSnapshotKey Custom (custom_id goal)))
             fc (customGoals data) _ goal);
      [exact HIc | intros; by apply Hfc | | | exact Hin].
    + intros st HI. subst fc. cbv beta. rewrite Hen, Hp, Hclosed. cbn [negb].
      destruct (store !! buildGoalSnapshotKey _ _) as [s|] eqn:Hs.
      * rewrite (HI _ _ Hs). eauto.
      * apply finalizeGoalSnapshot_stored.
    + apply (foldl_invariant I); [exact HIt | by intros k s Hk].
Qed.

(** X7. The sweep is idempotent: a second sweep at the same time over the
    same goals data (whatever the ledger then holds) finds every closed
    period snapshotted and returns the store unchanged. *)
Theorem finalizeClosedGoalSnapshots_idempotent now ledger ledger' data
    (store : gmap string GoalSnapshot) :
  finalizeClosedGoalSnapshots now ledger' data
    (finalizeClosedGoalSnapshots now ledger data store)
  = finalizeClosedGoalSnapshots now ledger data store.
Proof.
  destruct (finalizeClosedGoalSnapshots_covers now ledger data store) as [Ht Hc].
  cbv zeta in Ht, Hc.
  set (swept := finalizeClosedGoalSnapshots now ledger data store) in *.
  unfold finalizeClosedGoalSnapshots at 1.
  rewrite (foldl_fixed _ (targets data) swept).
  - apply foldl_fixed. intros goal Hin.
    destruct (custom_enabled goal) eqn:Hen; cbn [negb]; [|done].
    destruct (getCustomPeriod _ _) as [p|] eqn:Hp; [|done].
    destruct (date_gt _ _) eqn:Hcl; [done|].
    by destruct (Hc goal p Hin Hen Hp Hcl) as [s ->].
  - intros target Hin.
    destruct (getPeriodForSelection _) as [p|] eqn:Hp; [|done].
    destruct (date_gt _ _) eqn:Hcl; [done|].
    by destruct (Ht target p Hin Hp Hcl) as [s ->].
Qed.

End SweepFacts.

Section SweepOrigin.
Context {host : Host}.

Lemma finalizeGoalSnapshot_new_key now ledger goalType periodKey start end_
    (snapshots : gmap string GoalSnapshot) k :
  is_Some (finalizeGoalSnapshot now ledger goalType periodKey start end_ snapshots !! k) ->
  is_Some (snapshots !! k) \/ k = buildGoalSnapshotKey goalType periodKey.
Proof.
  unfold finalizeGoalSnapshot.
  destruct (snapshots !! buildGoalSnapshotKey goalType periodKey); [by left|].
  destruct (decide (k = buildGoalSnapshotKey goalType periodKey)) as [->|Hne]; [by right|].
  rewrite lookup_insert_ne by done. by left.
Qed.

(** X8. A sweep only adds snapshots of periods that have ended: a key
    present afterwards was already stored, or is the key of a target
    whose resolved period does not end after now, or the key of an
    enabled custom goal whose period does not end after now.  A disabled
    custom goal and a period still open never get a snapshot from it. *)
Theorem finalizeClosedGoalSnapshots_origin now ledger data
    (store : gmap string GoalSnapshot) k :
  is_Some (finalizeClosedGoalSnapshots now ledger data store !! k) ->
  is_Some (store !! k)
  \/ (exists target period,
        target ∈ targets data
        /\ getPeriodForSelection
             (PeriodSelection (target_goalType target) (target_periodKey target))
           = Some period
        /\ date_gt (period_end period) (DateValue now) = false
        /\ k = buildGoalSnapshotKey (period_goalType period) (period_periodKey period))
  \/ (exists goal period,
        goal ∈ customGoals data /\ custom_enabled goal = true
        /\ getCustomPeriod (CustomSelection (custom_id goal)) (customGoals data) = Some period
        /\ date_gt (period_end period) (DateValue now) = false
        /\ k = buildGoalSnapshotKey Custom (custom_id goal)).
Proof.
  unfold finalizeClosedGoalSnapshots.
  set (origin := is_Some (store !! k) \/ _ \/ _).
  set (ft := fun (st : gmap string GoalSnapshot) (target : GoalTarget) => _).
  set (fc := fun (st : gmap string GoalSnapshot) (goal : CustomGoal) => _).
  assert (Hgen : forall (l1 : list GoalTarget) (l2 : list CustomGoal),
             (forall x, x ∈ l1 -> x ∈ targets data) ->
             (forall x, x ∈ l2 -> x ∈ customGoals data) ->
             forall st, (is_Some (st !! k) -> origin) ->
                        is_Some (foldl fc (foldl ft st l1) l2 !! k) -> origin).
  { intros l1. induction l1 as [|t l1 IH]; intros l2 H1 H2 st Hst.
    - cbn [foldl]. revert st Hst.
      induction l2 as [|g l2 IH2]; intros st Hst; [done|].
      cbn [foldl]. apply IH2.
      { intros x Hx. apply H2. by apply list_elem_of_further. }
      intros Hk. subst fc. cbv beta in Hk.
      destruct (custom_enabled g) eqn:Hen; cbn [negb] in Hk; [|by apply Hst].
      destruct (getCustomPeriod _ _) as [p|] eqn:Hp; [|by apply Hst].
      destruct (date_gt _ _) eqn:Hcl; [by apply Hst|].
      destruct (store !! buildGoalSnapshotKey _ _); [by apply Hst|].
      apply finalizeGoalSnapshot_new_key in Hk as [Hk| ->]; [by apply Hst|].
      right. right. exists g, p. split; [apply H2, list_elem_of_here|done].
    - cbn [foldl]. apply IH; [|done|].
      { intros x Hx. apply H1. by apply list_elem_of_further. }
      intros Hk. subst ft. cbv beta in Hk.
      destruct (getPeriodForSelection _) as [p|] eqn:Hp; [|by apply Hst].
      destruct (date_gt _ _) eqn:Hcl; [by apply Hst|].
      destruct (store !! buildGoalSnapshotKey _ _); [by apply Hst|].
      apply finalizeGoalSnapshot_new_key in Hk as [Hk| ->]; [by apply Hst|].
      right. left. exists t, p. split; [apply H1, list_elem_of_here|done]. }
  apply Hgen; try done. by left.
Qed.

End SweepOrigin.

Lemma finalizeClosedGoalSnapshots_covers_witness :
  is_Some
    (@finalizeClosedGoalSnapshots utc_host 1717200000000 ledger_2023 (goals_for_year "2023")
       ∅ !! "year:2023").
Proof.
  destruct (@finalizeClosedGoalSnapshots_covers utc_host 1717200000000 ledger_2023
              (goals_for_year "2023") ∅) as (Ht & _).
  apply (Ht (target_for_year "2023") period_2023).
  - apply list_elem_of_here.
  - vm_compute. reflexivity.
  - vm_compute. reflexivity.
Defined.

Lemma finalizeClosedGoalSnapshots_origin_witness :
  @finalizeClosedGoalSnapshots utc_host 1717200000000 ledger_2023 (goals_for_year "2024")
    ∅ !! "year:2024" = None.
Proof.
  apply eq_None_not_Some. intros Hk.
  apply (@finalizeClosedGoalSnapshots_origin utc_host) in Hk
    as [Hk|[(t & p & Hin & Hp & Hcl & _)|(g & p & Hin & _)]].
  - rewrite lookup_empty in Hk. by destruct Hk.
  - apply list_elem_of_singleton in Hin as ->. vm_compute in Hp.
    injection Hp as <-. vm_compute in Hcl. discriminate.
  - by apply elem_of_nil in Hin.
Defined.

(** X9. Snapshot keys do not collide: "{goalType}:{periodKey}" determines
    both the goal type and the period key (a custom goal's key can never
    be taken for a period's, whatever its id). *)
Theorem buildGoalSnapshotKey_inj goalType1 periodKey1 goalType2 periodKey2 :
  buildGoalSnapshotKey goalType1 periodKey1 = buildGoalSnapshotKey goalType2 periodKey2 ->
  goalType1 = goalType2 /\ periodKey1 = periodKey2.
Proof.
  unfold buildGoalSnapshotKey.
  destruct goalType1 as [[]|], goalType2 as [[]|]; cbn; intros H;
    solve [discriminate H | by simplify_eq].
Qed.

Lemma buildGoalSnapshotKey_inj_witness :
  Periodic Year = Periodic Year /\ "2023" = "2023".
Proof. apply buildGoalSnapshotKey_inj. reflexivity. Defined.

(** ** The goal store *)

Lemma same_target_spec goalType periodKey goal :
  same_target goalType periodKey goal = true
  <-> target_goalType goal = goalType /\ target_periodKey goal = periodKey.
Proof.
  unfold same_target. rewrite andb_true_iff, bool_decide_eq_true, String.eqb_eq. done.
Qed.

Lemma find_upsert {A : Type} (p : A -> bool) (f : A -> A) (x : A) (l : list A) :
  (forall y, p (f y) = p y) -> p x = true ->
  List.find p (match findIndex p l with
               | Some i => alter f i l
               | None => (l ++ [x])%list
               end)
  = Some (match List.find p l with Some y => f y | None => x end).
Proof.
  intros Hpf Hx. induction l as [|y l IH].
  - cbn. by rewrite Hx.
  - cbn [findIndex List.find]. destruct (p y) eqn:Hy.
    + cbn. by rewrite Hpf, Hy.
    + destruct (findIndex p l) as [i|]; cbn; rewrite Hy; exact IH.
Qed.

Lemma find_upsert_other {A : Type} (p q : A -> bool) (f : A -> A) (x : A) (l : list A) :
  (forall y, q (f y) = q y) -> (forall y, p y = true -> q y = false) -> q x = false ->
  List.find q (match findIndex p l with
               | Some i => alter f i l
               | None => (l ++ [x])%list
               end)
  = List.find q l.
Proof.
  intros Hqf Hpq Hx. induction l as [|y l IH].
  - cbn. by rewrite Hx.
  - cbn [findIndex List.find]. destruct (p y) eqn:Hy.
    + cbn. by rewrite Hqf, (Hpq y Hy).
    + destruct (findIndex p l) as [i|]; cbn; destruct (q y); try done; exact IH.
Qed.

Lemma length_upsert {A : Type} (p : A -> bool) (f : A -> A) (x : A) (l : list A) :
  length (match findIndex p l with
          | Some i => alter f i l
          | None => (l ++ [x])%list
          end)
  = match List.find p l with Some _ => length l | None => S (length l) end.
Proof.
  assert (H : (exists i, findIndex p l = Some i /\ is_Some (List.find p l))
              \/ (findIndex p l = None /\ List.find p l = None)).
  { induction l as [|y l IH]; [by right|].
    cbn. destruct (p y); [left; eauto|].
    destruct IH as [(i & -> & Hs)|[-> Hn]]; [left; eauto|by right]. }
  destruct H as [(i & -> & [y ->])|[-> ->]].
  - apply length_alter.
  - rewrite length_app. cbn. lia.
Qed.

Section GoalStoreFacts.
Context {host : Host}.

(** X10. [setGoalTarget] is an upsert by (goal type, period key): the
    target read back for that key is the value just stored; the target of
    every other key reads as before; the list grows by one entry exactly
    when the key had none; custom goals and the selection are untouched. *)
Theorem setGoalTarget_upsert now goalType periodKey value data :
  let data' := setGoalTarget now goalType periodKey value data in
  (forall custom,
      getTargetForSelection (PeriodSelection goalType periodKey) (targets data') custom
      = value)
  /\ (forall goalType' periodKey' custom,
        (goalType', periodKey') <> (goalType, periodKey) ->
        getTargetForSelection (PeriodSelection goalType' periodKey') (targets data') custom
        = getTargetForSelection (PeriodSelection goalType' periodKey') (targets data) custom)
  /\ length (targets data')
     = match List.find (same_target goalType periodKey) (targets data) with
       | Some _ => length (targets data)
       | None => S (length (targets data))
       end
  /\ customGoals data' = customGoals data
  /\ activeSelection data' = activeSelection data.
Proof.
  cbv zeta. unfold setGoalTarget. cbn [targets customGoals activeSelection].
  split; [|split; [|split; [|done]]].
  - intros custom. unfold getTargetForSelection.
    rewrite find_upsert.
    + by destruct (List.find _ _).
    + intros y. unfold same_target. by destruct y.
    + apply same_target_spec. done.
  - intros goalType' periodKey' custom Hne. unfold getTargetForSelection.
    rewrite find_upsert_other; [done| | |].
    + intros y. unfold same_target. by destruct y.
    + intros y Hy. apply same_target_spec in Hy as [Hg Hk].
      apply not_true_iff_false. rewrite same_target_spec. intros [Hg' Hk'].
      apply Hne. congruence.
    + apply not_true_iff_false. rewrite same_target_spec. cbn. intros [Hg' Hk'].
      apply Hne. congruence.
  - apply length_upsert.
Qed.

Lemma find_filter_self {A : Type} (p : A -> bool) (l : list A) :
  List.find p (List.filter (fun y => negb (p y)) l) = None.
Proof.
  induction l as [|y l IH]; [done|]. cbn. destruct (p y) eqn:Hy; cbn; [done|].
  by rewrite Hy.
Qed.

Lemma find_filter_other {A : Type} (p q : A -> bool) (l : list A) :
  (forall y, p y = true -> q y = false) ->
  List.find q (List.filter (fun y => negb (p y)) l) = List.find q l.
Proof.
  intros Hpq. induction l as [|y l IH]; [done|]. cbn. destruct (p y) eqn:Hy; cbn.
  - by rewrite (Hpq y Hy).
  - by rewrite IH.
Qed.

Lemma filter_none {A : Type} (p : A -> bool) (l : list A) :
  List.find p l = None -> List.filter (fun y => negb (p y)) l = l.
Proof.
  induction l as [|y l IH]; [done|]. cbn. destruct (p y); cbn; [done|].
  intros H. by rewrite IH.
Qed.

(** X11. [removeGoalTarget] deletes by key: afterwards the key has no
    target (it reads as 0), every other key reads as before, and removing
    a key that has no target leaves the data as they are. *)
Theorem removeGoalTarget_deletes goalType periodKey data :
  let data' := removeGoalTarget goalType periodKey data in
  (forall custom,
      getTargetForSelection (PeriodSelection goalType periodKey) (targets data') custom
      = Int 0)
  /\ (forall goalType' periodKey' custom,
        (goalType', periodKey') <> (goalType, periodKey) ->
        getTargetForSelection (PeriodSelection goalType' periodKey') (targets data') custom
        = getTargetForSelection (PeriodSelection goalType' periodKey') (targets data) custom)
  /\ (List.find (same_target goalType periodKey) (targets data) = None -> data' = data).
Proof.
  cbv zeta. unfold removeGoalTarget. cbn [targets]. split; [|split].
  - intros custom. unfold getTargetForSelection. by rewrite find_filter_self.
  - intros goalType' periodKey' custom Hne. unfold getTargetForSelection.
    rewrite find_filter_other; [done|].
    intros y Hy. apply same_target_spec in Hy as [Hg Hk].
    apply not_true_iff_false. rewrite same_target_spec. intros [Hg' Hk'].
    apply Hne. congruence.
  - intros Hnone. rewrite filter_none by done. by destruct data.
Qed.

End GoalStoreFacts.

Lemma setGoalTarget_upsert_witness :
  getTargetForSelection (PeriodSelection Year "2023")
    (targets (@setGoalTarget utc_host 1704448800000 Year "2024" (Int 30)
                (goals_for_year "2023"))) []
  = Int 12.
Proof.
  destruct (@setGoalTarget_upsert utc_host 1704448800000 Year "2024" (Int 30)
              (goals_for_year "2023")) as (_ & Hother & _).
  rewrite Hother; [reflexivity|]. intros [= H]. 
Defined.

Lemma removeGoalTarget_deletes_witness :
  removeGoalTarget Year "2024" (goals_for_year "2023") = goals_for_year "2023".
Proof.
  destruct (removeGoalTarget_deletes Year "2024" (goals_for_year "2023")) as (_ & _ & Hnoop).
  apply Hnoop. reflexivity.
Defined.

Lemma fmap_alter_same {A B : Type} (key : A -> B) (f : A -> A) (i : nat) (l : list A) :
  (forall y, key (f y) = key y) -> key <$> alter f i l = key <$> l.
Proof.
  intros Hk. revert i. induction l as [|y l IH]; intros [|i]; cbn; try done.
  - by rewrite Hk.
  - by rewrite IH.
Qed.

Lemma findIndex_None {A : Type} (p : A -> bool) (l : list A) :
  findIndex p l = None -> forall y, y ∈ l -> p y = false.
Proof.
  induction l as [|x l IH]; intros H y Hy; [by apply elem_of_nil in Hy|].
  cbn in H. destruct (p x) eqn:Hx; [done|].
  destruct (findIndex p l); [done|].
  apply elem_of_cons in Hy as [->|Hy]; [done|by apply IH].
Qed.

Section GoalStoreInvariant.
Context {host : Host}.

(** X12. [setGoalTarget] keeps targets unique per (goal type, period
    key): if no two targets share a key before, none do after, and a
    target that existed keeps its position and its [createdAt]. *)
Theorem setGoalTarget_keeps_keys_unique now goalType periodKey value data :
  NoDup (target_key <$> targets data) ->
  NoDup (target_key <$> targets (setGoalTarget now goalType periodKey value data))
  /\ forall i goal,
       targets data !! i = Some goal ->
       exists goal',
         targets (setGoalTarget now goalType periodKey value data) !! i = Some goal'
         /\ target_key goal' = target_key goal
         /\ target_createdAt goal' = target_createdAt goal.
Proof.
  intros Hnd. unfold setGoalTarget. cbn [targets].
  destruct (findIndex (same_target goalType periodKey) (targets data)) as [i|] eqn:Hfi.
  - split.
    + rewrite fmap_alter_same; [done|]. by intros [].
    + intros j goal Hj. destruct (decide (i = j)) as [->|Hne].
      * exists (with_targetVolumes value goal). split; [|by destruct goal].
        by rewrite list_lookup_alter_eq, Hj.
      * exists goal. split; [|done]. by rewrite list_lookup_alter_ne.
  - split.
    + rewrite fmap_app. apply NoDup_app. split; [done|]. split; [|apply NoDup_singleton].
      intros key Hkey Hnew. apply list_elem_of_singleton in Hnew. subst key.
      apply list_elem_of_fmap in Hkey as (y & Hy & Hin).
      pose proof (findIndex_None _ _ Hfi y Hin) as Hp.
      apply not_true_iff_false in Hp. apply Hp. apply same_target_spec.
      unfold target_key in Hy. cbn in Hy. by injection Hy as <- <-.
    + intros j goal Hj. exists goal. split; [|done]. by apply lookup_app_l_Some.
Qed.

(** X13. [updateCustomGoal] replaces by id and never adds or removes a
    goal: the ids, in order, are the same before and after (provided the
    replacement carries the id it replaces, as it always does), and when
    no goal has the id the data are unchanged. *)
Theorem updateCustomGoal_by_id updatedGoal data :
  custom_id <$> customGoals (updateCustomGoal updatedGoal data)
  = custom_id <$> customGoals data
  /\ (find_custom (custom_id updatedGoal) (customGoals data) = None ->
      updateCustomGoal updatedGoal data = data)
  /\ (forall goal,
        goal ∈ customGoals (updateCustomGoal updatedGoal data) ->
        goal = updatedGoal \/ (goal ∈ customGoals data
                               /\ custom_id goal <> custom_id updatedGoal)).
Proof.
  unfold updateCustomGoal. cbn [customGoals]. split; [|split].
  - induction (customGoals data) as [|g l IH]; [done|].
    cbn. rewrite <- IH. f_equal.
    destruct (String.eqb_spec (custom_id g) (custom_id updatedGoal)); congruence.
  - intros Hnone. destruct data as [ts cs sel]. cbn in *. f_equal.
    unfold find_custom in Hnone. induction cs as [|g l IH]; [done|].
    cbn in *. destruct (String.eqb (custom_id g) (custom_id updatedGoal)); [done|].
    by rewrite IH.
  - intros goal Hin. apply list_elem_of_In, in_map_iff in Hin as (g & Hg & Hin).
    destruct (String.eqb_spec (custom_id g) (custom_id updatedGoal)) as [|Hne].
    + by left.
    + right. subst goal. split; [by apply list_elem_of_In|done].
Qed.

Lemma find_custom_app_fresh id (l : list CustomGoal) goal :
  find_custom id l = None -> custom_id goal = id ->
  find_custom id (l ++ [goal])%list = Some goal.
Proof.
  unfold find_custom. intros Hnone Hid. induction l as [|g l IH].
  - cbn. by rewrite Hid, String.eqb_refl.
  - cbn in *. destruct (String.eqb (custom_id g) id); [done|]. by apply IH.
Qed.

(** X14. [createCustomGoal] appends the goal and selects it.  With a
    fresh id the new selection resolves to the new goal (its target is
    the one supplied), and removing the goal again gives back the
    previous list of custom goals with the selection on the current
    year. *)
Theorem createCustomGoal_selects now now' id fields data :
  find_custom id (customGoals data) = None ->
  let data' := createCustomGoal now id fields data in
  activeSelection data' = CustomSelection id
  /\ getTargetForSelection (activeSelection data') (targets data') (customGoals data')
     = fields_targetVolumes fields
  /\ customGoals (removeCustomGoal now' id data') = customGoals data
  /\ activeSelection (removeCustomGoal now' id data')
     = PeriodSelection Year (getCurrentPeriodKey (DateValue now') Year)
  /\ targets data' = targets data.
Proof.
  intros Hfresh. cbv zeta. unfold createCustomGoal, removeCustomGoal.
  cbn [activeSelection customGoals targets getTargetForSelection].
  split; [done|]. split; [|split; [|split; [|done]]].
  - erewrite find_custom_app_fresh; [done | exact Hfresh | done].
  - rewrite List.filter_app. cbn. rewrite String.eqb_refl. cbn.
    rewrite app_nil_r. unfold find_custom in Hfresh.
    induction (customGoals data) as [|g l IH]; [done|].
    cbn in *. destruct (String.eqb (custom_id g) id); [done|]. cbn. by rewrite IH.
  - by rewrite String.eqb_refl.
Qed.

(** After [removeCustomGoal(id)] the id no longer resolves: it has
    no custom period and its target reads as 0. *)
Lemma removeCustomGoal_unresolvable now customId data :
  let data' := removeCustomGoal now customId data in
  getCustomPeriod (CustomSelection customId) (customGoals data') = None
  /\ getTargetForSelection (CustomSelection customId) (targets data') (customGoals data')
     = Int 0.
Proof.
  cbv zeta. unfold removeCustomGoal, getCustomPeriod, getTargetForSelection.
  cbn [customGoals targets].
  assert (H : find_custom customId
                (List.filter (fun goal => negb (String.eqb (custom_id goal) customId))
                             (customGoals data)) = None).
  { unfold find_custom.
    apply (find_filter_self (fun entry => String.eqb (custom_id entry) customId)). }
  by rewrite H.
Qed.

End GoalStoreInvariant.

Lemma setGoalTarget_keeps_keys_unique_witness :
  NoDup (target_key <$> targets (@setGoalTarget utc_host 1704448800000 Year "2023" (Int 30)
                                   (goals_for_year "2023"))).
Proof.
  apply (@setGoalTarget_keeps_keys_unique utc_host).
  cbn. apply NoDup_singleton.
Defined.

Lemma updateCustomGoal_by_id_witness :
  updateCustomGoal summer_goal (goals_for_year "2023") = goals_for_year "2023".
Proof.
  destruct (updateCustomGoal_by_id summer_goal (goals_for_year "2023")) as (_ & Hnoop & _).
  apply Hnoop. reflexivity.
Defined.

Lemma createCustomGoal_selects_witness :
  getTargetForSelection
    (activeSelection (@createCustomGoal utc_host 1704448800000 "c1" summer_fields
                        (goals_for_year "2023")))
    (targets (@createCustomGoal utc_host 1704448800000 "c1" summer_fields
                (goals_for_year "2023")))
    (customGoals (@createCustomGoal utc_host 1704448800000 "c1" summer_fields
                    (goals_for_year "2023")))
  = Int 5.
Proof.
  destruct (@createCustomGoal_selects utc_host 1704448800000 1704448860000 "c1"
              summer_fields (goals_for_year "2023") eq_refl) as (_ & Htarget & _).
  exact Htarget.
Defined.

(** ** The save handlers, on valid input *)

Section SaveHandlersValid.
Context {host : Host}.

(** X15. [saveTarget] with a value that is not [<= 0] stores it as the
    target of the selected period and makes that period the active
    selection, so that the target of the active selection is the value
    entered; custom goals are untouched. *)
Theorem saveTarget_stores_and_selects now view data :
  num_le (targetValue view) (Int 0) = false ->
  let data' := saveTarget now view data in
  activeSelection data' = PeriodSelection (selectedGoalType view) (selectedPeriodKey view)
  /\ getTargetForSelection (activeSelection data') (targets data') (customGoals data')
     = targetValue view
  /\ customGoals data' = customGoals data.
Proof.
  intros Hpos. cbv zeta. unfold saveTarget. rewrite Hpos.
  unfold setActiveGoalSelection. cbn [activeSelection targets customGoals].
  destruct (setGoalTarget_upsert now (selectedGoalType view) (selectedPeriodKey view)
              (targetValue view) data) as (Hread & _ & _ & Hcustom & _).
  cbv zeta in Hread, Hcustom. split; [done|]. split; [apply Hread|exact Hcustom].
Qed.


End SaveHandlersValid.

Lemma saveTarget_stores_and_selects_witness :
  getTargetForSelection (PeriodSelection Year "2024")
    (targets (@saveTarget utc_host 1704448800000
                {| selectedGoalType := Year; selectedPeriodKey := "2024";
                   targetValue := Int 30; customEdits := ∅ |}
                (goals_for_year "2023"))) []
  = Int 30.
Proof.
  destruct (@saveTarget_stores_and_selects utc_host 1704448800000
              {| selectedGoalType := Year; selectedPeriodKey := "2024";
                 targetValue := Int 30; customEdits := ∅ |}
              (goals_for_year "2023") eq_refl) as (_ & Hread & _).
  exact Hread.
Defined.


(** ** Windows and progress *)

Section ProgressFacts.
Context {host : Host}.

(** X17. [isDateWithinRange] tests the half-open window [start, end): it
    holds exactly when the string parses to a date and both bounds are
    valid dates with start <= date < end.  An unparseable string or an
    invalid bound is never within range. *)
Theorem isDateWithinRange_half_open dateIso start end_ :
  isDateWithinRange dateIso start end_ = true
  <-> exists t ts te,
        Date_parse dateIso = DateValue t /\ start = DateValue ts /\ end_ = DateValue te
        /\ ts <= t < te.
Proof.
  unfold isDateWithinRange, date_ge, date_lt, num_ge.
  destruct (Date_parse dateIso) as [|t]; cbn [getTime isNaN].
  { split; [done|]. by intros (t & ts & te & H & _). }
  change (isNaN (Int t)) with false. cbv iota.
  destruct start as [|ts]; cbn [getTime].
  { split; [done|]. by intros (t' & ts & te & _ & H & _). }
  destruct end_ as [|te]; cbn [getTime].
  { split; [by rewrite andb_false_r|]. by intros (t' & ts' & te & _ & _ & H & _). }
  rewrite num_le_Int, num_lt_Int, andb_true_iff, Z.leb_le, Z.ltb_lt.
  split.
  - intros [H1 H2]. exists t, ts, te. done.
  - intros (t' & ts' & te' & [= <-] & [= <-] & [= <-] & H). done.
Qed.

Lemma Math_min_Int a b : Math_min (Int a) (Int b) = Int (Z.min a b).
Proof.
  unfold Math_min. change (Int a) with (Fin (inject_Z a)) at 1.
  change (Int b) with (Fin (inject_Z b)) at 1. cbv iota beta.
  fold (Int a) (Int b). rewrite num_lt_Int.
  destruct (Z.ltb_spec b a); f_equal; lia.
Qed.

Lemma percent_of_Int e T :
  0 < T ->
  num_mul (num_div (Int e) (Int T)) (Int 100) = fin (inject_Z (100 * e) / inject_Z T).
Proof.
  intros HT. unfold Int at 1 2. cbn [num_div]. unfold q_zero. cbn [Qnum inject_Z].
  destruct (Z.eqb_spec T 0) as [|Hne]; [lia|].
  unfold fin, Int. cbn [num_mul]. unfold fin. f_equal.
  apply Qred_complete. rewrite Qred_correct, inject_Z_mult.
  assert (Hq : ~ inject_Z T == 0).
  { intros E. apply Hne. unfold Qeq in E. simpl in E. lia. }
  field. exact Hq.
Qed.

(** X18. The expected progress is clamped to the period: a period of
    non-positive duration gives 0; for valid dates with start < end it is
    0 until the period starts, 100 from its end on, and from 0 to 100 in
    between; with an invalid start or end it is [NaN]. *)
Theorem getExpectedProgressPercent_clamped ts te tn :
  (te <= ts ->
   getExpectedProgressPercent (DateValue ts) (DateValue te) (DateValue tn) = Int 0)
  /\ (ts < te -> tn <= ts ->
      getExpectedProgressPercent (DateValue ts) (DateValue te) (DateValue tn) = Int 0)
  /\ (ts < te -> te <= tn ->
      getExpectedProgressPercent (DateValue ts) (DateValue te) (DateValue tn) = Int 100)
  /\ (ts < te ->
      num_le (Int 0)
        (getExpectedProgressPercent (DateValue ts) (DateValue te) (DateValue tn)) = true
      /\ num_le (getExpectedProgressPercent (DateValue ts) (DateValue te) (DateValue tn))
           (Int 100) = true)
  /\ (forall periodEnd now, getExpectedProgressPercent InvalidDate periodEnd now = NaN)
  /\ (forall now,
        getExpectedProgressPercent (DateValue ts) InvalidDate now = NaN).
Proof.
  assert (Hopen : ts < te ->
            getExpectedProgressPercent (DateValue ts) (DateValue te) (DateValue tn)
            = fin (inject_Z (100 * Z.min (Z.max (tn - ts) 0) (te - ts))
                   / inject_Z (te - ts))).
  { intros Hlt. unfold getExpectedProgressPercent. cbn [getTime].
    rewrite !num_sub_Int, num_le_Int.
    destruct (Z.leb_spec (te - ts) 0); [lia|].
    rewrite Math_max_Int, Math_min_Int. apply percent_of_Int. lia. }
  split; [|split; [|split; [|split; [|split]]]].
  - intros Hle. unfold getExpectedProgressPercent. cbn [getTime].
    rewrite !num_sub_Int, num_le_Int.
    destruct (Z.leb_spec (te - ts) 0); [reflexivity|lia].
  - intros Hlt Hbefore. rewrite Hopen by done.
    replace (Z.min (Z.max (tn - ts) 0) (te - ts)) with 0 by lia.
    unfold fin, Int. f_equal.
  - intros Hlt Hafter. rewrite Hopen by done.
    replace (Z.min (Z.max (tn - ts) 0) (te - ts)) with (te - ts) by lia.
    unfold fin, Int. f_equal. rewrite <- (inject_Z_Qred 100). apply Qred_complete.
    rewrite inject_Z_mult.
    assert (Hq : ~ inject_Z (te - ts) == 0).
    { intros E. unfold Qeq in E. simpl in E. lia. }
    field. exact Hq.
  - intros Hlt. rewrite Hopen by done.
    set (e := Z.min (Z.max (tn - ts) 0) (te - ts)).
    assert (He : 0 <= e <= te - ts) by (subst e; lia).
    assert (HT : (0 < inject_Z (te - ts))%Q).
    { unfold Qlt, inject_Z. cbn [Qnum Qden]. lia. }
    unfold fin, Int. cbn [num_le]. split; apply Qle_bool_iff; rewrite Qred_correct.
    + apply Qle_shift_div_l; [exact HT|].
      unfold Qle, Qmult, inject_Z. cbn [Qnum Qden]. lia.
    + apply Qle_shift_div_r; [exact HT|].
      unfold Qle, Qmult, inject_Z. cbn [Qnum Qden]. lia.
  - intros periodEnd now. unfold getExpectedProgressPercent. cbn [getTime].
    by destruct (getTime periodEnd), (getTime now).
  - intros now. unfold getExpectedProgressPercent. cbn [getTime].
    change (num_sub NaN (Int ts)) with NaN. cbn [num_le].
    assert (Hmin : forall x, Math_min x NaN = NaN) by (by intros [| |]).
    by rewrite Hmin.
Qed.

(** X19. A selection that does not resolve gives the placeholder report:
    no progress, status behind, the label "Unknown period", not closed;
    only the target is looked up.  In particular a custom selection whose
    id no custom goal has (the goal card selects the id "none" when there
    is no custom goal) reports a target of 0, whatever the ledger, the
    progress log and the snapshots hold. *)
Theorem activeGoalProgress_unresolved now ledger selection targets customGoals volumes
    catalog (snapshots : gmap string GoalSnapshot) :
  activeGoalPeriod selection customGoals = None ->
  activeGoalProgress now ledger selection targets customGoals volumes catalog snapshots
  = {| title := "Reading Goal";
       targetVolumes := or_zero (getTargetForSelection selection targets customGoals);
       completedVolumes := Int 0; inProgressVolumes := Int 0; totalProgress := Int 0;
       progressPercent := Int 0; expectedProgressPercent := Int 0; status := Behind;
       pagesPerDayForGoal := Int 0; daysRemaining := Int 0;
       periodLabel := LabelText "Unknown period"; isClosed := false |}
  /\ (forall customId,
        selection = CustomSelection customId -> find_custom customId customGoals = None ->
        targetVolumes
          (activeGoalProgress now ledger selection targets customGoals volumes catalog
             snapshots)
        = Int 0).
Proof.
  intros Hnone.
  assert (Hreport : activeGoalProgress now ledger selection targets customGoals volumes
                      catalog snapshots
                    = {| title := "Reading Goal";
                         targetVolumes :=
                           or_zero (getTargetForSelection selection targets customGoals);
                         completedVolumes := Int 0; inProgressVolumes := Int 0;
                         totalProgress := Int 0; progressPercent := Int 0;
                         expectedProgressPercent := Int 0; status := Behind;
                         pagesPerDayForGoal := Int 0; daysRemaining := Int 0;
                         periodLabel := LabelText "Unknown period"; isClosed := false |}).
  { unfold activeGoalProgress.
    replace (match selection with
             | PeriodSelection _ _ => getPeriodForSelection selection
             | CustomSelection _ => getCustomPeriod selection customGoals
             end) with (@None GoalPeriod)
      by (rewrite <- Hnone; by destruct selection).
    reflexivity. }
  split; [exact Hreport|].
  intros customId -> Hfind. rewrite Hreport. cbn [targetVolumes getTargetForSelection].
  by rewrite Hfind.
Qed.

End ProgressFacts.

Section CustomGoalDays.
Context {host : Host}.

Lemma MakeDay_next_date y m d : MakeDay y m (d + 1) = MakeDay y m d + 1.
Proof. unfold MakeDay. lia. Qed.

Lemma getCustomPeriod_end customId customGoals goal period y m d rest :
  find_custom customId customGoals = Some goal ->
  getCustomPeriod (CustomSelection customId) customGoals = Some period ->
  StringToNumber <$> split dash (custom_endDate goal) = Int y :: Int m :: Int d :: rest ->
  period_end period = Date_new (Int y) (Int (m - 1)) (Int (d + 1)).
Proof.
  intros Hfind Hperiod Hparts. unfold getCustomPeriod in Hperiod.
  rewrite Hfind in Hperiod. cbv zeta in Hperiod. rewrite Hparts in Hperiod.
  cbn [lookup list_lookup] in Hperiod.
  destruct ((StringToNumber <$> split dash (custom_startDate goal)) !! 0%nat)
    as [sy|]; [|discriminate].
  destruct ((StringToNumber <$> split dash (custom_startDate goal)) !! 1%nat)
    as [sm|]; [|discriminate].
  destruct ((StringToNumber <$> split dash (custom_startDate goal)) !! 2%nat)
    as [sd|]; [|discriminate].
  destruct (negb (truthy sy) || negb (truthy sm) || negb (truthy sd)
            || negb (truthy (Int y)) || negb (truthy (Int m)) || negb (truthy (Int d)));
    [discriminate|].
  apply (inj Some) in Hperiod. rewrite <- Hperiod. cbn [period_end].
  by rewrite num_sub_Int, num_add_Int.
Qed.

(** X20. For a custom goal the report counts the goal's own end date in:
    the days remaining of a selected custom goal are what
    [calculateDaysRemaining] gives for its end-date string, the whole
    days from today to the end date with both counted, since the period
    of a custom goal ends at the start of the day after its end date. *)
Theorem custom_goal_daysRemaining now ledger customId targets customGoals volumes catalog
    (snapshots : gmap string GoalSnapshot) goal period y m d rest :
  regular_zone host ->
  find_custom customId customGoals = Some goal ->
  getCustomPeriod (CustomSelection customId) customGoals = Some period ->
  StringToNumber <$> split dash (custom_endDate goal) = Int y :: Int m :: Int d :: rest ->
  ~ (0 <= y <= 99) ->
  ~ (0 <= YearFromDay (MakeDay y (m - 1) d) <= 99) ->
  ~ (0 <= YearFromDay (MakeDay y (m - 1) d + 1) <= 99) ->
  in_calendar_range (MakeDay y (m - 1) d) ->
  in_calendar_range (MakeDay y (m - 1) d + 1) ->
  plain_year now -> in_calendar_range (localDay now) ->
  daysRemaining
    (activeGoalProgress now ledger (CustomSelection customId) targets customGoals volumes
       catalog snapshots)
  = dateUtils.calculateDaysRemaining (inl (custom_endDate goal)) (DateValue now)
  /\ daysRemaining
       (activeGoalProgress now ledger (CustomSelection customId) targets customGoals
          volumes catalog snapshots)
     = Int (Z.max 0 (MakeDay y (m - 1) d - localDay now + 1)).
Proof.
  intros Hz Hfind Hperiod Hparts Hy Hy0 Hy1 Hr0 Hr1 Hnow Hrnow.
  assert (Hdays : daysRemaining
                    (activeGoalProgress now ledger (CustomSelection customId) targets
                       customGoals volumes catalog snapshots)
                  = Int (Z.max 0 (MakeDay y (m - 1) d - localDay now + 1))).
  { rewrite (activeGoalProgress_daysRemaining now ledger (CustomSelection customId)
               targets customGoals volumes catalog snapshots period Hperiod).
    rewrite (getCustomPeriod_end customId customGoals goal period y m d rest
               Hfind Hperiod Hparts).
    rewrite (Date_new_Int y (m - 1) (d + 1) Hy), MakeDay_next_date.
    rewrite (localMidnight_valid _ Hz Hr1).
    rewrite getDaysRemainingInPeriod_count; try assumption.
    - rewrite (zone_midnight host Hz). f_equal. lia.
    - by apply plain_year_localMidnight.
    - by rewrite (zone_midnight host Hz). }
  split; [|exact Hdays].
  rewrite Hdays. symmetry.
  by apply (calculateDaysRemaining_string (custom_endDate goal) y m d rest now).
Qed.

End CustomGoalDays.

Lemma activeGoalProgress_unresolved_witness :
  targetVolumes
    (@activeGoalProgress utc_host 0 ledger_2023 (CustomSelection "none") [] []
       (Some volumes_2023) ∅ snapshots_2023)
  = Int 0.
Proof.
  apply (proj2 (@activeGoalProgress_unresolved utc_host 0 ledger_2023
                  (CustomSelection "none") [] [] (Some volumes_2023) ∅ snapshots_2023 eq_refl)
           "none" eq_refl eq_refl).
Defined.

Lemma custom_goal_daysRemaining_witness :
  daysRemaining
    (@activeGoalProgress utc_host 1724241600000 ledger_2023 (CustomSelection "c1") []
       [summer_goal] (Some volumes_2023) ∅ snapshots_2023)
  = Int 11.
Proof.
  refine (proj2 (@custom_goal_daysRemaining utc_host 1724241600000 ledger_2023 "c1" []
                   [summer_goal] (Some volumes_2023) ∅ snapshots_2023 summer_goal summer_period
                   2024 8 31 [] utc_host_regular _ _ _ _ _ _ _ _ _ _)).
  - vm_compute; reflexivity.
  - vm_compute; reflexivity.
  - vm_compute; reflexivity.
  - vm_compute; intros [_ H]; exact (H eq_refl).
  - vm_compute; intros [_ H]; exact (H eq_refl).
  - vm_compute; intros [_ H]; exact (H eq_refl).
  - vm_compute; reflexivity.
  - vm_compute; reflexivity.
  - vm_compute; intros [_ H]; exact (H eq_refl).
  - vm_compute; reflexivity.
Defined.

(** ** Numerals: what [Number] reads back from a printed integer *)

Lemma digit_value_decimal c :
  is_decimal_digit c = true -> digit_value 10 c = Some (char_code c - 48).
Proof.
  unfold is_decimal_digit, digit_value. intros H.
  apply andb_true_iff in H as [H1 H2]. rewrite H1, H2. cbn [andb].
  apply Z.leb_le in H1, H2.
  destruct (Z.ltb_spec (char_code c - 48) 10); [done|lia].
Qed.

Lemma decimal_digit_not c c' :
  is_decimal_digit c = true -> is_decimal_digit c' = false -> Ascii.eqb c c' = false.
Proof.
  intros H H'. destruct (Ascii.eqb_spec c c') as [->|]; [congruence|done].
Qed.

Lemma decimal_digit_not_white_space c :
  is_decimal_digit c = true -> is_white_space c = false.
Proof.
  unfold is_decimal_digit, is_white_space. intros H.
  apply andb_true_iff in H as [H1 H2]. apply Z.leb_le in H1, H2.
  repeat match goal with
         | |- context [?a =? ?b] => destruct (Z.eqb_spec a b); [lia|]
         end.
  reflexivity.
Qed.

Lemma read_digits_decimal s acc count :
  decimal_numeral s = true ->
  read_digits 10 s acc count = (decimal_value s acc, (count + String.length s)%nat, "").
Proof.
  revert acc count. induction s as [|c r IH]; intros acc count H; simpl.
  - by rewrite Nat.add_0_r.
  - simpl in H. apply andb_true_iff in H as [Hc Hr].
    rewrite (digit_value_decimal c Hc), (IH _ _ Hr). f_equal. f_equal. lia.
Qed.

Lemma trim_end_decimal s : decimal_numeral s = true -> trim_end s = s.
Proof.
  induction s as [|c r IH]; [done|]. simpl. intros H.
  apply andb_true_iff in H as [Hc Hr]. rewrite (IH Hr).
  destruct r; [|done]. by rewrite (decimal_digit_not_white_space c Hc).
Qed.

Lemma trim_decimal s : decimal_numeral s = true -> trim s = s.
Proof.
  intros H. unfold trim.
  assert (Hs : trim_start s = s).
  { destruct s as [|c r]; [done|]. simpl in *.
    apply andb_true_iff in H as [Hc _].
    by rewrite (decimal_digit_not_white_space c Hc). }
  rewrite Hs. by apply trim_end_decimal.
Qed.

Lemma decimal_value_bounds s acc :
  decimal_numeral s = true -> 0 <= acc -> 0 <= decimal_value s acc.
Proof.
  revert acc. induction s as [|c r IH]; intros acc H Hacc; simpl; [done|].
  simpl in H. apply andb_true_iff in H as [Hc Hr]. apply IH; [done|].
  unfold is_decimal_digit in Hc. apply andb_true_iff in Hc as [H1 H2].
  apply Z.leb_le in H1, H2. lia.
Qed.

Lemma NonDecimalIntegerLiteral_decimal s :
  decimal_numeral s = true -> NonDecimalIntegerLiteral s = None.
Proof.
  destruct s as [|c [|p r]]; [done| |].
  - intros _. by destruct c as [[] [] [] [] [] [] [] []].
  - simpl. intros H. apply andb_true_iff in H as [_ H].
    apply andb_true_iff in H as [Hp _].
    assert (Hradix : (if (Ascii.eqb p "x" || Ascii.eqb p "X")%char then Some 16
                      else if (Ascii.eqb p "o" || Ascii.eqb p "O")%char then Some 8
                      else if (Ascii.eqb p "b" || Ascii.eqb p "B")%char then Some 2
                      else @None Z) = None).
    { by rewrite !(decimal_digit_not p _ Hp) by reflexivity. }
    unfold NonDecimalIntegerLiteral.
    destruct c as [[] [] [] [] [] [] [] []]; try reflexivity.
    by rewrite Hradix.
Qed.

Lemma StringToNumber_decimal s :
  decimal_numeral s = true -> s <> "" ->
  decimal_value s 0 < 2 ^ 1024 - 2 ^ 970 ->
  StringToNumber s = Int (decimal_value s 0).
Proof.
  intros H Hne Hv. unfold StringToNumber. rewrite (trim_decimal s H). cbv zeta.
  destruct s as [|c r] eqn:Es; [done|]. rewrite <- Es in H, Hv |- *.
  rewrite (NonDecimalIntegerLiteral_decimal s H).
  assert (Hc : is_decimal_digit c = true).
  { rewrite Es in H. simpl in H. by apply andb_true_iff in H as [Hc _]. }
  rewrite !(decimal_digit_not c _ Hc) by reflexivity.
  assert (Hlit : StrUnsignedDecimalLiteral s = Some (Int (decimal_value s 0))).
  { unfold StrUnsignedDecimalLiteral.
    replace (s =? "Infinity")%string with false
      by (rewrite Es; simpl; by rewrite (decimal_digit_not c "I"%char Hc)).
    rewrite (read_digits_decimal s 0 0 H). cbv beta iota zeta.
    replace (0 + String.length s + 0)%nat with (S (String.length r))
      by (rewrite Es; simpl; lia).
    cbn [read_exponent]. f_equal. unfold scale10.
    change (0 - Z.of_nat 0) with 0. change (0 <=? 0) with true. cbv iota.
    rewrite Z.pow_0_r, Z.mul_1_r. unfold number_of_Q, overflow_bound.
    change (Qabs (inject_Z (decimal_value s 0)))
      with (inject_Z (Z.abs (decimal_value s 0))).
    rewrite Qle_bool_inject_Z.
    pose proof (decimal_value_bounds s 0 H ltac:(lia)) as H0.
    destruct (Z.leb_spec (2 ^ 1024 - 2 ^ 970) (Z.abs (decimal_value s 0))); [lia|].
    apply fin_inject_Z. }
  by rewrite Hlit.
Qed.

Lemma string_app_cons c (r s : string) : String c r +:+ s = String c (r +:+ s).
Proof. reflexivity. Qed.

Lemma string_app_nil (s : string) : "" +:+ s = s.
Proof. reflexivity. Qed.

Lemma string_app_assoc (s1 s2 s3 : string) : (s1 +:+ s2) +:+ s3 = s1 +:+ s2 +:+ s3.
Proof. induction s1 as [|c r IH]; [done|]. rewrite !string_app_cons. by rewrite IH. Qed.

Lemma decimal_numeral_app s1 s2 :
  decimal_numeral (s1 +:+ s2) = decimal_numeral s1 && decimal_numeral s2.
Proof.
  induction s1 as [|c r IH]; [done|]. rewrite string_app_cons. simpl.
  by rewrite IH, andb_assoc.
Qed.

Lemma decimal_value_app s1 s2 acc :
  decimal_value (s1 +:+ s2) acc = decimal_value s2 (decimal_value s1 acc).
Proof.
  revert acc. induction s1 as [|c r IH]; intros acc; [done|].
  rewrite string_app_cons. simpl. apply IH.
Qed.

Lemma pretty_N_go_app x s : pretty_N_go x s = pretty_N_go x "" +:+ s.
Proof.
  revert s. induction (N.lt_wf_0 x) as [x _ IH]; intros s.
  assert (x = 0 \/ 0 < x)%N as [->|Hx] by lia; [done|].
  rewrite (pretty_N_go_step x s Hx), (pretty_N_go_step x "" Hx).
  assert (Hlt : (x `div` 10 < x)%N) by (by apply N.div_lt).
  rewrite (IH (x `div` 10)%N Hlt (String (pretty_N_char (x `mod` 10)) s)).
  rewrite (IH (x `div` 10)%N Hlt (String (pretty_N_char (x `mod` 10)) "")).
  by rewrite string_app_assoc.
Qed.

Lemma pretty_N_char_decimal d :
  (d < 10)%N ->
  is_decimal_digit (pretty_N_char d) = true
  /\ char_code (pretty_N_char d) - 48 = Z.of_N d.
Proof.
  intros H.
  assert (d = 0 \/ d = 1 \/ d = 2 \/ d = 3 \/ d = 4 \/ d = 5 \/ d = 6 \/ d = 7
          \/ d = 8 \/ d = 9)%N as Hd by lia.
  repeat (destruct Hd as [->|Hd]; [by vm_compute|]). subst d. by vm_compute.
Qed.

Lemma pretty_N_go_decimal x :
  decimal_numeral (pretty_N_go x "") = true
  /\ decimal_value (pretty_N_go x "") 0 = Z.of_N x
  /\ ((0 < x)%N -> pretty_N_go x "" <> "").
Proof.
  induction (N.lt_wf_0 x) as [x _ IH].
  assert (x = 0 \/ 0 < x)%N as [->|Hx] by lia.
  { split; [done|]. split; [done|]. lia. }
  rewrite (pretty_N_go_step x "" Hx), pretty_N_go_app.
  destruct (IH (x `div` 10)%N) as (Hn & Hv & _); [by apply N.div_lt|].
  destruct (pretty_N_char_decimal (x `mod` 10)%N) as [Hc Hcv];
    [by apply N.mod_lt|].
  split; [|split].
  - rewrite decimal_numeral_app, Hn. simpl. by rewrite Hc.
  - rewrite decimal_value_app, Hv. simpl. rewrite Hcv.
    rewrite (N.div_mod x 10) at 3 by done. lia.
  - intros _. by destruct (pretty_N_go (x `div` 10) "").
Qed.

Lemma pretty_Z_decimal z :
  0 <= z ->
  decimal_numeral (pretty z) = true /\ decimal_value (pretty z) 0 = z /\ pretty z <> "".
Proof.
  intros Hz. destruct z as [|p|p]; [by vm_compute| |lia].
  change (pretty (Z.pos p)) with (pretty_N_go (N.pos p) "").
  destruct (pretty_N_go_decimal (N.pos p)) as (Hn & Hv & Hne).
  split; [done|]. split; [by rewrite Hv|]. apply Hne. lia.
Qed.

(** [Number] reads a printed natural number back. *)
Lemma StringToNumber_pretty z :
  0 <= z < 2 ^ 1024 - 2 ^ 970 -> StringToNumber (pretty z) = Int z.
Proof.
  intros Hz. destruct (pretty_Z_decimal z) as (Hn & Hv & Hne); [lia|].
  rewrite (StringToNumber_decimal _ Hn Hne); rewrite Hv; [done|lia].
Qed.

Lemma split_decimal s r :
  decimal_numeral s = true -> split dash (s +:+ String dash r) = s :: split dash r.
Proof.
  induction s as [|c s IH]; simpl; intros H; [done|].
  apply andb_true_iff in H as [Hc Hs].
  rewrite (decimal_digit_not c dash Hc) by reflexivity. by rewrite (IH Hs).
Qed.

Lemma split_decimal_last s : decimal_numeral s = true -> split dash s = [s].
Proof.
  induction s as [|c s IH]; simpl; intros H; [done|].
  apply andb_true_iff in H as [Hc Hs].
  rewrite (decimal_digit_not c dash Hc) by reflexivity. by rewrite (IH Hs).
Qed.

(** ** Months within the year *)

Lemma InLeapYear_range y : 0 <= InLeapYear y <= 1 /\ DaysInYear y = 365 + InLeapYear y.
Proof.
  unfold InLeapYear, DaysInYear.
  destruct (Z.eqb_spec (y mod 4) 0); destruct (Z.eqb_spec (y mod 100) 0);
    destruct (Z.eqb_spec (y mod 400) 0); simpl; lia.
Qed.

Lemma monthStart_cases m leap :
  0 <= m <= 11 ->
  (m = 0 /\ monthStart m leap = 0) \/ (m = 1 /\ monthStart m leap = 31)
  \/ (m = 2 /\ monthStart m leap = 59 + leap) \/ (m = 3 /\ monthStart m leap = 90 + leap)
  \/ (m = 4 /\ monthStart m leap = 120 + leap) \/ (m = 5 /\ monthStart m leap = 151 + leap)
  \/ (m = 6 /\ monthStart m leap = 181 + leap) \/ (m = 7 /\ monthStart m leap = 212 + leap)
  \/ (m = 8 /\ monthStart m leap = 243 + leap) \/ (m = 9 /\ monthStart m leap = 273 + leap)
  \/ (m = 10 /\ monthStart m leap = 304 + leap)
  \/ (m = 11 /\ monthStart m leap = 334 + leap).
Proof.
  intros Hm.
  assert (m = 0 \/ m = 1 \/ m = 2 \/ m = 3 \/ m = 4 \/ m = 5 \/ m = 6 \/ m = 7 \/ m = 8
          \/ m = 9 \/ m = 10 \/ m = 11) as Hc by lia.
  repeat (destruct Hc as [->|Hc]; [tauto|]). subst m. tauto.
Qed.

Lemma monthStart_mono a b leap :
  0 <= a <= b -> b <= 11 -> 0 <= leap <= 1 -> monthStart a leap <= monthStart b leap.
Proof.
  intros Ha Hb Hl.
  pose proof (monthStart_cases a leap ltac:(lia)) as Hca.
  pose proof (monthStart_cases b leap ltac:(lia)) as Hcb.
  lia.
Qed.

Lemma MakeDay_month y m :
  0 <= m <= 11 -> MakeDay y m 1 = DayFromYear y + monthStart m (InLeapYear y).
Proof.
  intros Hm. unfold MakeDay.
  rewrite (Z.div_small m 12), (Z.mod_small m 12), Z.add_0_r by lia. lia.
Qed.

Lemma MakeDay_month_12 y : MakeDay y 12 1 = DayFromYear (y + 1).
Proof.
  unfold MakeDay. change (12 / 12) with 1. change (12 mod 12) with 0.
  change (monthStart 0 (InLeapYear (y + 1))) with 0. lia.
Qed.

(** The first days of the months of a year come in order, up to the
    first day of the next year. *)
Lemma MakeDay_month_mono y a b :
  0 <= a <= b -> b <= 12 -> MakeDay y a 1 <= MakeDay y b 1.
Proof.
  intros Ha Hb.
  destruct (InLeapYear_range y) as [Hl Hd].
  destruct (Z.eq_dec b 12) as [->|Hb12].
  - rewrite MakeDay_month_12, DayFromYear_succ, Hd.
    destruct (Z.eq_dec a 12) as [->|Ha12].
    + rewrite MakeDay_month_12, DayFromYear_succ, Hd. lia.
    + rewrite MakeDay_month by lia.
      pose proof (monthStart_cases a (InLeapYear y) ltac:(lia)). lia.
  - rewrite !MakeDay_month by lia.
    pose proof (monthStart_mono a b (InLeapYear y)). lia.
Qed.

(** The month and the day of the month of an instant: the instant lies in
    its month, on a day numbered from 1 to at most 31. *)
Lemma month_of_instant t :
  0 <= MonthFromTime t <= 11
  /\ 1 <= DateFromTime t <= 31
  /\ MakeDay (YearFromTime t) (MonthFromTime t) 1 <= Day t
     < MakeDay (YearFromTime t) (MonthFromTime t + 1) 1.
Proof.
  pose proof (YearFromDay_spec (Day t)) as Hy. fold (YearFromTime t) in Hy.
  rewrite DayFromYear_succ in Hy.
  destruct (InLeapYear_range (YearFromTime t)) as [Hl Hd].
  pose proof (MonthFromDayInYear_range (DayWithinYear t) (InLeapYear (YearFromTime t)))
    as Hm. fold (MonthFromTime t) in Hm.
  assert (Hdwy : 0 <= DayWithinYear t < 365 + InLeapYear (YearFromTime t))
    by (unfold DayWithinYear; lia).
  assert (Hday : Day t = DayFromYear (YearFromTime t) + DayWithinYear t)
    by (unfold DayWithinYear; lia).
  assert (Hnext : MakeDay (YearFromTime t) (MonthFromTime t + 1) 1
                  = DayFromYear (YearFromTime t)
                    + (if MonthFromTime t =? 11 then 365 + InLeapYear (YearFromTime t)
                       else monthStart (MonthFromTime t + 1) (InLeapYear (YearFromTime t)))).
  { destruct (Z.eqb_spec (MonthFromTime t) 11) as [E|E].
    - rewrite E. change (11 + 1) with 12. rewrite MakeDay_month_12, DayFromYear_succ. lia.
    - by rewrite MakeDay_month by lia. }
  rewrite Hnext, (MakeDay_month _ _ Hm), Hday.
  unfold DateFromTime.
  assert (Hmonth : MonthFromTime t
                   = MonthFromDayInYear (DayWithinYear t) (InLeapYear (YearFromTime t)))
    by reflexivity.
  revert Hmonth.
  generalize (MonthFromTime t) (DayWithinYear t) (InLeapYear (YearFromTime t))
             (DayFromYear (YearFromTime t)) Hdwy Hl Hm.
  clear. intros m dwy leap base Hdwy Hl Hm Hmonth.
  unfold MonthFromDayInYear in Hmonth.
  repeat match type of Hmonth with
         | context [?a <? ?b] => destruct (Z.ltb_spec a b)
         end; subst m; unfold monthStart; simpl; lia.
Qed.

(** ** The key of the current period *)

Lemma num_mul_Int a b : num_mul (Int a) (Int b) = Int (a * b).
Proof.
  unfold Int at 1 2. simpl. unfold fin, Int. f_equal.
  rewrite <- (inject_Z_Qred (a * b)). apply Qred_complete.
  rewrite inject_Z_mult. reflexivity.
Qed.

Lemma truthy_Int k : k <> 0 -> truthy (Int k) = true.
Proof.
  intros Hk. unfold Int, truthy, q_zero. cbn [Qnum inject_Z].
  by destruct (Z.eqb_spec k 0).
Qed.

Lemma padded_numeral k :
  0 <= k <= 31 ->
  decimal_numeral (padStart2 (pretty k)) = true
  /\ StringToNumber (padStart2 (pretty k)) = Int k.
Proof.
  intros Hk.
  assert (H : exists n : nat, k = Z.of_nat n /\ (n < 32)%nat)
    by (exists (Z.to_nat k); lia).
  destruct H as (n & -> & Hn).
  do 32 (destruct n as [|n]; [by vm_compute|]). lia.
Qed.

Lemma seasonIndex_Int m : 0 <= m <= 11 -> Math_floor (num_div (Int m) (Int 3)) = Int (m / 3).
Proof.
  intros Hm.
  assert (H : exists n : nat, m = Z.of_nat n /\ (n < 12)%nat)
    by (exists (Z.to_nat m); lia).
  destruct H as (n & -> & Hn).
  do 12 (destruct n as [|n]; [by vm_compute|]). lia.
Qed.

Lemma season_name s :
  0 <= s <= 3 ->
  exists name,
    (forall year, buildSeasonKey year (Int s) = Number_toString year +:+ String dash name)
    /\ split dash name = [name]
    /\ indexOf dateUtils.seasonNames (Some name) = s.
Proof.
  intros Hs.
  assert (s = 0 \/ s = 1 \/ s = 2 \/ s = 3) as [-> | [-> | [-> | ->]]] by lia.
  - exists "Winter". split; [intros; reflexivity|]. by vm_compute.
  - exists "Spring". split; [intros; reflexivity|]. by vm_compute.
  - exists "Summer". split; [intros; reflexivity|]. by vm_compute.
  - exists "Autumn". split; [intros; reflexivity|]. by vm_compute.
Qed.

Lemma year_numeral y :
  100 <= y <= 275760 ->
  decimal_numeral (pretty y) = true /\ StringToNumber (pretty y) = Int y.
Proof.
  intros Hy. destruct (pretty_Z_decimal y) as (Hn & _ & _); [lia|].
  split; [done|]. apply StringToNumber_pretty.
  assert (275760 < 2 ^ 1024 - 2 ^ 970) by (by vm_compute). lia.
Qed.

Section CurrentPeriod.
Context {host : Host}.

(** What the key built from a year, a season, a month or a day resolves to. *)
Lemma resolve_year_key y :
  100 <= y <= 275760 ->
  getPeriodForSelection (PeriodSelection Year (buildYearKey (Int y)))
  = Some {| period_goalType := Periodic Year;
            period_periodKey := buildYearKey (Int y);
            period_label := LabelYear (Int y);
            period_start := Date_new (Int y) (Int 0) (Int 1);
            period_end := Date_new (num_add (Int y) (Int 1)) (Int 0) (Int 1) |}.
Proof.
  intros Hy. destruct (year_numeral y Hy) as [_ Hyv].
  unfold buildYearKey. rewrite Number_toString_Int.
  unfold getPeriodForSelection, parseYearKey, Number. rewrite Hyv.
  reflexivity.
Qed.

Lemma resolve_season_key y s :
  100 <= y <= 275760 -> 0 <= s <= 3 ->
  getPeriodForSelection (PeriodSelection Season (buildSeasonKey (Int y) (Int s)))
  = Some {| period_goalType := Periodic Season;
            period_periodKey := buildSeasonKey (Int y) (Int s);
            period_label :=
              LabelSeason (default "undefined" (dateUtils.seasonNames_at (Int s))) (Int y);
            period_start := (dateUtils.seasonRange (Int y) (Int s)).1;
            period_end := (dateUtils.seasonRange (Int y) (Int s)).2 |}.
Proof.
  intros Hy Hs. destruct (year_numeral y Hy) as [Hyn Hyv].
  destruct (season_name s Hs) as (name & Hkey & Hsplit & Hidx).
  assert (Hname : dateUtils.seasonNames !! Z.to_nat s = dateUtils.seasonNames_at (Int s)).
  { assert (s = 0 \/ s = 1 \/ s = 2 \/ s = 3) as [-> | [-> | [-> | ->]]] by lia;
      reflexivity. }
  rewrite Hkey, Number_toString_Int.
  unfold getPeriodForSelection, parseSeasonKey.
  rewrite (split_decimal _ _ Hyn), Hsplit.
  cbn [lookup list_lookup Number]. rewrite Hyv, Hidx.
  change (Number_isFinite (Int y)) with true.
  destruct (Z.ltb_spec s 0) as [Hneg|_]; [lia|].
  cbn [negb orb]. rewrite Hname.
  unfold dateUtils.seasonRange. cbn [fst snd]. reflexivity.
Qed.

Lemma resolve_month_key y m :
  100 <= y <= 275760 -> 0 <= m <= 11 ->
  getPeriodForSelection (PeriodSelection Month (buildMonthKey (Int y) (Int m)))
  = Some {| period_goalType := Periodic Month;
            period_periodKey := buildMonthKey (Int y) (Int m);
            period_label := LabelLocaleMonthYear (dateUtils.monthRange (Int y) (Int m)).1;
            period_start := (dateUtils.monthRange (Int y) (Int m)).1;
            period_end := (dateUtils.monthRange (Int y) (Int m)).2 |}.
Proof.
  intros Hy Hm. destruct (year_numeral y Hy) as [Hyn Hyv].
  destruct (padded_numeral (m + 1)) as [Hmn Hmv]; [lia|].
  unfold buildMonthKey. rewrite num_add_Int, !Number_toString_Int.
  rewrite !string_app_cons, !string_app_nil. fold dash.
  unfold getPeriodForSelection, parseMonthKey.
  rewrite (split_decimal _ _ Hyn), (split_decimal_last _ Hmn).
  cbn [lookup list_lookup Number]. rewrite Hyv, Hmv, num_sub_Int.
  replace (m + 1 - 1) with m by lia.
  change (Number_isFinite (Int y)) with true.
  unfold num_gt. rewrite !num_lt_Int.
  destruct (Z.ltb_spec m 0); [lia|].
  destruct (Z.ltb_spec 11 m); [lia|].
  cbn [negb orb]. unfold dateUtils.monthRange. cbn [fst snd]. reflexivity.
Qed.

Lemma resolve_today_key t :
  100 <= YearFromTime (LocalTime t) <= 275760 ->
  getPeriodForSelection (PeriodSelection Today (buildTodayKey (DateValue t)))
  = Some {| period_goalType := Periodic Today;
            period_periodKey := buildTodayKey (DateValue t);
            period_label :=
              LabelLocaleDay (Date_new (getFullYear (DateValue t)) (getMonth (DateValue t))
                                       (getDate (DateValue t)));
            period_start :=
              Date_new (getFullYear (DateValue t)) (getMonth (DateValue t))
                       (getDate (DateValue t));
            period_end :=
              Date_new (getFullYear (DateValue t)) (getMonth (DateValue t))
                       (num_add (getDate (DateValue t)) (Int 1)) |}.
Proof.
  intros Hy.
  destruct (month_of_instant (LocalTime t)) as (Hm & Hd & _).
  destruct (year_numeral _ Hy) as [Hyn Hyv].
  destruct (padded_numeral (MonthFromTime (LocalTime t) + 1)) as [Hmn Hmv]; [lia|].
  destruct (padded_numeral (DateFromTime (LocalTime t))) as [Hdn Hdv]; [lia|].
  unfold buildTodayKey, dateUtils.formatDate, getFullYear, getMonth, getDate.
  rewrite num_add_Int, !Number_toString_Int.
  rewrite !string_app_cons, !string_app_nil. fold dash.
  unfold getPeriodForSelection.
  rewrite (split_decimal _ _ Hyn), (split_decimal _ _ Hmn), (split_decimal_last _ Hdn).
  cbn [fmap list_fmap lookup list_lookup]. rewrite Hyv, Hmv, Hdv.
  rewrite !truthy_Int by lia. cbn [negb orb].
  rewrite num_sub_Int.
  replace (MonthFromTime (LocalTime t) + 1 - 1) with (MonthFromTime (LocalTime t)) by lia.
  reflexivity.
Qed.

(** X21. The key that [getCurrentPeriodKey] builds for an instant resolves,
    for each of the four goal types, to a period of that type and key
    whose bounds are local midnights, and the local day of the instant lies
    from the first bound (included) to the second (excluded); for the type
    today the bounds are that day and the next. *)
Theorem current_period_key_resolves now goalType :
  100 <= YearFromTime (LocalTime now) <= 275760 ->
  exists period a b,
    getPeriodForSelection
      (PeriodSelection goalType (getCurrentPeriodKey (DateValue now) goalType))
    = Some period
    /\ period_goalType period = Periodic goalType
    /\ period_periodKey period = getCurrentPeriodKey (DateValue now) goalType
    /\ period_start period = localMidnight a
    /\ period_end period = localMidnight b
    /\ a <= localDay now < b
    /\ (goalType = Today -> a = localDay now /\ b = localDay now + 1).
Proof.
  intros Hy.
  destruct (month_of_instant (LocalTime now)) as (Hm & Hd & Hin).
  assert (Hplain : ~ (0 <= YearFromTime (LocalTime now) <= 99)) by lia.
  assert (Hplain1 : ~ (0 <= YearFromTime (LocalTime now) + 1 <= 99)) by lia.
  destruct goalType; cbn [getCurrentPeriodKey].
  - (* year *)
    unfold getFullYear. rewrite (resolve_year_key _ Hy).
    eexists _, (MakeDay (YearFromTime (LocalTime now)) 0 1),
      (MakeDay (YearFromTime (LocalTime now) + 1) 0 1).
    split; [reflexivity|]. cbn [period_goalType period_periodKey period_start period_end].
    split; [done|]. split; [done|].
    split; [by apply Date_new_Int|].
    split; [rewrite num_add_Int; by apply Date_new_Int|].
    split; [|discriminate].
    rewrite !MakeDay_month by lia.
    change (monthStart 0 _) with 0.
    pose proof (YearFromDay_spec (Day (LocalTime now))) as Hs.
    fold (YearFromTime (LocalTime now)) in Hs. unfold localDay. lia.
  - (* season *)
    unfold dateUtils.seasonIndex, getFullYear, getMonth.
    rewrite (seasonIndex_Int _ Hm).
    assert (Hs : 0 <= MonthFromTime (LocalTime now) / 3 <= 3)
      by (Z.div_mod_to_equations; lia).
    rewrite (resolve_season_key _ _ Hy Hs).
    unfold dateUtils.seasonRange. rewrite num_mul_Int, num_add_Int.
    eexists _, (MakeDay (YearFromTime (LocalTime now))
                  (MonthFromTime (LocalTime now) / 3 * 3) 1),
      (MakeDay (YearFromTime (LocalTime now))
         (MonthFromTime (LocalTime now) / 3 * 3 + 3) 1).
    split; [reflexivity|].
    cbn [period_goalType period_periodKey period_start period_end fst snd].
    split; [done|]. split; [done|].
    split; [by apply Date_new_Int|].
    split; [by apply Date_new_Int|].
    split; [|discriminate].
    pose proof (MakeDay_month_mono (YearFromTime (LocalTime now))
                  (MonthFromTime (LocalTime now) / 3 * 3) (MonthFromTime (LocalTime now)))
      as H1.
    pose proof (MakeDay_month_mono (YearFromTime (LocalTime now))
                  (MonthFromTime (LocalTime now) + 1)
                  (MonthFromTime (LocalTime now) / 3 * 3 + 3)) as H2.
    assert (MonthFromTime (LocalTime now) / 3 * 3 <= MonthFromTime (LocalTime now)
            < MonthFromTime (LocalTime now) / 3 * 3 + 3)
      by (Z.div_mod_to_equations; lia).
    unfold localDay. lia.
  - (* month *)
    unfold getFullYear, getMonth. rewrite (resolve_month_key _ _ Hy Hm).
    unfold dateUtils.monthRange. rewrite num_add_Int.
    eexists _, (MakeDay (YearFromTime (LocalTime now)) (MonthFromTime (LocalTime now)) 1),
      (MakeDay (YearFromTime (LocalTime now)) (MonthFromTime (LocalTime now) + 1) 1).
    split; [reflexivity|].
    cbn [period_goalType period_periodKey period_start period_end fst snd].
    split; [done|]. split; [done|].
    split; [by apply Date_new_Int|].
    split; [by apply Date_new_Int|].
    split; [|discriminate].
    unfold localDay. lia.
  - (* today *)
    rewrite (resolve_today_key _ Hy).
    eexists _, (localDay now), (localDay now + 1).
    split; [reflexivity|]. cbn [period_goalType period_periodKey period_start period_end].
    split; [done|]. split; [done|].
    split; [by apply Date_new_components_0|].
    split; [by apply Date_new_components|].
    split; [lia|done].
Qed.

End CurrentPeriod.

Lemma current_period_key_resolves_witness :
  exists period a b,
    @getPeriodForSelection utc_host
      (PeriodSelection Season (@getCurrentPeriodKey utc_host (DateValue 1724241600000) Season))
    = Some period
    /\ period_goalType period = Periodic Season
    /\ period_periodKey period
       = @getCurrentPeriodKey utc_host (DateValue 1724241600000) Season
    /\ period_start period = @localMidnight utc_host a
    /\ period_end period = @localMidnight utc_host b
    /\ a <= @localDay utc_host 1724241600000 < b
    /\ (Season = Today ->
        a = @localDay utc_host 1724241600000 /\ b = @localDay utc_host 1724241600000 + 1).
Proof.
  apply (@current_period_key_resolves utc_host 1724241600000 Season).
  by vm_compute.
Defined.

(** ** Integer arithmetic on numbers *)

Lemma num_eqb_Int a b : num_eqb (Int a) (Int b) = (a =? b).
Proof.
  unfold Int. cbn [num_eqb]. destruct (Z.eqb_spec a b) as [->|Hne].
  - apply Qeq_bool_iff. reflexivity.
  - destruct (Qeq_bool (inject_Z a) (inject_Z b)) eqn:E; [|done].
    apply Qeq_bool_iff in E. unfold Qeq in E. simpl in E. lia.
Qed.

Lemma num_eqb_refl x : isNaN x = false -> num_eqb x x = true.
Proof.
  destruct x as [|b|q]; [done| |]; intros _; cbn [num_eqb].
  - by destruct b.
  - apply Qeq_bool_iff. reflexivity.
Qed.

Lemma num_eqb_NaN x : num_eqb x NaN = false.
Proof. by destruct x. Qed.

Lemma num_eqb_trans x y z : num_eqb x y = true -> num_eqb x z = true -> num_eqb y z = true.
Proof.
  destruct x as [|a|p], y as [|b|q], z as [|c|r]; try done; cbn [num_eqb].
  - destruct a, b, c; done.
  - rewrite !Qeq_bool_iff. intros H1 H2. by rewrite <- H1, <- H2.
Qed.

Lemma inject_Z_nonzero b : b <> 0 -> ~ inject_Z b == 0.
Proof. intros Hb E. unfold Qeq in E. simpl in E. lia. Qed.

Lemma truncate_div_Int a b : 0 < b -> truncate (inject_Z a / inject_Z b) = Z.quot a b.
Proof.
  intros Hb. destruct b as [|p|p]; [lia| |lia].
  unfold truncate, Qdiv, Qmult, Qinv, inject_Z. cbn [Qnum Qden].
  by rewrite Z.mul_1_r, Pos.mul_1_l.
Qed.

Lemma num_rem_Int a b : 0 < b -> num_rem (Int a) (Int b) = Int (Z.rem a b).
Proof.
  intros Hb. unfold Int at 1 2. cbn [num_rem]. unfold q_zero. cbn [Qnum inject_Z].
  destruct (Z.eqb_spec b 0) as [|Hne]; [lia|].
  rewrite truncate_div_Int by done. unfold fin, Int. f_equal.
  rewrite <- (inject_Z_Qred (Z.rem a b)). apply Qred_complete.
  rewrite (Z.rem_eq a b) by lia.
  unfold Z.sub. rewrite inject_Z_plus, inject_Z_opp, inject_Z_mult. reflexivity.
Qed.

Lemma Math_floor_div_Int a b :
  0 < b -> Math_floor (num_div (Int a) (Int b)) = Int (a / b).
Proof.
  intros Hb. unfold Int at 1 2. simpl.
  unfold q_zero. simpl. destruct (Z.eqb_spec b 0) as [|Hne]; [lia|].
  unfold fin, Math_floor. f_equal.
  rewrite Zdiv_Qdiv. apply Qfloor_comp. apply Qred_correct.
Qed.

Lemma Math_ceil_div_Int a b :
  0 < b -> Math_ceil (num_div (Int a) (Int b)) = Int (- ((- a) / b)).
Proof.
  intros Hb. unfold Int at 1 2. simpl.
  unfold q_zero. simpl. destruct (Z.eqb_spec b 0) as [|Hne]; [lia|].
  unfold fin, Math_ceil, Qceiling. f_equal. f_equal.
  rewrite Zdiv_Qdiv. apply Qfloor_comp.
  rewrite Qred_correct, inject_Z_opp.
  pose proof (inject_Z_nonzero b Hne) as Hq.
  field. exact Hq.
Qed.

(** ** Pages per day *)

Section PagesPerDayFacts.
Context {host : Host}.

(** X22. With a deadline that parses to a calendar day and a positive
    whole number of pages left, [calculatePagesPerDay] gives the pages
    themselves once the deadline has passed, and otherwise the least whole
    number of pages per day that finishes by the deadline, the days from
    today to the deadline both counted. *)
Theorem calculatePagesPerDay_least_rate now deadline p y m d rest :
  regular_zone host ->
  0 < p ->
  StringToNumber <$> split dash deadline = Int y :: Int m :: Int d :: rest ->
  ~ (0 <= y <= 99) -> ~ (0 <= YearFromDay (MakeDay y (m - 1) d) <= 99) ->
  in_calendar_range (MakeDay y (m - 1) d) -> in_calendar_range (MakeDay y (m - 1) d + 1) ->
  plain_year now -> in_calendar_range (localDay now) ->
  exists r,
    calculatePagesPerDay (DateValue now) (Int p) (Some deadline) = Some (Int r)
    /\ (MakeDay y (m - 1) d < localDay now -> r = p)
    /\ (localDay now <= MakeDay y (m - 1) d ->
        (r - 1) * (MakeDay y (m - 1) d - localDay now + 1) < p
        <= r * (MakeDay y (m - 1) d - localDay now + 1)).
Proof.
  intros Hz Hp Hparts Hy Hy' Hr Hr1 Hnow Hrnow.
  set (n := MakeDay y (m - 1) d - localDay now + 1).
  assert (Hne : nonempty deadline = true).
  { destruct deadline; [discriminate Hparts|done]. }
  unfold calculatePagesPerDay. rewrite Hne, num_le_Int.
  destruct (Z.leb_spec p 0); [lia|]. cbn [negb orb].
  rewrite (calculateDaysRemaining_string deadline y m d rest now) by assumption.
  fold n. rewrite num_le_Int.
  destruct (Z.leb_spec (Z.max 0 n) 0) as [Hle|Hgt].
  - exists p. split; [done|]. split; [done|]. lia.
  - rewrite Math_ceil_div_Int by lia. eexists. split; [reflexivity|].
    split; [lia|]. intros _.
    replace (Z.max 0 n) with n by lia.
    assert (Hn : 0 < n) by lia.
    pose proof (Z.div_mod (- p) n ltac:(lia)) as Hdm.
    pose proof (Z.mod_pos_bound (- p) n Hn) as Hmod.
    nia.
Qed.

(** X23. A deadline string whose year, month or day is missing or not a
    number counts as due: with pages left the answer is all of them.
    Without a deadline, with an empty one, or with no pages left, there is
    no answer. *)
Theorem calculatePagesPerDay_unparseable now deadline remainingPages :
  unparseable_deadline deadline -> nonempty deadline = true ->
  num_le remainingPages (Int 0) = false ->
  calculatePagesPerDay now remainingPages (Some deadline) = Some remainingPages
  /\ calculatePagesPerDay now remainingPages None = None
  /\ calculatePagesPerDay now remainingPages (Some "") = None
  /\ calculatePagesPerDay now (Int 0) (Some deadline) = None.
Proof.
  intros Hbad Hne Hpages. unfold calculatePagesPerDay.
  rewrite Hne, Hpages. cbn [negb orb].
  rewrite (calculateDaysRemaining_unparseable deadline now Hbad).
  by rewrite num_le_Int.
Qed.

End PagesPerDayFacts.

Lemma calculatePagesPerDay_least_rate_witness :
  exists r,
    @calculatePagesPerDay utc_host (DateValue 1724241600000) (Int 100) (Some "2024-08-31")
    = Some (Int r)
    /\ (MakeDay 2024 (8 - 1) 31 < @localDay utc_host 1724241600000 -> r = 100)
    /\ (@localDay utc_host 1724241600000 <= MakeDay 2024 (8 - 1) 31 ->
        (r - 1) * (MakeDay 2024 (8 - 1) 31 - @localDay utc_host 1724241600000 + 1) < 100
        <= r * (MakeDay 2024 (8 - 1) 31 - @localDay utc_host 1724241600000 + 1)).
Proof.
  refine (@calculatePagesPerDay_least_rate utc_host 1724241600000 "2024-08-31" 100
            2024 8 31 [] utc_host_regular _ _ _ _ _ _ _ _).
  - lia.
  - vm_compute; reflexivity.
  - vm_compute; intros [_ H]; exact (H eq_refl).
  - vm_compute; intros [_ H]; exact (H eq_refl).
  - vm_compute; reflexivity.
  - vm_compute; reflexivity.
  - vm_compute; intros [_ H]; exact (H eq_refl).
  - vm_compute; reflexivity.
Defined.

Lemma calculatePagesPerDay_unparseable_witness :
  @calculatePagesPerDay utc_host (DateValue 0) (Int 120) (Some "soon") = Some (Int 120).
Proof.
  refine (proj1 (@calculatePagesPerDay_unparseable utc_host (DateValue 0) "soon" (Int 120)
                   _ eq_refl eq_refl)).
  exists 0%nat. split; [lia|]. vm_compute. reflexivity.
Defined.

(** ** Volume deadlines and annual goals *)

(** X24. The deadline store is a map by volume id: a deadline set is the
    one read back, except that an empty deadline reads as none; other
    volumes are not affected by setting or removing; removing after
    setting equals removing; the annual goals are untouched.  After a
    removal, and for any id without a deadline, the read gives none --
    unless the id is the name of a member of [Object.prototype], where it
    gives the inherited member. *)
Theorem volumeDeadline_set_get_remove volumeId deadline settings :
  getVolumeDeadline volumeId (setVolumeDeadline volumeId deadline settings)
  = (if nonempty deadline then Some (Own deadline) else None)
  /\ getVolumeDeadline volumeId (removeVolumeDeadline volumeId settings)
     = (if inherited volumeId then Some (Inherited volumeId) else None)
  /\ (volumeDeadlines settings !! volumeId = None ->
      getVolumeDeadline volumeId settings
      = (if inherited volumeId then Some (Inherited volumeId) else None))
  /\ (forall other, other <> volumeId ->
        getVolumeDeadline other (setVolumeDeadline volumeId deadline settings)
        = getVolumeDeadline other settings
        /\ getVolumeDeadline other (removeVolumeDeadline volumeId settings)
           = getVolumeDeadline other settings)
  /\ removeVolumeDeadline volumeId (setVolumeDeadline volumeId deadline settings)
     = removeVolumeDeadline volumeId settings
  /\ annualGoals (setVolumeDeadline volumeId deadline settings) = annualGoals settings
  /\ annualGoals (removeVolumeDeadline volumeId settings) = annualGoals settings.
Proof.
  unfold getVolumeDeadline, setVolumeDeadline, removeVolumeDeadline, get_property.
  cbn [volumeDeadlines annualGoals]. cbv zeta.
  split; [by rewrite lookup_insert_eq|].
  split; [rewrite lookup_delete_eq; by destruct (inherited volumeId)|].
  split; [intros ->; by destruct (inherited volumeId)|].
  split.
  { intros other Hother.
    by rewrite lookup_insert_ne, lookup_delete_ne by done. }
  split; [|done].
  f_equal. apply map_eq. intros k.
  destruct (decide (k = volumeId)) as [->|Hk].
  - by rewrite !lookup_delete_eq.
  - by rewrite !lookup_delete_ne, lookup_insert_ne by done.
Qed.

(** X25. [setAnnualGoal] is an upsert by year: the year then reads the
    new target, the other years read as before, and a year without an
    entry reads 52.  The year is compared with [===], so for a year that
    is [NaN] every call appends an entry that no lookup ever finds. *)
Theorem setAnnualGoal_upsert targetVolumes year settings :
  (isNaN year = false ->
   getAnnualGoal year (setAnnualGoal targetVolumes year settings) = targetVolumes)
  /\ (forall other, num_eqb year other = false ->
        getAnnualGoal other (setAnnualGoal targetVolumes year settings)
        = getAnnualGoal other settings)
  /\ (isNaN year = true ->
      getAnnualGoal year (setAnnualGoal targetVolumes year settings) = Int 52
      /\ length (annualGoals (setAnnualGoal targetVolumes year settings))
         = S (length (annualGoals settings)))
  /\ (List.find (same_year year) (annualGoals settings) = None ->
      getAnnualGoal year settings = Int 52)
  /\ volumeDeadlines (setAnnualGoal targetVolumes year settings) = volumeDeadlines settings.
Proof.
  unfold getAnnualGoal, setAnnualGoal. cbn [annualGoals volumeDeadlines].
  split; [|split; [|split; [|split]]].
  - intros Hyear. rewrite find_upsert.
    + by destruct (List.find (same_year year) (annualGoals settings)).
    + done.
    + unfold same_year. cbn [annual_year]. by apply num_eqb_refl.
  - intros other Hother. rewrite find_upsert_other; [done|done| |].
    + intros g Hg. unfold same_year in *.
      destruct (num_eqb (annual_year g) other) eqn:E; [|done].
      by rewrite (num_eqb_trans _ _ _ Hg E) in Hother.
    + unfold same_year. by cbn [annual_year].
  - intros Hyear. destruct year; try done.
    assert (Hnone : forall l, List.find (same_year NaN) l = None).
    { intros l. induction l as [|g l IH]; [done|]. cbn [List.find].
      unfold same_year at 1. by rewrite num_eqb_NaN. }
    assert (Hidx : findIndex (same_year NaN) (annualGoals settings) = None).
    { destruct (findIndex (same_year NaN) (annualGoals settings)) as [i|] eqn:E; [|done].
      pose proof (length_upsert (same_year NaN) id
                    {| annual_year := NaN; annual_targetVolumes := targetVolumes |}
                    (annualGoals settings)) as Hlen.
      rewrite E, Hnone in Hlen. rewrite length_alter in Hlen. lia. }
    rewrite Hidx, Hnone. split; [done|]. rewrite length_app. simpl. lia.
  - by intros ->.
  - done.
Qed.

(** ** Days of the year *)

Section YearDays.
Context {host : Host}.

(** X26. [daysInYear] agrees with the calendar: for a valid date it is the
    number of days from 1 January of the local year to 1 January of the
    next, 366 in a leap year and 365 otherwise; for an invalid date it
    is 365. *)
Theorem daysInYear_calendar :
  (forall t,
     dateUtils.daysInYear (DateValue t)
     = Int (DayFromYear (YearFromTime (LocalTime t) + 1)
            - DayFromYear (YearFromTime (LocalTime t))))
  /\ (forall t,
        dateUtils.daysInYear (DateValue t) = Int (DaysInYear (YearFromTime (LocalTime t))))
  /\ dateUtils.daysInYear InvalidDate = Int 365.
Proof.
  assert (H : forall t, dateUtils.daysInYear (DateValue t)
                        = Int (DaysInYear (YearFromTime (LocalTime t)))).
  { intros t. unfold dateUtils.daysInYear, getFullYear.
    rewrite !num_rem_Int, !num_eqb_Int by lia.
    unfold DaysInYear.
    set (y := YearFromTime (LocalTime t)).
    pose proof (Z.rem_mod_eq_0 y 4 ltac:(lia)) as H4.
    pose proof (Z.rem_mod_eq_0 y 100 ltac:(lia)) as H100.
    pose proof (Z.rem_mod_eq_0 y 400 ltac:(lia)) as H400.
    assert (y mod 400 = 0 -> y mod 100 = 0) by (Z.div_mod_to_equations; lia).
    assert (y mod 100 = 0 -> y mod 4 = 0) by (Z.div_mod_to_equations; lia).
    destruct (Z.eqb_spec (Z.rem y 4) 0); destruct (Z.eqb_spec (Z.rem y 100) 0);
      destruct (Z.eqb_spec (Z.rem y 400) 0);
      destruct (Z.eqb_spec (y mod 4) 0); destruct (Z.eqb_spec (y mod 100) 0);
      destruct (Z.eqb_spec (y mod 400) 0); simpl; try reflexivity; tauto. }
  split; [|split; [exact H|reflexivity]].
  intros t. rewrite H, DayFromYear_succ. f_equal. lia.
Qed.

(** X27. [daysIntoYear] floors the days between the local midnight of
    1 January and that of the date.  It is the day of the year counted
    from 1 when the offset from UTC at the date's midnight does not exceed
    the offset at the year's first midnight, and one less when it does,
    as on a summer-time day. *)
Theorem daysIntoYear_offset t :
  regular_zone host -> plain_year t ->
  in_calendar_range (localDay t) ->
  in_calendar_range (DayFromYear (YearFromTime (LocalTime t))) ->
  dateUtils.daysIntoYear (DateValue t)
  = Int (DayWithinYear (LocalTime t) + 1
         - (if LocalTZA_local (DayFromYear (YearFromTime (LocalTime t)) * msPerDay)
               <? LocalTZA_local (localDay t * msPerDay)
            then 1 else 0)).
Proof.
  intros Hz Hplain Hrange Hrange0.
  unfold dateUtils.daysIntoYear.
  rewrite (Date_new_components_0 t Hplain).
  unfold getFullYear. rewrite (Date_new_Int _ 0 1 Hplain).
  rewrite MakeDay_month by lia. change (monthStart 0 _) with 0. rewrite Z.add_0_r.
  rewrite !localMidnight_valid by assumption. cbn [getTime].
  rewrite num_sub_Int. change (1000 * 60 * 60 * 24) with msPerDay.
  rewrite Math_floor_div_Int by reflexivity. rewrite num_add_Int. f_equal.
  unfold DayWithinYear, UTC. fold (localDay t).
  set (a := DayFromYear (YearFromTime (LocalTime t))).
  set (b := localDay t).
  pose proof (zone_drift host Hz (b * msPerDay) (a * msPerDay)) as Hd.
  set (La := LocalTZA_local (a * msPerDay)) in *.
  set (Lb := LocalTZA_local (b * msPerDay)) in *.
  unfold msPerDay in *.
  destruct (Z.ltb_spec La Lb); Z.div_mod_to_equations; lia.
Qed.

End YearDays.

Lemma daysIntoYear_offset_witness :
  @dateUtils.daysIntoYear cet_host (DateValue 1719828000000) = Int 182.
Proof.
  refine (@daysIntoYear_offset cet_host 1719828000000 cet_host_regular _ _ _).
  - vm_compute; intros [_ H]; exact (H eq_refl).
  - vm_compute; reflexivity.
  - vm_compute; reflexivity.
Defined.

(** ** Reading a local midnight back *)

Lemma DayFromYear_mono a b : a <= b -> DayFromYear a <= DayFromYear b.
Proof. intros H. unfold DayFromYear. Z.div_mod_to_equations. lia. Qed.

Lemma DayFromYear_back y i : 0 <= i -> DayFromYear (y - i) <= DayFromYear y - i.
Proof. intros H. unfold DayFromYear. Z.div_mod_to_equations. lia. Qed.

Lemma YearFromDay_lower a d : DayFromYear a <= d -> a <= YearFromDay d.
Proof.
  intros H. pose proof (YearFromDay_spec d) as Hs.
  destruct (Z.le_gt_cases a (YearFromDay d)) as [|Hlt]; [done|].
  pose proof (DayFromYear_mono (YearFromDay d + 1) a ltac:(lia)). lia.
Qed.

Lemma YearFromDay_upper a d : d < DayFromYear (a + 1) -> YearFromDay d <= a.
Proof.
  intros H. pose proof (YearFromDay_spec d) as Hs.
  destruct (Z.le_gt_cases (YearFromDay d) a) as [|Hlt]; [done|].
  pose proof (DayFromYear_mono (a + 1) (YearFromDay d) ltac:(lia)). lia.
Qed.

Lemma YearFromDay_unique y d :
  DayFromYear y <= d < DayFromYear (y + 1) -> YearFromDay d = y.
Proof.
  intros H. pose proof (YearFromDay_lower y d ltac:(lia)).
  pose proof (YearFromDay_upper y d ltac:(lia)). lia.
Qed.

Lemma MonthFromDayInYear_monthStart m leap :
  0 <= m <= 11 -> 0 <= leap <= 1 -> MonthFromDayInYear (monthStart m leap) leap = m.
Proof.
  intros Hm Hl.
  assert (m = 0 \/ m = 1 \/ m = 2 \/ m = 3 \/ m = 4 \/ m = 5 \/ m = 6 \/ m = 7 \/ m = 8
          \/ m = 9 \/ m = 10 \/ m = 11) as Hc by lia.
  repeat (destruct Hc as [Hc|Hc]; [subst m|]); try subst m;
    unfold monthStart; simpl; unfold MonthFromDayInYear;
    repeat match goal with
           | |- context [?a <? ?b] => destruct (Z.ltb_spec a b); try lia
           end.
Qed.

(** The first of a month, given as a year and a month index that may run
    over or under, read back as a calendar day. *)
Lemma first_of_month_components y m :
  let n := MakeDay y m 1 in
  YearFromDay n = y + m / 12
  /\ MonthFromDayInYear (n - DayFromYear (YearFromDay n)) (InLeapYear (YearFromDay n))
     = m mod 12.
Proof.
  cbv zeta. unfold MakeDay.
  set (ym := y + m / 12). set (mn := m mod 12).
  assert (Hmn : 0 <= mn <= 11) by (subst mn; Z.div_mod_to_equations; lia).
  destruct (InLeapYear_range ym) as [Hl Hd].
  pose proof (monthStart_cases mn (InLeapYear ym) Hmn) as Hc.
  assert (Hy : YearFromDay (DayFromYear ym + monthStart mn (InLeapYear ym) + 1 - 1) = ym).
  { apply YearFromDay_unique. rewrite DayFromYear_succ, Hd. lia. }
  rewrite Hy. split; [done|].
  replace (DayFromYear ym + monthStart mn (InLeapYear ym) + 1 - 1 - DayFromYear ym)
    with (monthStart mn (InLeapYear ym)) by lia.
  by apply MonthFromDayInYear_monthStart.
Qed.

Lemma calendar_range_of_year n :
  100 <= YearFromDay n <= 275759 -> in_calendar_range n.
Proof.
  intros Hy. pose proof (YearFromDay_spec n) as Hs.
  pose proof (DayFromYear_mono 100 (YearFromDay n) ltac:(lia)) as H1.
  pose proof (DayFromYear_mono (YearFromDay n + 1) 275760 ltac:(lia)) as H2.
  assert (H100 : DayFromYear 100 = -683003) by (by vm_compute).
  assert (Hmax : DayFromYear 275760 = 99999744) by (by vm_compute).
  unfold in_calendar_range. lia.
Qed.

Section LocalMidnights.
Context {host : Host}.

(** In a regular zone the local midnight of day [n] is a valid date whose
    local day is [n]. *)
Lemma localMidnight_read_back n :
  regular_zone host -> 100 <= YearFromDay n <= 275759 ->
  exists t, localMidnight n = DateValue t
            /\ localDay t = n
            /\ YearFromTime (LocalTime t) = YearFromDay n.
Proof.
  intros Hz Hy. exists (UTC (n * msPerDay)).
  split; [apply localMidnight_valid; [done|by apply calendar_range_of_year]|].
  pose proof (zone_midnight host Hz n) as Hn.
  split; [done|]. unfold YearFromTime. unfold localDay in Hn. by rewrite Hn.
Qed.

End LocalMidnights.

(** ** Recent periods *)

Section RecentPeriodsFacts.
Context {host : Host}.

Lemma recent_month_date t i :
  regular_zone host -> 0 <= i ->
  100 + i <= YearFromTime (LocalTime t) <= 275759 ->
  exists t',
    Date_new (getFullYear (DateValue t)) (num_sub (getMonth (DateValue t)) (Int i)) (Int 1)
    = DateValue t'
    /\ YearFromTime (LocalTime t')
       = YearFromTime (LocalTime t) + (MonthFromTime (LocalTime t) - i) / 12
    /\ MonthFromTime (LocalTime t') = (MonthFromTime (LocalTime t) - i) mod 12.
Proof.
  intros Hz Hi Hy. unfold getFullYear, getMonth. rewrite num_sub_Int.
  rewrite Date_new_Int by lia.
  set (y := YearFromTime (LocalTime t)) in *.
  set (m := MonthFromTime (LocalTime t)).
  destruct (month_of_instant (LocalTime t)) as (Hm & _ & _). fold m in Hm.
  destruct (first_of_month_components y (m - i)) as [Hyear Hmonth].
  assert (Hym : 100 <= y + (m - i) / 12 <= 275759)
    by (Z.div_mod_to_equations; lia).
  destruct (localMidnight_read_back (MakeDay y (m - i) 1) Hz) as (t' & Ht' & Hday & Hyr).
  { by rewrite Hyear. }
  exists t'. split; [done|]. split; [by rewrite Hyr|].
  unfold MonthFromTime, DayWithinYear. unfold localDay in Hday.
  by rewrite Hyr, Hday.
Qed.

Lemma recent_day_date t i :
  regular_zone host -> 0 <= i ->
  100 + i <= YearFromTime (LocalTime t) <= 275759 ->
  exists t',
    Date_new (getFullYear (DateValue t)) (getMonth (DateValue t))
             (num_sub (getDate (DateValue t)) (Int i))
    = DateValue t'
    /\ localMidnight (localDay t - i) = DateValue t'
    /\ localDay t' = localDay t - i
    /\ 100 <= YearFromTime (LocalTime t') <= 275759.
Proof.
  intros Hz Hi Hy. unfold getFullYear, getMonth, getDate. rewrite num_sub_Int.
  rewrite Date_new_Int by lia.
  replace (DateFromTime (LocalTime t) - i) with (DateFromTime (LocalTime t) + - i) by lia.
  rewrite MakeDay_components.
  pose proof (YearFromDay_spec (Day (LocalTime t))) as Hs.
  fold (YearFromTime (LocalTime t)) in Hs.
  set (y := YearFromTime (LocalTime t)) in *.
  assert (Hyear : y - i <= YearFromDay (Day (LocalTime t) + - i) <= y).
  { split.
    - apply YearFromDay_lower. pose proof (DayFromYear_back y i Hi). lia.
    - apply YearFromDay_upper. lia. }
  destruct (localMidnight_read_back (Day (LocalTime t) + - i) Hz) as (t' & Ht' & Hday & Hyr);
    [lia|].
  exists t'. split; [done|].
  split; [unfold localDay; by rewrite <- Ht'|].
  split; [unfold localDay in *; lia|]. rewrite Hyr. lia.
Qed.

Lemma components_of_localDay t1 t2 :
  localDay t1 = localDay t2 ->
  getFullYear (DateValue t1) = getFullYear (DateValue t2)
  /\ getMonth (DateValue t1) = getMonth (DateValue t2)
  /\ getDate (DateValue t1) = getDate (DateValue t2).
Proof.
  unfold localDay. intros H.
  unfold getFullYear, getMonth, getDate, DateFromTime, MonthFromTime, DayWithinYear,
    YearFromTime.
  by rewrite H.
Qed.

(** X28. [getRecentPeriods] lists [count] periods, the current one first,
    and each is the period that its own key resolves to: label, start and
    end of a listed period are those [getPeriodForSelection] gives for the
    period's key. *)
Theorem getRecentPeriods_resolve now goalType count :
  regular_zone host ->
  100 + count <= YearFromTime (LocalTime now) <= 275759 ->
  length (getRecentPeriods (DateValue now) goalType count) = Z.to_nat count
  /\ (forall p, p ∈ getRecentPeriods (DateValue now) goalType count ->
        getPeriodForSelection (PeriodSelection goalType (period_periodKey p)) = Some p)
  /\ (0 < count ->
      exists p, head (getRecentPeriods (DateValue now) goalType count) = Some p
                /\ period_periodKey p = getCurrentPeriodKey (DateValue now) goalType).
Proof.
  intros Hz Hy.
  set (y := YearFromTime (LocalTime now)) in *.
  destruct (month_of_instant (LocalTime now)) as (Hm & Hd & _).
  set (m := MonthFromTime (LocalTime now)) in *.
  split; [destruct goalType; unfold getRecentPeriods; by rewrite length_fmap, length_seqZ|].
  split.
  - intros p Hp. destruct goalType; unfold getRecentPeriods in Hp;
      apply list_elem_of_fmap in Hp as (i & -> & Hi); apply elem_of_seqZ in Hi;
      cbv zeta.
    + (* year *)
      unfold getFullYear. fold y. rewrite num_sub_Int. cbn [period_periodKey].
      apply resolve_year_key. lia.
    + (* season *)
      unfold dateUtils.seasonIndex, getFullYear, getMonth. fold y m.
      rewrite (seasonIndex_Int m Hm), num_sub_Int.
      rewrite Math_floor_div_Int by lia.
      rewrite (num_rem_Int _ 4) by lia. rewrite !num_add_Int.
      rewrite (num_rem_Int _ 4) by lia.
      set (s := Z.rem (Z.rem (m / 3 - i) 4 + 4) 4).
      assert (Hs : 0 <= s <= 3).
      { subst s. pose proof (Z.rem_bound_abs (m / 3 - i) 4 ltac:(lia)).
        pose proof (Z.rem_bound_pos (Z.rem (m / 3 - i) 4 + 4) 4 ltac:(lia) ltac:(lia)).
        lia. }
      assert (Hyr : 100 <= y + (m / 3 - i) / 4 <= 275760)
        by (Z.div_mod_to_equations; lia).
      unfold dateUtils.seasonRange at 1. cbn [period_periodKey].
      rewrite (resolve_season_key _ _ Hyr Hs).
      unfold dateUtils.seasonRange. cbn [fst snd]. reflexivity.
    + (* month *)
      destruct (recent_month_date now i Hz ltac:(lia) ltac:(lia)) as (t' & -> & Hyr & Hmn).
      unfold getFullYear, getMonth. rewrite Hyr, Hmn. fold y m.
      assert (Hyr' : 100 <= y + (m - i) / 12 <= 275760)
        by (Z.div_mod_to_equations; lia).
      assert (Hmn' : 0 <= (m - i) mod 12 <= 11) by (Z.div_mod_to_equations; lia).
      unfold dateUtils.monthRange at 1. cbn [period_periodKey].
      rewrite (resolve_month_key _ _ Hyr' Hmn').
      unfold dateUtils.monthRange. cbn [fst snd]. reflexivity.
    + (* today *)
      destruct (recent_day_date now i Hz ltac:(lia) ltac:(lia))
        as (t' & -> & Hmid & Hday & Hyr).
      cbn [period_periodKey]. rewrite resolve_today_key by lia.
      unfold dateUtils.startOfDay.
      assert (Hplain : plain_year t') by (unfold plain_year; lia).
      assert (Hback : Date_new (getFullYear (DateValue t')) (getMonth (DateValue t'))
                               (getDate (DateValue t'))
                      = DateValue t').
      { by rewrite (Date_new_components_0 t' Hplain), Hday. }
      by rewrite Hback.
  - intros Hcount. destruct goalType; unfold getRecentPeriods;
      rewrite (seqZ_cons 0 count Hcount), fmap_cons; cbn [head];
      eexists; (split; [reflexivity|]); cbv zeta; cbn [getCurrentPeriodKey].
    + (* year *)
      unfold getFullYear. by rewrite num_sub_Int, Z.sub_0_r.
    + (* season *)
      unfold dateUtils.seasonIndex, getFullYear, getMonth. fold y m.
      rewrite (seasonIndex_Int m Hm), num_sub_Int, Z.sub_0_r.
      rewrite Math_floor_div_Int by lia.
      rewrite (num_rem_Int _ 4) by lia. rewrite !num_add_Int.
      rewrite (num_rem_Int _ 4) by lia.
      assert (Hk : 0 <= m / 3 <= 3) by (Z.div_mod_to_equations; lia).
      rewrite (Z.div_small (m / 3) 4), Z.add_0_r by lia.
      rewrite (Z.rem_small (m / 3) 4) by lia.
      rewrite Z.rem_mod_nonneg by lia.
      replace ((m / 3 + 4) mod 4) with (m / 3) by (Z.div_mod_to_equations; lia).
      by destruct (dateUtils.seasonRange (Int y) (Int (m / 3))).
    + (* month *)
      destruct (recent_month_date now 0 Hz ltac:(lia) ltac:(lia)) as (t' & -> & Hyr & Hmn).
      fold y m in Hyr, Hmn. rewrite Z.sub_0_r in Hyr, Hmn.
      rewrite (Z.div_small m 12), Z.add_0_r in Hyr by lia.
      rewrite (Z.mod_small m 12) in Hmn by lia.
      unfold getFullYear, getMonth. rewrite Hyr, Hmn. fold y m.
      by destruct (dateUtils.monthRange (Int y) (Int m)).
    + (* today *)
      destruct (recent_day_date now 0 Hz ltac:(lia) ltac:(lia))
        as (t' & -> & _ & Hday & _).
      rewrite Z.sub_0_r in Hday.
      destruct (components_of_localDay t' now Hday) as (Hc1 & Hc2 & Hc3).
      cbn [period_periodKey]. unfold buildTodayKey, dateUtils.formatDate.
      by rewrite Hc1, Hc2, Hc3.
Qed.

End RecentPeriodsFacts.

Lemma getRecentPeriods_resolve_witness :
  length (@getRecentPeriods cet_host (DateValue 1719828000000) Month 8) = 8%nat.
Proof.
  refine (proj1 (@getRecentPeriods_resolve cet_host 1719828000000 Month 8
                   cet_host_regular _)).
  by vm_compute.
Defined.

(** ** The ledger in storage *)

Lemma loadCompletedAtMapFromVolumes_lookup ls id :
  loadCompletedAtMapFromVolumes true ls !! id
  = if String.eqb id "__proto__" then None
    else
      match ls_volumes ls with
      | Some payload =>
          match payload !! id with
          | Some record =>
              match record !! "completedAt" with
              | Some candidate => if nonempty candidate then Some candidate else None
              | None => None
              end
          | None => None
          end
      | None => None
      end.
Proof.
  unfold loadCompletedAtMapFromVolumes. cbn [negb].
  destruct (ls_volumes ls) as [payload|];
    [|rewrite lookup_empty; by destruct (String.eqb id "__proto__")].
  rewrite (forEach_entries_lookup
             (fun (key : string) (value : gmap string string) (old : option string) =>
                match value !! "completedAt" with
                | Some candidate =>
                    if nonempty candidate then
                      match old with
                      | Some _ => Some candidate
                      | None => if String.eqb key "__proto__" then None else Some candidate
                      end
                    else None
                | None => None
                end)).
  - rewrite lookup_empty. destruct (payload !! id) as [record|];
      [|by destruct (String.eqb id "__proto__")].
    destruct (record !! "completedAt") as [c|];
      [|by destruct (String.eqb id "__proto__")].
    destruct (nonempty c); by destruct (String.eqb id "__proto__").
  - intros acc key v. destruct (v !! "completedAt") as [c|]; [|done].
    destruct (nonempty c); [|done]. unfold set_property.
    destruct (acc !! key); [done|]. by destruct (String.eqb key "__proto__").
Qed.

Section StoredLedger.
Context {host : Host}.

(** X29. What is read back after the ledger was written into the stored
    progress log.  For a volume with a ledger entry: the entry if it is
    not empty (none if it is empty), provided the volume has a stored
    record or its id is the name of a member of [Object.prototype], where
    the write creates a record; otherwise nothing.  For a volume without
    a ledger entry: what was stored before.  Nothing is ever read under
    ["__proto__"], which the assignment in the loader cannot set.
    Outside the browser the ledger read is empty. *)
Theorem completedAt_persist_then_load now (map : gmap string string) ls payload
    (id : string) :
  ls_volumes ls = Some payload -> map !! "__proto__" = None ->
  loadCompletedAtMapFromVolumes true (persistCompletedAtMapToVolumes true now map ls) !! id
  = (if String.eqb id "__proto__" then None
     else
       match map !! id with
       | Some completedAt =>
           match payload !! id with
           | Some record => if nonempty completedAt then Some completedAt else None
           | None =>
               if inherited id
               then (if nonempty completedAt then Some completedAt else None)
               else None
           end
       | None => loadCompletedAtMapFromVolumes true ls !! id
       end)
  /\ loadCompletedAtMapFromVolumes false ls = ∅.
Proof.
  intros Hls Hproto. split; [|done].
  rewrite !loadCompletedAtMapFromVolumes_lookup.
  unfold persistCompletedAtMapToVolumes. cbn [negb]. rewrite Hls. cbn [ls_volumes].
  rewrite persist_payload_lookup.
  destruct (String.eqb_spec id "__proto__") as [->|Hne]; [done|].
  destruct (map !! id) as [c|]; [|done].
  destruct (payload !! id) as [record|].
  - by rewrite lookup_insert_eq.
  - rewrite andb_true_r. destruct (inherited id); [|done].
    by rewrite lookup_singleton_eq.
Qed.

End StoredLedger.

Lemma completedAt_persist_then_load_witness :
  loadCompletedAtMapFromVolumes true
    (@persistCompletedAtMapToVolumes utc_host true 0
       {[ "v1" := "2024-01-05T10:00:00.000Z"; "v2" := "2024-02-01T08:00:00.000Z" ]}
       storage_done) !! "v2"
  = None.
Proof.
  refine (proj1 (@completedAt_persist_then_load utc_host 0
                   {[ "v1" := "2024-01-05T10:00:00.000Z";
                      "v2" := "2024-02-01T08:00:00.000Z" ]}
                   storage_done {[ "v1" := {[ "progress" := "180" ]} ]} "v2" eq_refl _)).
  by vm_compute.
Defined.

(** ** Live counting *)

Lemma size_filter_map_to_list {V : Type} (P : string * V -> Prop)
    `{!forall x, Decision (P x)} (m : gmap string V) :
  size (filter P m) = length (filter P (map_to_list m)).
Proof.
  rewrite <- length_map_to_list. apply Permutation_length.
  apply NoDup_Permutation.
  - apply NoDup_map_to_list.
  - apply NoDup_filter, NoDup_map_to_list.
  - intros [k v]. rewrite elem_of_map_to_list, map_lookup_filter_Some.
    rewrite list_elem_of_filter, elem_of_map_to_list. tauto.
Qed.

Section LiveCounts.
Context {host : Host}.

(** The counters of the live computation, volume by volume. *)
Lemma live_counts_by_volume (ledger : gmap string string) period
    (volumes : gmap string VolumeData) (catalog : gmap string CatalogVolume) :
  let done_in_period (kv : string * VolumeData) :=
    truthy_at ledger kv.1
    && isDateWithinRange (default "" (ledger !! kv.1))
         (period_start period) (period_end period) = true in
  let reading_in_period (kv : string * VolumeData) :=
    negb (truthy_at ledger kv.1
          && isDateWithinRange (default "" (ledger !! kv.1))
               (period_start period) (period_end period))
    && (num_gt (progress kv.2) (Int 1) && num_gt (totalPages_of catalog kv.1) (Int 0))
    && match lastProgressUpdate kv.2 with
       | Some lastUpdate =>
           nonempty lastUpdate
           && isDateWithinRange lastUpdate (period_start period) (period_end period)
       | None => false
       end = true in
  let '(completedVolumes, inProgressVolumes, _, _) :=
    live_counts ledger period volumes catalog in
  completedVolumes = Int (Z.of_nat (size (filter done_in_period volumes)))
  /\ inProgressVolumes = Int (Z.of_nat (size (filter reading_in_period volumes)))
  /\ (size (filter done_in_period volumes) + size (filter reading_in_period volumes)
      <= size volumes)%nat.
Proof.
  intros done_in_period reading_in_period.
  assert (Hfold : forall l a b c d,
            let '(completedVolumes, inProgressVolumes, _, _) :=
              foldl (fun acc entry =>
                       (fun (acc : number * number * number * number) volumeId volumeData =>
                          let '(completedVolumes, inProgressVolumes, totalPartialProgress,
                                totalRemainingPages) := acc in
                          let totalPages := totalPages_of catalog volumeId in
                          let currentPage := progress volumeData in
                          if truthy_at ledger volumeId
                             && isDateWithinRange (default "" (ledger !! volumeId))
                                  (period_start period) (period_end period)
                          then (num_add completedVolumes (Int 1), inProgressVolumes,
                                totalPartialProgress, totalRemainingPages)
                          else if num_gt currentPage (Int 1) && num_gt totalPages (Int 0) then
                            match lastProgressUpdate volumeData with
                            | Some lastUpdate =>
                                if nonempty lastUpdate
                                   && isDateWithinRange lastUpdate (period_start period)
                                        (period_end period)
                                then (completedVolumes, num_add inProgressVolumes (Int 1),
                                      num_add totalPartialProgress
                                        (num_div currentPage totalPages),
                                      num_add totalRemainingPages
                                        (num_sub totalPages currentPage))
                                else acc
                            | None => acc
                            end
                          else acc) acc entry.1 entry.2)
                    (Int a, Int b, c, d) l in
            completedVolumes = Int (a + Z.of_nat (length (filter done_in_period l)))
            /\ inProgressVolumes = Int (b + Z.of_nat (length (filter reading_in_period l)))
            /\ (length (filter done_in_period l) + length (filter reading_in_period l)
                <= length l)%nat).
  { induction l as [|[id vd] l IH]; intros a b c d.
    - cbn [foldl]. rewrite !Z.add_0_r. done.
    - cbn [foldl fst snd]. 
      destruct (truthy_at ledger id
                && isDateWithinRange (default "" (ledger !! id))
                     (period_start period) (period_end period)) eqn:Hdone.
      + rewrite num_add_Int.
        rewrite (filter_cons_True done_in_period) by (unfold done_in_period; done).
        rewrite (filter_cons_False reading_in_period)
          by (unfold reading_in_period; cbn [fst snd]; by rewrite Hdone).
        specialize (IH (a + 1) b c d).
        destruct (foldl _ _ l) as [[[cv iv] pv] rv].
        destruct IH as (-> & -> & Hle). cbn [length].
        split; [f_equal; lia|]. split; [done|lia].
      + rewrite (filter_cons_False done_in_period)
          by (unfold done_in_period; cbn [fst snd]; by rewrite Hdone).
        destruct (num_gt (progress vd) (Int 1) && num_gt (totalPages_of catalog id) (Int 0))
          eqn:Hread.
        * destruct (lastProgressUpdate vd) as [lastUpdate|] eqn:Hlast.
          -- destruct (nonempty lastUpdate
                       && isDateWithinRange lastUpdate (period_start period)
                            (period_end period)) eqn:Hin.
             ++ rewrite num_add_Int.
                rewrite (filter_cons_True reading_in_period)
                  by (unfold reading_in_period; cbn [fst snd];
                      by rewrite Hdone, Hread, Hlast, Hin).
                specialize (IH a (b + 1) (num_add c (num_div (progress vd)
                                                       (totalPages_of catalog id)))
                              (num_add d (num_sub (totalPages_of catalog id)
                                            (progress vd)))).
                destruct (foldl _ _ l) as [[[cv iv] pv] rv].
                destruct IH as (-> & -> & Hle). cbn [length].
                split; [done|]. split; [f_equal; lia|lia].
             ++ rewrite (filter_cons_False reading_in_period)
                  by (unfold reading_in_period; cbn [fst snd];
                      by rewrite Hdone, Hread, Hlast, Hin).
                specialize (IH a b c d).
                destruct (foldl _ _ l) as [[[cv iv] pv] rv].
                destruct IH as (-> & -> & Hle). cbn [length].
                split; [done|]. split; [done|lia].
          -- rewrite (filter_cons_False reading_in_period)
               by (unfold reading_in_period; cbn [fst snd];
                   by rewrite Hdone, Hread, Hlast).
             specialize (IH a b c d).
             destruct (foldl _ _ l) as [[[cv iv] pv] rv].
             destruct IH as (-> & -> & Hle). cbn [length].
             split; [done|]. split; [done|lia].
        * rewrite (filter_cons_False reading_in_period)
            by (unfold reading_in_period; cbn [fst snd];
                rewrite Hdone, Hread; done).
          specialize (IH a b c d).
          destruct (foldl _ _ l) as [[[cv iv] pv] rv].
          destruct IH as (-> & -> & Hle). cbn [length].
          split; [done|]. split; [done|lia]. }
  unfold live_counts, forEach_entries.
  specialize (Hfold (map_to_list volumes) 0 0 (Int 0) (Int 0)).
  rewrite !size_filter_map_to_list, <- (length_map_to_list volumes).
  destruct (foldl _ _ (map_to_list volumes)) as [[[cv iv] pv] rv].
  destruct Hfold as (-> & -> & Hle). done.
Qed.

(** X30. While no frozen snapshot is in force (the period is still open,
    or it is closed but has no snapshot), the report counts volumes from
    the progress log: a volume is completed when its ledger entry is not
    empty and lies in the period, whatever its progress and its completed
    flag say; otherwise it is in progress when it is past page 1 of a
    known positive page count and its last progress update lies in the
    period.  Each volume of the log is counted at most once, a ledger
    entry of a volume that the log does not hold is not counted, and
    without a progress log nothing is counted. *)
Theorem activeGoalProgress_live_counts now (ledger : gmap string string) selection targets
    customGoals (volumes : gmap string VolumeData) catalog
    (snapshots : gmap string GoalSnapshot) period :
  activeGoalPeriod selection customGoals = Some period ->
  date_le (period_end period) (DateValue now) = false
  \/ snapshots !! buildGoalSnapshotKey (period_goalType period) (period_periodKey period)
     = None ->
  let done_in_period (kv : string * VolumeData) :=
    truthy_at ledger kv.1
    && isDateWithinRange (default "" (ledger !! kv.1))
         (period_start period) (period_end period) = true in
  let reading_in_period (kv : string * VolumeData) :=
    negb (truthy_at ledger kv.1
          && isDateWithinRange (default "" (ledger !! kv.1))
               (period_start period) (period_end period))
    && (num_gt (progress kv.2) (Int 1) && num_gt (totalPages_of catalog kv.1) (Int 0))
    && match lastProgressUpdate kv.2 with
       | Some lastUpdate =>
           nonempty lastUpdate
           && isDateWithinRange lastUpdate (period_start period) (period_end period)
       | None => false
       end = true in
  let report :=
    activeGoalProgress now ledger selection targets customGoals (Some volumes) catalog
      snapshots in
  completedVolumes report = Int (Z.of_nat (size (filter done_in_period volumes)))
  /\ inProgressVolumes report = Int (Z.of_nat (size (filter reading_in_period volumes)))
  /\ (size (filter done_in_period volumes) + size (filter reading_in_period volumes)
      <= size volumes)%nat
  /\ completedVolumes
       (activeGoalProgress now ledger selection targets customGoals None catalog snapshots)
     = Int 0.
Proof.
  intros Hperiod Hlive done_in_period reading_in_period report.
  pose proof (live_counts_by_volume ledger period volumes catalog) as Hcounts.
  cbv zeta in Hcounts. fold done_in_period reading_in_period in Hcounts.
  subst report. unfold activeGoalProgress.
  replace (match selection with
           | PeriodSelection _ _ => getPeriodForSelection selection
           | CustomSelection _ => getCustomPeriod selection customGoals
           end) with (Some period)
    by (rewrite <- Hperiod; by destruct selection).
  cbv beta iota zeta.
  replace (if date_le (period_end period) (DateValue now)
           then snapshots !! buildGoalSnapshotKey (period_goalType period)
                               (period_periodKey period)
           else None) with (@None GoalSnapshot)
    by (destruct Hlive as [-> | ->]; [done|by destruct (date_le _ _)]).
  destruct (live_counts ledger period volumes catalog) as [[[cv iv] pv] rv].
  destruct Hcounts as (-> & -> & Hle). done.
Qed.

End LiveCounts.

Lemma activeGoalProgress_live_counts_witness :
  completedVolumes
    (@activeGoalProgress utc_host 1700000000000 ledger_2023 (PeriodSelection Year "2023")
       [] [] (Some volumes_2023) ∅ ∅)
  = Int 1.
Proof.
  edestruct (@activeGoalProgress_live_counts utc_host 1700000000000 ledger_2023
               (PeriodSelection Year "2023") [] [] volumes_2023 ∅ ∅ period_2023)
    as (Hcount & _).
  - vm_compute. reflexivity.
  - left. vm_compute. reflexivity.
  - rewrite Hcount. vm_compute. reflexivity.
Defined.
